(** * MEDSHOP: cart, checkout, order tracking, order status and site settings

    A shallow embedding of the request handlers of [medicines/views.py],
    [medicines/views_admin.py] and of the models of [medicines/models.py]
    they work on.

    Conventions of the embedding.
    - A [DecimalField(decimal_places=2)] value is the integer number of
      hundredths it denotes ([90.00] is [9000]).  A product with an [int]
      and a sum of such decimals is computed as Python's [Decimal] computes
      it: exactly, and then rounded to the 28 significant digits of the
      default context.
    - A table is the list of its rows in storage order; the auto-increment
      sequence of a table is a counter kept next to it.
    - A Python exception that a handler does not catch ends the request;
      [Http404] becomes the not-found response, any other one the server
      error response.  Rows written before the exception stay written
      (no handler runs in a transaction).
    - The [NOT NULL] of a column is modelled, and so are the two limits
      of the rows the cart and checkout handlers write: an [int] goes into
      an integer column when it has 64 bits ([OverflowError] otherwise),
      and into a [PositiveIntegerField] when it is not negative.  The
      database takes a [Decimal] of any width; the [max_digits] of
      [Order.total_amount] is met when [order_success] reads the order
      back ([fits_decimal]), and the other handlers that read orders are
      modelled for tables whose totals have that width.  [max_length] is
      not modelled.
    - The builtins [str] (on [int]), [int] (on [str]) and [str.strip] are
      parameters of the development, with the one law [int(str(n)) == n]. *)

From Stdlib Require Import ZArith List String Ascii Bool Lia.
From Stdlib Require Import Permutation Sorted.
From Stdlib Require Import DecimalString DecimalZ.
Import ListNotations.

Local Open Scope string_scope.
Local Open Scope list_scope.
Local Open Scope Z_scope.

Set Implicit Arguments.

(** ** Python builtins *)

Class PyBuiltins := {
  py_str : Z -> string;             (* str(n), n an int *)
  py_int : string -> option Z;      (* int(s); [None] stands for ValueError *)
  py_strip : string -> string;      (* s.strip() *)
  py_int_str : forall n, py_int (py_str n) = Some n
}.

Infix "+s+" := String.append (at level 60, right associativity).

(** Truthiness of a [str]. *)
Definition truthy (s : string) : bool :=
  match s with EmptyString => false | _ => true end.

(** How an f-string prints a value that may be [None]. *)
Definition fmt_opt (o : option string) : string :=
  match o with Some s => s | None => "None" end.

(** ** Exceptions *)

Inductive PyExc : Type :=
| ValueError
| DoesNotExist
| MultipleObjectsReturned
| IntegrityError
| OverflowError
| InvalidOperation                      (* decimal.InvalidOperation *)
| Http404.

Inductive Exc (A : Type) : Type :=
| Ok (a : A)
| Raise (e : PyExc).

Arguments Ok {A} a.
Arguments Raise {A} e.

Definition bind {A B} (c : Exc A) (k : A -> Exc B) : Exc B :=
  match c with
  | Ok a => k a
  | Raise e => Raise e
  end.

Notation "x <- c ;; k" := (bind c (fun x => k))
  (at level 61, c at next level, right associativity).

(** ** Tables *)

Section Table.
Variable Row : Type.
Variable pk : Row -> Z.

(** [objects.filter(...)] *)
Definition tbl_filter (p : Row -> bool) (t : list Row) : list Row := filter p t.

(** [objects.get(...)]: exactly one row, or an exception. *)
Definition tbl_get (p : Row -> bool) (t : list Row) : Exc Row :=
  match filter p t with
  | [] => Raise DoesNotExist
  | [r] => Ok r
  | _ => Raise MultipleObjectsReturned
  end.

(** [get_object_or_404(...)] *)
Definition tbl_get_or_404 (p : Row -> bool) (t : list Row) : Exc Row :=
  match tbl_get p t with
  | Raise DoesNotExist => Raise Http404
  | r => r
  end.

(** [obj.save()] of an object that has a primary key: the row of that key
    is overwritten; when there is none the object is inserted. *)
Definition tbl_save (r : Row) (t : list Row) : list Row :=
  if existsb (fun x => pk x =? pk r) t
  then map (fun x => if pk x =? pk r then r else x) t
  else t ++ [r].

(** [obj.delete()] *)
Definition tbl_delete (r : Row) (t : list Row) : list Row :=
  filter (fun x => negb (pk x =? pk r)) t.

(** [queryset.delete()] *)
Definition tbl_delete_where (p : Row -> bool) (t : list Row) : list Row :=
  filter (fun x => negb (p x)) t.

End Table.

(** ** Models (medicines/models.py) *)

Definition Decimal := Z.

(** ** Numbers as Python and the database have them

    [decimal.getcontext().prec] is 28 and the rounding is
    [ROUND_HALF_EVEN]: the result of [+] and [*] on decimals is the exact
    result when it has at most 28 digits, and else the exact result cut to
    its 28 leading digits, rounded half to even.  The decimals of the
    handlers have two places, so the exact result is a whole number of
    hundredths and so is the rounded one.  The exponent range of the
    context is never left: [int] reads no more than the 4300 digits the
    interpreter allows, and the handlers add 1 at a time. *)

Definition prec : Z := 28.

(** The number of digits that [n >= 0] has beyond [prec]. *)
Fixpoint digits_beyond (fuel : nat) (n : Z) : Z :=
  match fuel with
  | O => 0
  | S fuel' => if n <? 10 ^ prec then 0 else 1 + digits_beyond fuel' (n / 10)
  end.

(** [n >= 0] without its last [k] digits, rounded half to even. *)
Definition ROUND_HALF_EVEN (n k : Z) : Z :=
  let p := 10 ^ k in
  let q := n / p in
  let r := n mod p in
  if 2 * r <? p then q
  else if p <? 2 * r then q + 1
  else if Z.even q then q else q + 1.

(** The rounding of the context. *)
Definition context_round (d : Decimal) : Decimal :=
  let n := Z.abs d in
  let k := digits_beyond (S (Z.to_nat (Z.log2 n))) n in
  Z.sgn d * (ROUND_HALF_EVEN n k * 10 ^ k).

(** [a + b] and [a * b] where one of the two is a [Decimal] and the other a
    [Decimal] or an [int]. *)
Definition Decimal_add (a b : Decimal) : Decimal := context_round (a + b).

Definition Decimal_mul (a b : Z) : Decimal := context_round (a * b).

(** An [int] that the driver of the database takes: 64 bits, signed. *)
Definition fits_integer (n : Z) : bool := (- 2 ^ 63 <=? n) && (n <? 2 ^ 63).

(** The value of a [PositiveIntegerField] on its way into a row: the
    driver raises [OverflowError] for an [int] it does not take, the check
    [>= 0] of the column refuses a negative one. *)
Definition PositiveIntegerField (n : Z) : Exc Z :=
  if fits_integer n
  then if 0 <=? n then Ok n else Raise IntegrityError
  else Raise OverflowError.

(** A [DecimalField(max_digits=10, decimal_places=2)] on its way out of a
    row: the converter quantizes the stored value in a context of 10
    digits, which raises [decimal.InvalidOperation] for a wider value. *)
Definition fits_decimal (d : Decimal) : bool := Z.abs d <? 10 ^ 10.

Record User := mkUser {
  user_id : Z;
  user_is_active : bool;
  user_is_staff : bool
}.

Record Medicine := mkMedicine {
  med_id : Z;
  med_name : string;
  med_price : Decimal;
  med_stock_quantity : Z;
  med_image : option string;        (* the url of the image, when there is one *)
  med_is_active : bool
}.

Record Cart := mkCart {
  cart_id : Z;
  cart_user : Z
}.

Record CartItem := mkCartItem {
  ci_id : Z;
  ci_cart : Z;
  ci_medicine : Z;
  ci_quantity : Z
}.

Definition STATUS_CHOICES : list (string * string) :=
  [ ("PENDING", "Pending");
    ("CONFIRMED", "Confirmed");
    ("SHIPPED", "Shipped");
    ("DELIVERED", "Delivered");
    ("CANCELLED", "Cancelled") ].

Record Order := mkOrder {
  order_id : Z;
  order_user : option Z;
  order_total_amount : Decimal;
  order_status : string;
  order_shipping_address : string;
  order_phone_number : string;
  order_created_at : Z;
  order_updated_at : Z
}.

Record OrderItem := mkOrderItem {
  oi_id : Z;
  oi_order : Z;
  oi_medicine : Z;
  oi_quantity : Z;
  oi_price : Decimal
}.

Record DB := mkDB {
  medicines : list Medicine;
  carts : list Cart;
  cart_items : list CartItem;
  orders : list Order;
  order_items : list OrderItem;
  seq_cart : Z;
  seq_cart_item : Z;
  seq_order : Z;
  seq_order_item : Z
}.

Definition set_carts (db : DB) (t : list Cart) (s : Z) : DB :=
  mkDB (medicines db) t (cart_items db) (orders db) (order_items db)
       s (seq_cart_item db) (seq_order db) (seq_order_item db).

Definition set_cart_items (db : DB) (t : list CartItem) (s : Z) : DB :=
  mkDB (medicines db) (carts db) t (orders db) (order_items db)
       (seq_cart db) s (seq_order db) (seq_order_item db).

Definition set_orders (db : DB) (t : list Order) (s : Z) : DB :=
  mkDB (medicines db) (carts db) (cart_items db) t (order_items db)
       (seq_cart db) (seq_cart_item db) s (seq_order_item db).

Definition set_order_items (db : DB) (t : list OrderItem) (s : Z) : DB :=
  mkDB (medicines db) (carts db) (cart_items db) (orders db) t
       (seq_cart db) (seq_cart_item db) (seq_order db) s.

(** [cart_item.medicine]: the row the foreign key names. *)
Definition CartItem_medicine (db : DB) (item : CartItem) : Exc Medicine :=
  tbl_get (fun m => med_id m =? ci_medicine item) (medicines db).

(** [CartItem.get_total_price] *)
Definition CartItem_get_total_price (db : DB) (item : CartItem) : Exc Decimal :=
  medicine <- CartItem_medicine db item ;;
  Ok (Decimal_mul (ci_quantity item) (med_price medicine)).

(** [cart.items.all()] *)
Definition Cart_items (db : DB) (cart : Cart) : list CartItem :=
  tbl_filter (fun i => ci_cart i =? cart_id cart) (cart_items db).

(** [sum(...)] over a generator whose elements may raise. *)
Fixpoint sum_exc (A : Type) (f : A -> Exc Decimal) (l : list A) (acc : Decimal)
  : Exc Decimal :=
  match l with
  | [] => Ok acc
  | x :: rest => v <- f x ;; sum_exc f rest (Decimal_add acc v)
  end.

(** [Cart.get_total_price] *)
Definition Cart_get_total_price (db : DB) (cart : Cart) : Exc Decimal :=
  sum_exc (CartItem_get_total_price db) (Cart_items db cart) 0.

(** [Cart.objects.get(user=request.user)] *)
Definition Cart_get (db : DB) (user : User) : Exc Cart :=
  tbl_get (fun c => cart_user c =? user_id user) (carts db).

(** [Cart.objects.get_or_create(user=request.user)] *)
Definition Cart_get_or_create (db : DB) (user : User) : Exc (Cart * DB) :=
  match Cart_get db user with
  | Ok cart => Ok (cart, db)
  | Raise DoesNotExist =>
      let cart := mkCart (seq_cart db) (user_id user) in
      Ok (cart, set_carts db (carts db ++ [cart]) (seq_cart db + 1))
  | Raise e => Raise e
  end.

(** [CartItem.objects.get_or_create(cart=cart, medicine=medicine,
    defaults={'quantity': 1})]; the boolean is [created]. *)
Definition CartItem_get_or_create (db : DB) (cart : Cart) (medicine : Medicine)
  : Exc (CartItem * bool * DB) :=
  match tbl_get (fun i => (ci_cart i =? cart_id cart)
                          && (ci_medicine i =? med_id medicine))
                (cart_items db) with
  | Ok item => Ok (item, false, db)
  | Raise DoesNotExist =>
      let item := mkCartItem (seq_cart_item db) (cart_id cart) (med_id medicine) 1 in
      Ok (item, true,
          set_cart_items db (cart_items db ++ [item]) (seq_cart_item db + 1))
  | Raise e => Raise e
  end.

(** [cart_item.save()] of a row that was read from the table. *)
Definition CartItem_save (db : DB) (item : CartItem) : Exc DB :=
  _ <- PositiveIntegerField (ci_quantity item) ;;
  Ok (set_cart_items db (tbl_save ci_id item (cart_items db)) (seq_cart_item db)).

(** [get_object_or_404(CartItem, id=item_id, cart__user=request.user)] *)
Definition CartItem_of_user_or_404 (db : DB) (user : User) (item_id : Z)
  : Exc CartItem :=
  tbl_get_or_404
    (fun i => (ci_id i =? item_id)
              && existsb (fun c => (cart_id c =? ci_cart i)
                                   && (cart_user c =? user_id user))
                         (carts db))
    (cart_items db).

(** ** Session, request, response *)

(** One value of the session's ['cart'] dict. *)
Record SessionLine := mkSessionLine {
  sl_quantity : Z;
  sl_name : string;
  sl_price : string;
  sl_image : string
}.

(** A [dict] with [str] keys: its items in insertion order. *)
Definition Dict (V : Type) := list (string * V).

Section DictOps.
Variable V : Type.

(** [k in d] *)
Definition dict_mem (k : string) (d : Dict V) : bool :=
  existsb (fun kv => String.eqb (fst kv) k) d.

(** [d[k]] where it is read or updated in place *)
Definition dict_get (k : string) (d : Dict V) : option V :=
  option_map snd (find (fun kv => String.eqb (fst kv) k) d).

(** [d.get(k, default)] *)
Definition dict_get_or (k : string) (default : V) (d : Dict V) : V :=
  match dict_get k d with Some v => v | None => default end.

(** [d[k] = f(d[k])] for a key that is present: the item keeps its place. *)
Definition dict_update (k : string) (f : V -> V) (d : Dict V) : Dict V :=
  map (fun kv => if String.eqb (fst kv) k then (fst kv, f (snd kv)) else kv) d.

(** [d[k] = v] for a key that is absent: the item goes last. *)
Definition dict_insert (k : string) (v : V) (d : Dict V) : Dict V :=
  d ++ [(k, v)].

(** [del d[k]] *)
Definition dict_del (k : string) (d : Dict V) : Dict V :=
  filter (fun kv => negb (String.eqb (fst kv) k)) d.

End DictOps.

Definition SessionCart := Dict SessionLine.

(** The session, as far as the handlers use it: the value under ['cart'],
    [None] when the key was never set. *)
Definition Session := option SessionCart.

(** [request.session.get('cart', {})] *)
Definition session_cart (s : Session) : SessionCart :=
  match s with Some c => c | None => [] end.

Inductive Method : Type := GET | POST.

Record Request := mkRequest {
  req_method : Method;
  req_user : option User;               (* [None]: the anonymous user *)
  req_POST : Dict string;
  req_session : Session;
  req_now : Z                           (* timezone.now() *)
}.

Definition with_session (request : Request) (s : Session) : Request :=
  mkRequest (req_method request) (req_user request) (req_POST request) s
            (req_now request).

(** A line of the [cart_items] list a handler builds: a [CartItem] row for
    a logged-in user, a dict for a guest (['id'] is set by [cart_detail]
    only). *)
Inductive CartLine : Type :=
| DbLine (item : CartItem)
| GuestLine (id : option string) (medicine : Medicine) (quantity : Z).

(** The context a template is rendered with.  The ['get_total_price']
    closure of a guest's line is left out: it is the product of the price
    of the line's medicine and of its quantity. *)
Inductive PageContext : Type :=
| CartContext (cart_items : list CartLine) (total : Decimal) (is_guest : bool)
| TrackContext (orders : option (list Order)) (order : option Order)
               (error : option string) (search_type : option string)
| OrderContext (order : Order).

Inductive Response : Type :=
| Render (template : string) (context : PageContext)
| Redirect (to : string) (arg : option Z)
| NotFound                              (* Http404 *)
| ServerError.                          (* any other uncaught exception *)

Inductive Level : Type := SUCCESS | ERROR.

Record Outcome := mkOutcome {
  out_response : Response;
  out_db : DB;
  out_session : Session;
  out_messages : list (Level * string)
}.

(** The request ends on an uncaught exception: what was written to the
    database so far stays; the session is as the request found it. *)
Definition uncaught (e : PyExc) (db : DB) (request : Request) : Outcome :=
  mkOutcome (match e with Http404 => NotFound | _ => ServerError end)
            db (req_session request) [].

Definition is_guest (request : Request) : bool :=
  match req_user request with Some _ => false | None => true end.

(** ** The cart handlers (medicines/views.py) *)

Section Views.
Context `{PyBuiltins}.

(** [str(medicine.price)]: the decimal with its two places. *)
Definition str_decimal (d : Decimal) : string :=
  let a := Z.abs d in
  let cents := a mod 100 in
  (if d <? 0 then "-" else "") +s+ py_str (a / 100) +s+ "."
  +s+ py_str (cents / 10) +s+ py_str (cents mod 10).

Definition add_to_cart (db : DB) (request : Request) (medicine_id : Z) : Outcome :=
  match tbl_get_or_404 (fun m => (med_id m =? medicine_id) && med_is_active m)
                       (medicines db) with
  | Raise e => uncaught e db request
  | Ok medicine =>
      let done db' s' :=
        mkOutcome (Redirect "cart_detail" None) db' s'
                  [(SUCCESS, med_name medicine +s+ " added to cart!")] in
      match req_user request with
      | Some user =>
          match Cart_get_or_create db user with
          | Raise e => uncaught e db request
          | Ok (cart, db1) =>
              match CartItem_get_or_create db1 cart medicine with
              | Raise e => uncaught e db1 request
              | Ok (cart_item, created, db2) =>
                  if created then done db2 (req_session request)
                  else
                    let cart_item' :=
                      mkCartItem (ci_id cart_item) (ci_cart cart_item)
                                 (ci_medicine cart_item)
                                 (ci_quantity cart_item + 1) in
                    match CartItem_save db2 cart_item' with
                    | Raise e => uncaught e db2 request
                    | Ok db3 => done db3 (req_session request)
                    end
              end
          end
      | None =>
          let cart := session_cart (req_session request) in
          let medicine_id_str := py_str medicine_id in
          let cart' :=
            if dict_mem medicine_id_str cart
            then dict_update medicine_id_str
                   (fun l => mkSessionLine (sl_quantity l + 1) (sl_name l)
                                           (sl_price l) (sl_image l))
                   cart
            else dict_insert medicine_id_str
                   (mkSessionLine 1 (med_name medicine)
                      (str_decimal (med_price medicine))
                      (match med_image medicine with
                       | Some url => url
                       | None => ""
                       end))
                   cart in
          done db (Some cart')
      end
  end.

(** The loop over [session_cart.items()] that [cart_detail] and [checkout]
    share; [with_id] says whether the dict gets its ['id'] entry.  A key
    that [int] refuses raises [ValueError], which nothing catches; a key
    that names no medicine is passed over. *)
Fixpoint session_lines (db : DB) (with_id : bool) (items : SessionCart)
    (cart_items : list CartLine) (total : Decimal)
  : Exc (list CartLine * Decimal) :=
  match items with
  | [] => Ok (cart_items, total)
  | (medicine_id, item) :: rest =>
      match py_int medicine_id with
      | None => Raise ValueError
      | Some n =>
          match tbl_get (fun m => med_id m =? n) (medicines db) with
          | Ok medicine =>
              session_lines db with_id rest
                (cart_items ++
                   [GuestLine (if with_id then Some medicine_id else None)
                              medicine (sl_quantity item)])
                (Decimal_add total
                   (Decimal_mul (med_price medicine) (sl_quantity item)))
          | Raise DoesNotExist => session_lines db with_id rest cart_items total
          | Raise e => Raise e
          end
      end
  end.

(** The first part of [cart_detail] and of [checkout]: the [cart_items]
    list and the [total]. *)
Definition resolve_cart (db : DB) (request : Request) (with_id : bool)
  : Exc (list CartLine * Decimal) :=
  match req_user request with
  | Some user =>
      match Cart_get db user with
      | Ok cart =>
          total <- Cart_get_total_price db cart ;;
          Ok (map DbLine (Cart_items db cart), total)
      | Raise DoesNotExist => Ok ([], 0)
      | Raise e => Raise e
      end
  | None =>
      session_lines db with_id (session_cart (req_session request)) [] 0
  end.

Definition cart_detail (db : DB) (request : Request) : Outcome :=
  match resolve_cart db request true with
  | Raise e => uncaught e db request
  | Ok (lines, total) =>
      mkOutcome (Render "medicines/cart_detail.html"
                        (CartContext lines total (is_guest request)))
                db (req_session request) []
  end.

(** [int(request.POST.get('quantity', 1))] *)
Definition posted_quantity (request : Request) : Exc Z :=
  match dict_get "quantity" (req_POST request) with
  | None => Ok 1
  | Some s => match py_int s with Some q => Ok q | None => Raise ValueError end
  end.

Definition update_cart_item (db : DB) (request : Request) (item_id : Z) : Outcome :=
  let done db' s' := mkOutcome (Redirect "cart_detail" None) db' s' [] in
  match req_method request with
  | POST =>
      match posted_quantity request with
      | Raise e => uncaught e db request
      | Ok quantity =>
          match req_user request with
          | Some user =>
              match CartItem_of_user_or_404 db user item_id with
              | Raise e => uncaught e db request
              | Ok cart_item =>
                  if quantity >? 0 then
                    let cart_item' :=
                      mkCartItem (ci_id cart_item) (ci_cart cart_item)
                                 (ci_medicine cart_item) quantity in
                    match CartItem_save db cart_item' with
                    | Raise e => uncaught e db request
                    | Ok db' => done db' (req_session request)
                    end
                  else
                    done (set_cart_items db
                            (tbl_delete ci_id cart_item (cart_items db))
                            (seq_cart_item db))
                         (req_session request)
              end
          | None =>
              let cart := session_cart (req_session request) in
              let item_id_str := py_str item_id in
              if dict_mem item_id_str cart then
                if quantity >? 0 then
                  done db (Some (dict_update item_id_str
                                   (fun l => mkSessionLine quantity (sl_name l)
                                               (sl_price l) (sl_image l))
                                   cart))
                else done db (Some (dict_del item_id_str cart))
              else done db (req_session request)
          end
      end
  | GET => done db (req_session request)
  end.

Definition remove_from_cart (db : DB) (request : Request) (item_id : Z) : Outcome :=
  let done db' s' :=
    mkOutcome (Redirect "cart_detail" None) db' s'
              [(SUCCESS, "Item removed from cart!")] in
  match req_user request with
  | Some user =>
      match CartItem_of_user_or_404 db user item_id with
      | Raise e => uncaught e db request
      | Ok cart_item =>
          done (set_cart_items db (tbl_delete ci_id cart_item (cart_items db))
                               (seq_cart_item db))
               (req_session request)
      end
  | None =>
      let cart := session_cart (req_session request) in
      let item_id_str := py_str item_id in
      if dict_mem item_id_str cart
      then done db (Some (dict_del item_id_str cart))
      else done db (req_session request)
  end.

(** ** Checkout and order tracking (medicines/views.py) *)

Definition nl : string := String (ascii_of_nat 10) EmptyString.

(** [Order.objects.create(user=..., total_amount=..., shipping_address=...,
    phone_number=...)]: [status] takes its default, both time stamps are
    the time of the call, and the two text columns refuse [None]. *)
Definition Order_create (db : DB) (now : Z) (user : option Z) (total : Decimal)
    (shipping_address phone_number : option string) : Exc (Order * DB) :=
  match shipping_address, phone_number with
  | Some address, Some phone =>
      let order := mkOrder (seq_order db) user total "PENDING" address phone
                           now now in
      Ok (order, set_orders db (orders db ++ [order]) (seq_order db + 1))
  | _, _ => Raise IntegrityError
  end.

(** [OrderItem.objects.create(order=..., medicine=..., quantity=..., price=...)] *)
Definition OrderItem_create (db : DB) (order : Order) (medicine : Medicine)
    (quantity : Z) (price : Decimal) : Exc DB :=
  _ <- PositiveIntegerField quantity ;;
  Ok (set_order_items db
        (order_items db ++
           [mkOrderItem (seq_order_item db) (order_id order) (med_id medicine)
                        quantity price])
        (seq_order_item db + 1)).

(** [for cart_item in cart.items.all(): OrderItem.objects.create(...)];
    the result is the database the loop reached and the exception that
    ended it, if one did. *)
Fixpoint order_items_from_cart (db : DB) (order : Order) (items : list CartItem)
  : DB * option PyExc :=
  match items with
  | [] => (db, None)
  | cart_item :: rest =>
      match CartItem_medicine db cart_item with
      | Raise e => (db, Some e)
      | Ok medicine =>
          match OrderItem_create db order medicine (ci_quantity cart_item)
                                 (med_price medicine) with
          | Raise e => (db, Some e)
          | Ok db' => order_items_from_cart db' order rest
          end
      end
  end.

(** [for medicine_id, item in session_cart.items(): try: ... except
    Medicine.DoesNotExist: pass] *)
Fixpoint order_items_from_session (db : DB) (order : Order) (items : SessionCart)
  : DB * option PyExc :=
  match items with
  | [] => (db, None)
  | (medicine_id, item) :: rest =>
      match py_int medicine_id with
      | None => (db, Some ValueError)
      | Some n =>
          match tbl_get (fun m => med_id m =? n) (medicines db) with
          | Ok medicine =>
              match OrderItem_create db order medicine (sl_quantity item)
                                     (med_price medicine) with
              | Raise e => (db, Some e)
              | Ok db' => order_items_from_session db' order rest
              end
          | Raise DoesNotExist => order_items_from_session db order rest
          | Raise e => (db, Some e)
          end
      end
  end.

Definition checkout (db : DB) (request : Request) : Outcome :=
  match resolve_cart db request false with
  | Raise e => uncaught e db request
  | Ok ([], _) =>
      mkOutcome (Redirect "cart_detail" None) db (req_session request)
                [(ERROR, "Your cart is empty!")]
  | Ok (lines, total) =>
      match req_method request with
      | POST =>
          let shipping_address := dict_get "shipping_address" (req_POST request) in
          let phone_number := dict_get "phone_number" (req_POST request) in
          let customer_name := dict_get_or "customer_name" "" (req_POST request) in
          let customer_email := dict_get_or "customer_email" "" (req_POST request) in
          let placed order db' s' :=
            mkOutcome (Redirect "order_success" (Some (order_id order))) db' s'
                      [(SUCCESS, "Order #" +s+ py_str (order_id order) +s+
                                 " placed successfully! We will contact you soon.")] in
          match req_user request with
          | Some user =>
              match Order_create db (req_now request) (Some (user_id user)) total
                                 shipping_address phone_number with
              | Raise e => uncaught e db request
              | Ok (order, db1) =>
                  match Cart_get db1 user with
                  | Raise e => uncaught e db1 request
                  | Ok cart =>
                      match order_items_from_cart db1 order (Cart_items db1 cart) with
                      | (db2, Some e) => uncaught e db2 request
                      | (db2, None) =>
                          placed order
                            (set_cart_items db2
                               (tbl_delete_where
                                  (fun i => ci_cart i =? cart_id cart)
                                  (cart_items db2))
                               (seq_cart_item db2))
                            (req_session request)
                      end
                  end
              end
          | None =>
              match Order_create db (req_now request) None total
                      (Some (customer_name +s+ nl +s+ customer_email +s+ nl
                             +s+ fmt_opt shipping_address))
                      phone_number with
              | Raise e => uncaught e db request
              | Ok (order, db1) =>
                  match order_items_from_session db1 order
                          (session_cart (req_session request)) with
                  | (db2, Some e) => uncaught e db2 request
                  | (db2, None) => placed order db2 (Some [])
                  end
              end
          end
      | GET =>
          mkOutcome (Render "medicines/checkout.html"
                            (CartContext lines total (is_guest request)))
                    db (req_session request) []
      end
  end.

(** [order_by('-created_at')]: newest first; rows of one time stamp stay in
    storage order. *)
Fixpoint insert_newest_first (o : Order) (l : list Order) : list Order :=
  match l with
  | [] => [o]
  | x :: rest =>
      if order_created_at x <=? order_created_at o then o :: l
      else x :: insert_newest_first o rest
  end.

Definition order_by_created_desc (l : list Order) : list Order :=
  fold_right insert_newest_first [] l.

Definition track_order (db : DB) (request : Request) : Outcome :=
  let page orders order error search_type :=
    mkOutcome (Render "medicines/track_order.html"
                      (TrackContext orders order error search_type))
              db (req_session request) [] in
  match req_method request with
  | POST =>
      let order_id_str := py_strip (dict_get_or "order_id" "" (req_POST request)) in
      let phone_number :=
        py_strip (dict_get_or "phone_number" "" (req_POST request)) in
      if truthy phone_number && negb (truthy order_id_str) then
        let orders :=
          order_by_created_desc
            (tbl_filter (fun o => String.eqb (order_phone_number o) phone_number)
                        (orders db)) in
        page (Some orders) None
             (match orders with
              | [] => Some "No orders found with this phone number."
              | _ => None
              end)
             (Some "phone")
      else if truthy order_id_str && truthy phone_number then
        match py_int order_id_str with
        | None =>
            page None None
              (Some "Order not found. Please check your Order ID and Phone Number.")
              None
        | Some n =>
            match tbl_get (fun o => (order_id o =? n)
                                    && String.eqb (order_phone_number o) phone_number)
                          (orders db) with
            | Ok order => page None (Some order) None (Some "specific")
            | Raise DoesNotExist =>
                page None None
                  (Some "Order not found. Please check your Order ID and Phone Number.")
                  None
            | Raise e => uncaught e db request
            end
        end
      else if truthy order_id_str && negb (truthy phone_number) then
        page None None
          (Some "Please enter your phone number to track the order.") None
      else
        page None None
          (Some "Please enter your phone number to track orders.") None
  | GET => page None None None None
  end.

(** ** Order status (medicines/views_admin.py) *)

(** [@staff_member_required] *)
Definition staff_member_required (view : DB -> Request -> Outcome)
    (db : DB) (request : Request) : Outcome :=
  match req_user request with
  | Some user =>
      if user_is_active user && user_is_staff user then view db request
      else mkOutcome (Redirect "admin:login" None) db (req_session request) []
  | None => mkOutcome (Redirect "admin:login" None) db (req_session request) []
  end.

(** [order.get_status_display()] *)
Definition get_status_display (order : Order) : string :=
  match dict_get (order_status order) STATUS_CHOICES with
  | Some label => label
  | None => order_status order
  end.

Definition admin_order_detail (id : Z) : DB -> Request -> Outcome :=
  staff_member_required (fun db request =>
  match tbl_get_or_404 (fun o => order_id o =? id) (orders db) with
  | Raise e => uncaught e db request
  | Ok order =>
      let page :=
        mkOutcome (Render "admin/order_detail.html" (OrderContext order))
                  db (req_session request) [] in
      match req_method request with
      | POST =>
          match dict_get "status" (req_POST request) with
          | Some new_status =>
              if dict_mem new_status STATUS_CHOICES then
                let order' :=
                  mkOrder (order_id order) (order_user order)
                          (order_total_amount order) new_status
                          (order_shipping_address order)
                          (order_phone_number order)
                          (order_created_at order) (req_now request) in
                mkOutcome (Redirect "admin_order_detail" (Some (order_id order')))
                          (set_orders db (tbl_save order_id order' (orders db))
                                      (seq_order db))
                          (req_session request)
                          [(SUCCESS, "Order #" +s+ py_str (order_id order') +s+
                                     " status updated to " +s+
                                     get_status_display order')]
              else page
          | None => page
          end
      | GET => page
      end
  end).

End Views.

(** ** Site settings (medicines/models.py, class SiteSettings) *)

Module SiteSettings.

Record Fields := mkFields {
  facebook_url : option string;
  instagram_url : option string;
  youtube_url : option string;
  twitter_url : option string;
  linkedin_url : option string;
  whatsapp_number : option string;
  website_url : option string
}.

(** The field values of [SiteSettings()] built with no argument. *)
Definition blank : Fields := mkFields None None None None None None None.

(** A Python object of the class; [pk] is [None] until it is saved or
    given. *)
Record Instance := mkInstance {
  pk : option Z;
  fields : Fields
}.

Record Row := mkRow {
  row_pk : Z;
  row_fields : Fields
}.

(** The table and its auto-increment sequence.  An insert with a given key
    moves the sequence past that key. *)
Record Table := mkTable {
  rows : list Row;
  seq : Z
}.

Definition empty : Table := mkTable [] 1.

(** [SiteSettings.objects.exists()] *)
Definition objects_exists (t : Table) : bool :=
  match rows t with [] => false | _ => true end.

(** [SiteSettings.objects.all().delete()] *)
Definition objects_all_delete (t : Table) : Table := mkTable [] (seq t).

(** [not self.pk] *)
Definition not_pk (self : Instance) : bool :=
  match pk self with
  | None => true
  | Some k => k =? 0
  end.

(** [super().save()]: [models.Model.save]. *)
Definition Model_save (self : Instance) (t : Table) : Instance * Table :=
  match pk self with
  | Some k =>
      let r := mkRow k (fields self) in
      if existsb (fun x => row_pk x =? k) (rows t)
      then (self, mkTable (tbl_save row_pk r (rows t)) (seq t))
      else (self, mkTable (rows t ++ [r]) (Z.max (seq t) (k + 1)))
  | None =>
      (mkInstance (Some (seq t)) (fields self),
       mkTable (rows t ++ [mkRow (seq t) (fields self)]) (seq t + 1))
  end.

(** [SiteSettings.save] *)
Definition save (self : Instance) (t : Table) : Exc (Instance * Table) :=
  if not_pk self && objects_exists t then Raise ValueError
  else Ok (Model_save self t).

(** [SiteSettings.get_settings]: [cls.objects.get_or_create(pk=1)]; the
    create of [get_or_create] is [cls(pk=1).save(force_insert=True)]. *)
Definition get_settings (t : Table) : Exc (Instance * Table) :=
  match tbl_get (fun r => row_pk r =? 1) (rows t) with
  | Ok r => Ok (mkInstance (Some (row_pk r)) (row_fields r), t)
  | Raise DoesNotExist => save (mkInstance (Some 1) blank) t
  | Raise e => Raise e
  end.

End SiteSettings.

(** ** A decimal instance of the builtins

    [str] prints an [int] in base ten; [int] reads a base-ten numeral with
    an optional minus sign; [strip] removes ASCII white space at both
    ends. *)

Definition decimal_str (n : Z) : string := NilZero.string_of_int (Z.to_int n).

Definition decimal_int (s : string) : option Z :=
  option_map Z.of_int (NilZero.int_of_string s).

Definition is_space (c : ascii) : bool :=
  let n := nat_of_ascii c in
  ((9 <=? n) && (n <=? 13))%nat || (n =? 32)%nat.

Fixpoint lstrip (s : list ascii) : list ascii :=
  match s with
  | c :: rest => if is_space c then lstrip rest else s
  | [] => []
  end.

Definition ascii_strip (s : string) : string :=
  string_of_list_ascii
    (rev (lstrip (rev (lstrip (list_ascii_of_string s))))).

Lemma decimal_int_str (n : Z) : decimal_int (decimal_str n) = Some n.
Proof.
  unfold decimal_int, decimal_str.
  rewrite NilZero.isi.
  - simpl. now rewrite DecimalZ.of_to.
  - destruct n; simpl; try discriminate.
    intros [= E]. now apply (DecimalPos.Unsigned.to_uint_nonnil p).
  - destruct n; simpl; try discriminate.
    intros [= E]. now apply (DecimalPos.Unsigned.to_uint_nonnil p).
Qed.

#[export] Instance decimal_builtins : PyBuiltins :=
  {| py_str := decimal_str;
     py_int := decimal_int;
     py_strip := ascii_strip;
     py_int_str := decimal_int_str |}.

(** ** Integrity of the database

    What the schema of [models.py] makes the database keep: primary keys
    are unique and behind their sequence, a user has one cart
    ([OneToOneField]), and the foreign keys of a cart item name rows that
    exist. *)

Record db_ok (db : DB) : Prop := {
  ok_medicine_pk : NoDup (map med_id (medicines db));
  ok_cart_pk : NoDup (map cart_id (carts db));
  ok_cart_user : NoDup (map cart_user (carts db));
  ok_cart_item_pk : NoDup (map ci_id (cart_items db));
  ok_order_pk : NoDup (map order_id (orders db));
  ok_order_item_pk : NoDup (map oi_id (order_items db));
  ok_cart_seq : Forall (fun c => cart_id c < seq_cart db) (carts db);
  ok_cart_item_seq : Forall (fun i => ci_id i < seq_cart_item db) (cart_items db);
  ok_order_seq : Forall (fun o => order_id o < seq_order db) (orders db);
  ok_order_item_seq :
    Forall (fun i => oi_id i < seq_order_item db) (order_items db);
  ok_cart_item_cart :
    Forall (fun i => In (ci_cart i) (map cart_id (carts db))) (cart_items db);
  ok_cart_item_medicine :
    Forall (fun i => In (ci_medicine i) (map med_id (medicines db)))
           (cart_items db)
}.

(** A checker for [db_ok]. *)
Fixpoint distinct (l : list Z) : bool :=
  match l with
  | [] => true
  | x :: rest => negb (existsb (Z.eqb x) rest) && distinct rest
  end.

Definition db_check (db : DB) : bool :=
  distinct (map med_id (medicines db))
  && distinct (map cart_id (carts db))
  && distinct (map cart_user (carts db))
  && distinct (map ci_id (cart_items db))
  && distinct (map order_id (orders db))
  && distinct (map oi_id (order_items db))
  && forallb (fun c => cart_id c <? seq_cart db) (carts db)
  && forallb (fun i => ci_id i <? seq_cart_item db) (cart_items db)
  && forallb (fun o => order_id o <? seq_order db) (orders db)
  && forallb (fun i => oi_id i <? seq_order_item db) (order_items db)
  && forallb (fun i => existsb (Z.eqb (ci_cart i)) (map cart_id (carts db)))
             (cart_items db)
  && forallb (fun i => existsb (Z.eqb (ci_medicine i))
                               (map med_id (medicines db)))
             (cart_items db).

(** ** Observations used to state the properties *)

Section Observations.
Context `{PyBuiltins}.

(** The row of [cart_items] belongs to the cart of [user]. *)
Definition in_cart_of (db : DB) (user : User) (i : CartItem) : bool :=
  existsb (fun c => (cart_id c =? ci_cart i) && (cart_user c =? user_id user))
          (carts db).

(** The quantities of the lines for medicine [medicine_id] in the cart of
    the actor: rows of the user's cart, or items of the session's dict. *)
Definition cart_quantities (db : DB) (s : Session) (actor : option User)
    (medicine_id : Z) : list Z :=
  match actor with
  | Some user =>
      map ci_quantity
          (filter (fun i => (ci_medicine i =? medicine_id) && in_cart_of db user i)
                  (cart_items db))
  | None =>
      map (fun kv => sl_quantity (snd kv))
          (filter (fun kv => String.eqb (fst kv) (py_str medicine_id))
                  (session_cart s))
  end.

(** The quantities of the lines that the [item_id] of [update_cart_item]
    and [remove_from_cart] names: the primary key of a [CartItem] of the
    user, or the key of the session's dict. *)
Definition line_quantities (db : DB) (s : Session) (actor : option User)
    (item_id : Z) : list Z :=
  match actor with
  | Some user =>
      map ci_quantity
          (filter (fun i => (ci_id i =? item_id) && in_cart_of db user i)
                  (cart_items db))
  | None =>
      map (fun kv => sl_quantity (snd kv))
          (filter (fun kv => String.eqb (fst kv) (py_str item_id))
                  (session_cart s))
  end.

(** [n] calls of [add_to_cart] for one medicine by one browser: each call
    sees the database and the session the call before left. *)
Fixpoint add_to_cart_times (n : nat) (db : DB) (request : Request)
    (medicine_id : Z) : DB * Session :=
  match n with
  | O => (db, req_session request)
  | S k =>
      let out := add_to_cart db request medicine_id in
      add_to_cart_times k (out_db out) (with_session request (out_session out))
                        medicine_id
  end.

(** The medicine and the quantity of a line of [cart_items]. *)
Definition line_parts (db : DB) (line : CartLine) : Exc (Medicine * Z) :=
  match line with
  | DbLine item =>
      medicine <- CartItem_medicine db item ;; Ok (medicine, ci_quantity item)
  | GuestLine _ medicine quantity => Ok (medicine, quantity)
  end.

Fixpoint all_parts (db : DB) (lines : list CartLine) : Exc (list (Medicine * Z)) :=
  match lines with
  | [] => Ok []
  | line :: rest =>
      p <- line_parts db line ;;
      ps <- all_parts db rest ;;
      Ok (p :: ps)
  end.

(** Σ quantity × unit price. *)
Definition parts_total (parts : list (Medicine * Z)) : Decimal :=
  fold_right (fun p acc => snd p * med_price (fst p) + acc) 0 parts.

(** The products quantity × unit price, one for each line. *)
Definition parts_amounts (parts : list (Medicine * Z)) : list Z :=
  map (fun p => snd p * med_price (fst p)) parts.

(** The quantity of a line of [cart_items]. *)
Definition line_quantity (line : CartLine) : Z :=
  match line with
  | DbLine item => ci_quantity item
  | GuestLine _ _ quantity => quantity
  end.

(** A quantity that a [PositiveIntegerField] holds. *)
Definition storable (q : Z) : Prop := 0 <= q < 2 ^ 63.

(** The row of [Medicine] with a given key, if there is one. *)
Definition medicine_of (db : DB) (n : Z) : option Medicine :=
  find (fun m => med_id m =? n) (medicines db).

(** Quantity × the price the medicine has in the database now; nothing
    for a medicine that is not in the database. *)
Definition live_amount (db : DB) (medicine_id quantity : Z) : Decimal :=
  match medicine_of db medicine_id with
  | Some m => quantity * med_price m
  | None => 0
  end.

Definition sum_Z (l : list Z) : Z := fold_right Z.add 0 l.

(** The total that [sum] and [total += ...] compute from products whose
    exact values are [amounts]: each product and each sum is rounded by the
    context. *)
Definition Decimal_total (amounts : list Z) : Decimal :=
  fold_left (fun acc a => Decimal_add acc (context_round a)) amounts 0.

(** The amounts, added up in any way, stay within the 28 digits of the
    context: no product and no sum is rounded. *)
Definition within_precision (amounts : list Z) : Prop :=
  sum_Z (map Z.abs amounts) < 10 ^ prec.

(** The medicine a key of the session's dict names. *)
Definition key_medicine (db : DB) (k : string) : option Medicine :=
  match py_int k with
  | Some n => medicine_of db n
  | None => None
  end.

(** The lines of a session cart whose medicine is in the database. *)
Definition shown_guest_lines (db : DB) (cart : SessionCart) : list CartLine :=
  flat_map (fun kv =>
              match key_medicine db (fst kv) with
              | Some m => [GuestLine (Some (fst kv)) m (sl_quantity (snd kv))]
              | None => []
              end)
           cart.

(** Quantity × live price of an item of the session's dict. *)
Definition guest_amount (db : DB) (kv : string * SessionLine) : Decimal :=
  match key_medicine db (fst kv) with
  | Some m => sl_quantity (snd kv) * med_price m
  | None => 0
  end.

(** Live price × quantity for the items of a session cart whose medicine
    is in the database, in their order. *)
Definition guest_amounts (db : DB) (cart : SessionCart) : list Z :=
  flat_map (fun kv =>
              match key_medicine db (fst kv) with
              | Some m => [med_price m * sl_quantity (snd kv)]
              | None => []
              end)
           cart.


(** Every key of the session's dict reads as an [int]. *)
Definition session_keys_ok (s : Session) : Prop :=
  Forall (fun kv : string * SessionLine => py_int (fst kv) <> None) (session_cart s).

(** The rows [checkout] is to add to [OrderItem] for an order: one for
    each line, in the order of the lines, with the medicine, the quantity
    and the price of the medicine of that line, keyed from [first_id] on. *)
Fixpoint new_order_items (first_id : Z) (order : Order)
    (parts : list (Medicine * Z)) : list OrderItem :=
  match parts with
  | [] => []
  | (medicine, quantity) :: rest =>
      mkOrderItem first_id (order_id order) (med_id medicine) quantity
                  (med_price medicine)
      :: new_order_items (first_id + 1) order rest
  end.

End Observations.

(** ** Sample data *)

Module Sample.

Definition medicine_a := mkMedicine 1 "Medicine A" 9000 50 None true.
Definition medicine_b := mkMedicine 2 "Medicine B" 5000 30 None true.
Definition medicine_c := mkMedicine 3 "Medicine C" 1250 10 None false.

Definition alice := mkUser 7 true false.
Definition staff := mkUser 1 true true.

Definition catalogue : DB :=
  mkDB [medicine_a; medicine_b; medicine_c] [] [] [] [] 1 1 1 1.

(** Alice's cart: two of A and one of B. *)
Definition shop : DB :=
  mkDB [medicine_a; medicine_b; medicine_c]
       [mkCart 1 7]
       [mkCartItem 1 1 1 2; mkCartItem 2 1 2 1]
       [] [] 2 3 1 1.

Definition guest_cart : SessionCart :=
  [ ("1", mkSessionLine 2 "Medicine A" "90.00" "");
    ("2", mkSessionLine 1 "Medicine B" "50.00" "") ].

Definition contact : Dict string :=
  [ ("customer_name", "Bob"); ("customer_email", "bob@example.org");
    ("shipping_address", "12 High Street"); ("phone_number", "5550100") ].

Definition as_user (u : User) (m : Method) (post : Dict string) : Request :=
  mkRequest m (Some u) post None 1000.

Definition as_guest (m : Method) (post : Dict string) (c : SessionCart) : Request :=
  mkRequest m None post (Some c) 1000.

(** Requests used as examples. *)
Definition alice_lines : list CartLine :=
  [DbLine (mkCartItem 1 1 1 2); DbLine (mkCartItem 2 1 2 1)].

Definition alice_checkout : Request := as_user alice POST contact.

Definition guest_checkout : Request := as_guest POST contact guest_cart.

Definition nobody_checkout : Request := as_guest POST contact [].

(** A database with three orders, two of them of one phone number. *)
Definition order_5 : Order :=
  mkOrder 5 (Some 7) 23000 "DELIVERED" "12 High Street" "5550100" 100 400.
Definition order_6 : Order :=
  mkOrder 6 None 5000 "CANCELLED" "9 Low Road" "5550199" 200 200.
Definition order_8 : Order :=
  mkOrder 8 None 1250 "PENDING" "12 High Street" "5550100" 300 300.

Definition archive : DB :=
  mkDB [medicine_a; medicine_b; medicine_c] [mkCart 1 7] []
       [order_5; order_6; order_8] [] 2 3 9 1.

Definition staff_post (status : string) : Request :=
  as_user staff POST [("status", status)].

(** The catalogue after the price of A went from 90.00 to 100.00. *)
Definition medicine_a_dearer := mkMedicine 1 "Medicine A" 10000 50 None true.

Definition repriced : DB :=
  mkDB [medicine_a_dearer; medicine_b; medicine_c] [] [] [] [] 1 1 1 1.

(** A session cart with an item whose medicine is not in the database. *)
Definition stale_cart : SessionCart :=
  [ ("1", mkSessionLine 2 "Medicine A" "90.00" "");
    ("42", mkSessionLine 3 "Medicine Z" "10.00" "");
    ("2", mkSessionLine 1 "Medicine B" "50.00" "") ].

Definition set_quantity (u : option User) (q : string) : Request :=
  mkRequest POST u [("quantity", q)] (Some guest_cart) 1000.

Definition track (order_id phone_number : string) : Request :=
  as_guest POST [("order_id", order_id); ("phone_number", phone_number)] [].

End Sample.

(** * The rest of the application

    The handlers and model methods below work on tables that the cart and
    checkout handlers do not touch; a handler returns a [Result] over the
    state it works on and the context type of its template. *)

Inductive Reply (C : Type) : Type :=
| Page (template : string) (context : C)
| Goto (to : string) (arg : option Z)       (* redirect to a named url *)
| Goto_url (url : string)                   (* redirect to a path *)
| Gone                                      (* Http404 *)
| Crash.                                    (* any other uncaught exception *)

Arguments Page {C} template context.
Arguments Goto {C} to arg.
Arguments Goto_url {C} url.
Arguments Gone {C}.
Arguments Crash {C}.

Record Result (C S : Type) := mkResult {
  reply : Reply C;
  state : S;
  flashes : list (Level * string)
}.

Arguments mkResult {C S} reply state flashes.

(** The request ends on an uncaught exception. *)
Definition failed {C S : Type} (e : PyExc) (s : S) : Result C S :=
  mkResult (match e with Http404 => Gone | _ => Crash end) s [].

(** [request.POST.getlist(k)]: the values of a field that a form submits
    several times, in their order. *)
Definition post_getlist (k : string) (post : Dict string) : list string :=
  map snd (filter (fun kv => String.eqb (fst kv) k) post).

(** [s or None] for a [str]. *)
Definition or_None (s : string) : option string :=
  if truthy s then Some s else None.

(** Truthiness of a value that may be [None]. *)
Definition truthy_opt (o : option string) : bool :=
  match o with Some s => truthy s | None => false end.

(** ** Order pages (medicines/views.py) *)

(** [@login_required]; the anonymous user is sent to [settings.LOGIN_URL]. *)
Definition login_required {C S : Type} (view : User -> S -> Request -> Result C S)
    (s : S) (request : Request) : Result C S :=
  match req_user request with
  | Some user => view user s request
  | None => mkResult (Goto "settings.LOGIN_URL" None) s []
  end.

(** [@staff_member_required], for the handlers that return a [Result]. *)
Definition staff_only {C S : Type} (view : S -> Request -> Result C S)
    (s : S) (request : Request) : Result C S :=
  match req_user request with
  | Some user =>
      if user_is_active user && user_is_staff user then view s request
      else mkResult (Goto "admin:login" None) s []
  | None => mkResult (Goto "admin:login" None) s []
  end.

(** [order_success]: open to everyone.  The row of the order is read with
    its [total_amount], which has to have the width of the column. *)
Definition order_success (db : DB) (request : Request) (id : Z) : Result Order DB :=
  match tbl_get_or_404 (fun o => order_id o =? id) (orders db) with
  | Raise e => failed e db
  | Ok order =>
      if fits_decimal (order_total_amount order)
      then mkResult (Page "medicines/order_success.html" order) db []
      else failed InvalidOperation db
  end.

(** The [user] column of an order is this user. *)
Definition order_of_user (user : User) (o : Order) : bool :=
  match order_user o with
  | Some u => u =? user_id user
  | None => false
  end.


(** The address text of the order [checkout] creates. *)
Definition checkout_address (request : Request) (address : string) : string :=
  match req_user request with
  | Some _ => address
  | None =>
      dict_get_or "customer_name" "" (req_POST request) +s+ nl
      +s+ dict_get_or "customer_email" "" (req_POST request) +s+ nl +s+ address
  end.

Definition order_history : DB -> Request -> Result (list Order) DB :=
  login_required (fun user db request =>
    mkResult (Page "medicines/order_history.html"
                   (order_by_created_desc
                      (tbl_filter (order_of_user user) (orders db))))
             db []).

(** ** The other tables (medicines/models.py) *)

Record MedicineImage := mkMedicineImage {
  img_id : Z;
  img_medicine : Z;
  img_image : string;
  img_alt_text : string;
  img_is_primary : bool;
  img_uploaded_at : Z
}.

Record CustomerFeedback := mkCustomerFeedback {
  cf_id : Z;
  cf_name : string;
  cf_email : option string;
  cf_rating : Z;
  cf_feedback : string;
  cf_is_approved : bool;
  cf_is_featured : bool;
  cf_created_at : Z
}.

Record ProductFeedback := mkProductFeedback {
  pf_id : Z;
  pf_medicine : Z;
  pf_name : string;
  pf_email : option string;
  pf_rating : Z;
  pf_feedback : string;
  pf_is_approved : bool;
  pf_created_at : Z
}.

(** The database with the tables that hang on [Medicine] and the feedback
    tables. *)
Record Site := mkSite {
  site_db : DB;
  images : list MedicineImage;
  customer_feedbacks : list CustomerFeedback;
  product_feedbacks : list ProductFeedback;
  seq_image : Z;
  seq_customer_feedback : Z;
  seq_product_feedback : Z
}.

Definition set_site_db (s : Site) (db : DB) : Site :=
  mkSite db (images s) (customer_feedbacks s) (product_feedbacks s)
         (seq_image s) (seq_customer_feedback s) (seq_product_feedback s).

Definition set_customer_feedbacks (s : Site) (t : list CustomerFeedback) (n : Z)
  : Site :=
  mkSite (site_db s) (images s) t (product_feedbacks s)
         (seq_image s) n (seq_product_feedback s).

Definition set_product_feedbacks (s : Site) (t : list ProductFeedback) (n : Z)
  : Site :=
  mkSite (site_db s) (images s) (customer_feedbacks s) t
         (seq_image s) (seq_customer_feedback s) n.

(** Membership of a key in a list of keys ([id__in=...]). *)
Definition id_in (ids : list Z) (k : Z) : bool := existsb (Z.eqb k) ids.


(** [Medicine.delete()] and [queryset.delete()] on medicines: the rows go,
    and with them the rows of [CartItem], [OrderItem], [MedicineImage] and
    [ProductFeedback] whose [medicine] names one of them; every one of these
    foreign keys is [on_delete=CASCADE]. *)
Definition delete_medicines (p : Medicine -> bool) (s : Site) : Site :=
  let db := site_db s in
  let gone := map med_id (filter p (medicines db)) in
  mkSite
    (mkDB (tbl_delete_where p (medicines db)) (carts db)
          (tbl_delete_where (fun i => id_in gone (ci_medicine i)) (cart_items db))
          (orders db)
          (tbl_delete_where (fun i => id_in gone (oi_medicine i)) (order_items db))
          (seq_cart db) (seq_cart_item db) (seq_order db) (seq_order_item db))
    (tbl_delete_where (fun i => id_in gone (img_medicine i)) (images s))
    (customer_feedbacks s)
    (tbl_delete_where (fun f => id_in gone (pf_medicine f)) (product_feedbacks s))
    (seq_image s) (seq_customer_feedback s) (seq_product_feedback s).

(** [queryset.update(is_active=b)] *)
Definition update_is_active (p : Medicine -> bool) (b : bool) (db : DB) : DB :=
  mkDB (map (fun m => if p m
                      then mkMedicine (med_id m) (med_name m) (med_price m)
                                      (med_stock_quantity m) (med_image m) b
                      else m)
            (medicines db))
       (carts db) (cart_items db) (orders db) (order_items db)
       (seq_cart db) (seq_cart_item db) (seq_order db) (seq_order_item db).

(** [queryset.update(stock_quantity=n)]; the column is a
    [PositiveIntegerField], whose check [stock_quantity >= 0] refuses the
    statement when a row would get a negative value. *)
Definition update_stock_quantity (p : Medicine -> bool) (n : Z) (db : DB) : Exc DB :=
  if (n <? 0) && existsb p (medicines db) then Raise IntegrityError
  else
    Ok (mkDB (map (fun m => if p m
                            then mkMedicine (med_id m) (med_name m) (med_price m)
                                            n (med_image m) (med_is_active m)
                            else m)
                  (medicines db))
             (carts db) (cart_items db) (orders db) (order_items db)
             (seq_cart db) (seq_cart_item db) (seq_order db) (seq_order_item db)).

(** Every [stock_quantity] satisfies the check of its column. *)
Definition stock_ok (db : DB) : Prop :=
  Forall (fun m => 0 <= med_stock_quantity m) (medicines db).

(** ** Deleting orders and medicines, bulk actions (medicines/views_admin.py) *)

Definition dquote : string := String (ascii_of_nat 34) EmptyString.

Definition is_post (request : Request) : bool :=
  match req_method request with POST => true | GET => false end.

(** [action == name] for the posted action, which may be [None]. *)
Definition action_is (action : option string) (name : string) : bool :=
  match action with Some a => String.eqb a name | None => false end.

Section AdminViews.
Context `{PyBuiltins}.


Definition admin_medicine_delete (id : Z) : Site -> Request -> Result Medicine Site :=
  staff_only (fun s request =>
    match tbl_get_or_404 (fun m => med_id m =? id) (medicines (site_db s)) with
    | Raise e => failed e s
    | Ok medicine =>
        if is_post request then
          mkResult (Goto "admin_medicines" None)
                   (delete_medicines (fun m => med_id m =? med_id medicine) s)
                   [(SUCCESS, "Medicine " +s+ dquote +s+ med_name medicine
                              +s+ dquote +s+ " deleted successfully!")]
        else mkResult (Page "admin/medicine_delete.html" medicine) s []
    end).

(** The keys of [id__in=medicine_ids]: each posted value goes through
    [int]; one that [int] refuses raises [ValueError] when the filter is
    built. *)
Fixpoint prep_ids (values : list string) : Exc (list Z) :=
  match values with
  | [] => Ok []
  | v :: rest =>
      match py_int v with
      | None => Raise ValueError
      | Some n => ns <- prep_ids rest ;; Ok (n :: ns)
      end
  end.

(** [expiry_date < date.today()]: the column is not part of the [Medicine]
    record, so the test is a parameter.  [order_bulk_actions] is the second
    branch of [admin_bulk_actions], the one under
    [elif request.method == 'POST']. *)
Variable is_expired : Medicine -> bool.
Variable order_bulk_actions : Site -> Request -> Result unit Site.

Definition admin_bulk_actions : Site -> Request -> Result unit Site :=
  staff_only (fun s request =>
    let back fl s' := mkResult (Goto "admin_medicines" None) s' fl in
    if is_post request then
      let action := dict_get "action" (req_POST request) in
      let medicine_ids := post_getlist "medicine_ids" (req_POST request) in
      match medicine_ids with
      | [] => back [(ERROR, "No medicines selected!")] s
      | _ =>
          match prep_ids medicine_ids with
          | Raise e => failed e s
          | Ok ids =>
              let selected := fun m => id_in ids (med_id m) in
              let len := py_str (Z.of_nat (List.length medicine_ids)) in
              if action_is action "activate" then
                back [(SUCCESS, len +s+ " medicines activated!")]
                     (set_site_db s (update_is_active selected true (site_db s)))
              else if action_is action "deactivate" then
                back [(SUCCESS, len +s+ " medicines deactivated!")]
                     (set_site_db s (update_is_active selected false (site_db s)))
              else if action_is action "delete_out_of_stock" then
                let out_of_stock :=
                  fun m => selected m && (med_stock_quantity m =? 0) in
                let count :=
                  List.length (filter out_of_stock (medicines (site_db s))) in
                back [(SUCCESS, py_str (Z.of_nat count)
                                +s+ " out-of-stock medicines deleted!")]
                     (delete_medicines out_of_stock s)
              else if action_is action "update_stock" then
                match dict_get "new_stock" (req_POST request) with
                | Some new_stock =>
                    if truthy new_stock then
                      match py_int new_stock with
                      | None => failed ValueError s
                      | Some n =>
                          match update_stock_quantity selected n (site_db s) with
                          | Raise e => failed e s
                          | Ok db' =>
                              back [(SUCCESS, "Stock updated for " +s+ len
                                              +s+ " medicines!")]
                                   (set_site_db s db')
                          end
                      end
                    else back [] s
                | None => back [] s
                end
              else if action_is action "delete_selected" then
                let count := List.length (filter selected (medicines (site_db s))) in
                back [(SUCCESS, py_str (Z.of_nat count)
                                +s+ " selected medicines deleted!")]
                     (delete_medicines selected s)
              else if action_is action "delete_inactive" then
                let inactive := fun m => negb (med_is_active m) in
                let count := List.length (filter inactive (medicines (site_db s))) in
                back [(SUCCESS, py_str (Z.of_nat count)
                                +s+ " inactive medicines deleted!")]
                     (delete_medicines inactive s)
              else if action_is action "delete_expired" then
                let count := List.length (filter is_expired (medicines (site_db s))) in
                back [(SUCCESS, py_str (Z.of_nat count)
                                +s+ " expired medicines deleted!")]
                     (delete_medicines is_expired s)
              else if action_is action "mark_low_stock" then
                match update_stock_quantity selected 5 (site_db s) with
                | Raise e => failed e s
                | Ok db' =>
                    back [(SUCCESS, len +s+ " medicines marked as low stock!")]
                         (set_site_db s db')
                end
              else back [] s
          end
      end
    else if is_post request then order_bulk_actions s request
    else back [] s).

End AdminViews.

(** ** Feedback (medicines/views.py, medicines/views_admin.py) *)

Section FeedbackViews.
Context `{PyBuiltins}.

(** [request.POST.get(k, '').strip()] *)
Definition posted_stripped (k : string) (request : Request) : string :=
  py_strip (dict_get_or k "" (req_POST request)).

(** [submit_feedback]; [referer] is [request.META.get('HTTP_REFERER')].
    The [try] around the create catches every exception, the [ValueError]
    of [int(rating)] among them.  The texts of the two success messages end
    with an emoji, which is left out. *)
Definition submit_feedback (s : Site) (request : Request) (referer : option string)
  : Result unit Site :=
  if is_post request then
    let name := posted_stripped "name" request in
    let email := posted_stripped "email" request in
    let rating := dict_get "rating" (req_POST request) in
    let feedback_text := posted_stripped "feedback" request in
    let back fl s' :=
      mkResult (match referer with
                | Some url => Goto_url url
                | None => Goto "home" None
                end) s' fl in
    match rating with
    | Some r =>
        if truthy name && truthy r then
          match py_int r with
          | Some n =>
              back [(SUCCESS, "Thank you for your feedback!")]
                   (set_customer_feedbacks s
                      (customer_feedbacks s ++
                         [mkCustomerFeedback (seq_customer_feedback s) name
                            (or_None email) n feedback_text false false
                            (req_now request)])
                      (seq_customer_feedback s + 1))
          | None => back [(ERROR, "Something went wrong. Please try again.")] s
          end
        else back [(ERROR, "Please provide your name and rating.")] s
    | None => back [(ERROR, "Please provide your name and rating.")] s
    end
  else mkResult (Goto "home" None) s [].

Definition submit_product_feedback (s : Site) (request : Request) (medicine_id : Z)
  : Result unit Site :=
  match tbl_get_or_404 (fun m => med_id m =? medicine_id) (medicines (site_db s)) with
  | Raise e => failed e s
  | Ok medicine =>
      let back fl s' := mkResult (Goto "medicine_detail" (Some medicine_id)) s' fl in
      if is_post request then
        let name := posted_stripped "name" request in
        let email := posted_stripped "email" request in
        let rating := dict_get "rating" (req_POST request) in
        let feedback_text := posted_stripped "feedback" request in
        match rating with
        | Some r =>
            if truthy name && truthy r then
              match py_int r with
              | Some n =>
                  back [(SUCCESS, "Thank you for reviewing " +s+ med_name medicine
                                  +s+ "!")]
                       (set_product_feedbacks s
                          (product_feedbacks s ++
                             [mkProductFeedback (seq_product_feedback s)
                                (med_id medicine) name (or_None email) n
                                feedback_text false (req_now request)])
                          (seq_product_feedback s + 1))
              | None => back [(ERROR, "Something went wrong. Please try again.")] s
              end
            else back [(ERROR, "Please provide your name and rating.")] s
        | None => back [(ERROR, "Please provide your name and rating.")] s
        end
      else back [] s
  end.

Definition set_cf_flags (f : CustomerFeedback) (approved featured : bool)
  : CustomerFeedback :=
  mkCustomerFeedback (cf_id f) (cf_name f) (cf_email f) (cf_rating f)
                     (cf_feedback f) approved featured (cf_created_at f).

Definition set_pf_approved (f : ProductFeedback) (approved : bool) : ProductFeedback :=
  mkProductFeedback (pf_id f) (pf_medicine f) (pf_name f) (pf_email f)
                    (pf_rating f) (pf_feedback f) approved (pf_created_at f).

(** [admin_feedback_action]; [feedback_type] is
    [request.GET.get('type', 'customer')].  Only a [CustomerFeedback] has
    the attribute [is_featured]. *)
Definition admin_feedback_action (feedback_type : string) (feedback_id : Z)
  : Site -> Request -> Result unit Site :=
  staff_only (fun s request =>
    let action := dict_get "action" (req_POST request) in
    let back fl s' :=
      mkResult (Goto_url ("/admin-feedbacks/?type=" +s+ feedback_type)) s' fl in
    let said what name :=
      [(SUCCESS, "Feedback from " +s+ dquote +s+ name +s+ dquote +s+ what)] in
    if String.eqb feedback_type "product" then
      match tbl_get_or_404 (fun f => pf_id f =? feedback_id) (product_feedbacks s) with
      | Raise e => failed e s
      | Ok feedback =>
          let save f :=
            set_product_feedbacks s (tbl_save pf_id f (product_feedbacks s))
                                  (seq_product_feedback s) in
          if action_is action "approve" then
            back (said " approved!" (pf_name feedback))
                 (save (set_pf_approved feedback true))
          else if action_is action "unapprove" then
            back (said " unapproved!" (pf_name feedback))
                 (save (set_pf_approved feedback false))
          else if action_is action "delete" then
            back (said " deleted!" (pf_name feedback))
                 (set_product_feedbacks s
                    (tbl_delete pf_id feedback (product_feedbacks s))
                    (seq_product_feedback s))
          else back [] s
      end
    else
      match tbl_get_or_404 (fun f => cf_id f =? feedback_id) (customer_feedbacks s) with
      | Raise e => failed e s
      | Ok feedback =>
          let save f :=
            set_customer_feedbacks s (tbl_save cf_id f (customer_feedbacks s))
                                   (seq_customer_feedback s) in
          if action_is action "approve" then
            back (said " approved!" (cf_name feedback))
                 (save (set_cf_flags feedback true (cf_is_featured feedback)))
          else if action_is action "unapprove" then
            back (said " unapproved!" (cf_name feedback))
                 (save (set_cf_flags feedback false false))
          else if action_is action "feature" then
            back (said " marked as featured!" (cf_name feedback))
                 (save (set_cf_flags feedback true true))
          else if action_is action "unfeature" then
            back (said " removed from featured!" (cf_name feedback))
                 (save (set_cf_flags feedback (cf_is_approved feedback) false))
          else if action_is action "delete" then
            back (said " deleted!" (cf_name feedback))
                 (set_customer_feedbacks s
                    (tbl_delete cf_id feedback (customer_feedbacks s))
                    (seq_customer_feedback s))
          else back [] s
      end).

(** The feedback the home page shows ([home]):
    [CustomerFeedback.objects.filter(is_approved=True)
       .order_by('-is_featured', '-created_at')[:6]]. *)
Fixpoint insert_feedback (f : CustomerFeedback) (l : list CustomerFeedback)
  : list CustomerFeedback :=
  match l with
  | [] => [f]
  | x :: rest =>
      if (if Bool.eqb (cf_is_featured x) (cf_is_featured f)
          then cf_created_at x <=? cf_created_at f
          else cf_is_featured f)
      then f :: l
      else x :: insert_feedback f rest
  end.

Definition approved_feedbacks (s : Site) : list CustomerFeedback :=
  firstn 6 (fold_right insert_feedback []
              (tbl_filter cf_is_approved (customer_feedbacks s))).

End FeedbackViews.

(** The order of [order_by('-is_featured', '-created_at')]: [x] may stand
    before [y]. *)
Definition shown_before (x y : CustomerFeedback) : Prop :=
  (cf_is_featured y = true -> cf_is_featured x = true)
  /\ (cf_is_featured x = cf_is_featured y -> cf_created_at y <= cf_created_at x).

(** Only approved feedback is featured. *)
Definition featured_is_approved (s : Site) : Prop :=
  Forall (fun f => cf_is_featured f = true -> cf_is_approved f = true)
         (customer_feedbacks s).

(** ** Social settings (medicines/views_admin.py) *)

Module SocialSettings.
Import SiteSettings.

(** [str(e)] for the exception [settings.save()] can raise. *)
Definition str_exc (e : PyExc) : string :=
  match e with
  | ValueError => "Only one SiteSettings instance is allowed"
  | _ => ""
  end.

Section View.
Context `{PyBuiltins}.

(** [request.POST.get(k, '').strip() or None] *)
Definition posted_or_None (k : string) (request : Request) : option string :=
  or_None (py_strip (dict_get_or k "" (req_POST request))).

Definition posted_fields (request : Request) : Fields :=
  mkFields (posted_or_None "facebook_url" request)
           (posted_or_None "instagram_url" request)
           (posted_or_None "youtube_url" request)
           (posted_or_None "twitter_url" request)
           (posted_or_None "linkedin_url" request)
           (posted_or_None "whatsapp_number" request)
           (posted_or_None "website_url" request).

Definition admin_social_settings : Table -> Request -> Result Instance Table :=
  staff_only (fun t request =>
    match get_settings t with
    | Raise e => failed e t
    | Ok (settings, t1) =>
        if is_post request then
          let settings' := mkInstance (pk settings) (posted_fields request) in
          match save settings' t1 with
          | Ok (saved, t2) =>
              mkResult (Goto "admin_social_settings" None) t2
                       [(SUCCESS, "Social media settings updated successfully!")]
          | Raise e =>
              mkResult (Page "admin/social_settings.html" settings') t1
                       [(ERROR, "Error saving settings: " +s+ str_exc e)]
          end
        else mkResult (Page "admin/social_settings.html" settings) t1 []
    end).

End View.

(** [site_settings] of context_processors.py: the settings, or [None] when
    [get_settings] raises. *)
Definition site_settings (t : Table) : option Instance * Table :=
  match get_settings t with
  | Ok (settings, t') => (Some settings, t')
  | Raise _ => (None, t)
  end.

End SocialSettings.

(** ** Images of a medicine (medicines/models.py, class MedicineImage) *)

(** [MedicineImage.save] for an object with the given attributes; [pk] is
    [None] for an object that was never saved, [now] is the time of the
    call ([uploaded_at] is [auto_now_add]).  The result is the saved row,
    the table and its sequence. *)
Definition MedicineImage_save (pk : option Z) (medicine : Z) (image alt_text : string)
    (is_primary : bool) (uploaded_at now : Z)
    (t : list MedicineImage) (seq : Z) : MedicineImage * list MedicineImage * Z :=
  let t1 :=
    if is_primary
    then map (fun x => if (img_medicine x =? medicine) && img_is_primary x
                       then mkMedicineImage (img_id x) (img_medicine x) (img_image x)
                                            (img_alt_text x) false (img_uploaded_at x)
                       else x)
             t
    else t in
  match pk with
  | Some k =>
      if existsb (fun x => img_id x =? k) t1
      then
        let r := mkMedicineImage k medicine image alt_text is_primary uploaded_at in
        (r, tbl_save img_id r t1, seq)
      else
        let r := mkMedicineImage k medicine image alt_text is_primary now in
        (r, t1 ++ [r], Z.max seq (k + 1))
  | None =>
      let r := mkMedicineImage seq medicine image alt_text is_primary now in
      (r, t1 ++ [r], seq + 1)
  end.

(** At most one image of a medicine is the primary one. *)
Definition one_primary (t : list MedicineImage) : Prop :=
  forall x y, In x t -> In y t -> img_medicine x = img_medicine y ->
              img_is_primary x = true -> img_is_primary y = true -> x = y.

(** ** Prices (medicines/models.py, class Medicine)

    [mrp] is a column of [Medicine] that the record above leaves out; the
    two properties are functions of [self.mrp] and [self.price].  The
    quotient [(mrp - price) / mrp] is a [Decimal] of 28 digits; for columns
    of at most ten digits its product with 100, cut by [int], is the
    integer quotient of [100 * (mrp - price)] by [mrp] cut towards zero. *)

Definition discount_percentage (mrp price : Decimal) : Z :=
  if negb (mrp =? 0) && (mrp >? price)
  then Z.quot (100 * (mrp - price)) mrp
  else 0.

Definition savings (mrp price : Decimal) : Decimal :=
  if negb (mrp =? 0) && (mrp >? price) then mrp - price else 0.

(** ** The WhatsApp number (medicines/forms.py, templatetags/currency_filters.py)

    [\d] is taken on ASCII text, where it is the ten digits. *)

Definition is_ascii (s : string) : bool :=
  forallb (fun c => (nat_of_ascii c <? 128)%nat) (list_ascii_of_string s).

Definition is_digit (c : ascii) : bool :=
  let n := nat_of_ascii c in ((48 <=? n) && (n <=? 57))%nat.

Definition is_plus (c : ascii) : bool := (nat_of_ascii c =? 43)%nat.

(** [re.sub(keep-nothing-but, '', s)] *)
Definition keep (p : ascii -> bool) (s : string) : string :=
  string_of_list_ascii (filter p (list_ascii_of_string s)).

(** The filter [whatsapp_number] of the templates. *)
Definition whatsapp_number_filter (value : option string) : string :=
  match value with
  | None => "919710036499"
  | Some v =>
      if truthy v then
        let cleaned := keep is_digit v in
        if truthy cleaned then cleaned else "919710036499"
      else "919710036499"
  end.

(** [re.match(r'^\+\d{10,15}$', s)] *)
Definition plus_and_digits (s : string) : bool :=
  match s with
  | String c rest =>
      is_plus c
      && forallb is_digit (list_ascii_of_string rest)
      && (10 <=? String.length rest)%nat && (String.length rest <=? 15)%nat
  | EmptyString => false
  end.

Inductive Cleaned : Type :=
| Valid (value : option string)
| Invalid (message : string).           (* ValidationError *)

(** [SocialSettingsForm.clean_whatsapp_number]; [number] is
    [self.cleaned_data.get('whatsapp_number')]. *)
Definition clean_whatsapp_number (number : option string) : Cleaned :=
  match number with
  | Some n =>
      if truthy n then
        let cleaned_number := keep (fun c => is_digit c || is_plus c) n in
        if plus_and_digits cleaned_number then Valid (Some cleaned_number)
        else Invalid "WhatsApp number must be in format +CCXXXXXXXXXX (country code + phone number)"
      else Valid number
  | None => Valid number
  end.

(** ** The price conversion command
    (medicines/management/commands/update_prices_to_rupees.py) *)

Definition conversion_rate : Z := 83.

(** The loop of [handle] over the medicines the query returned: [table] is
    the [Medicine] table as the saves so far left it. *)
Fixpoint convert_prices (queried table : list Medicine) (updated_count : nat)
  : list Medicine * nat :=
  match queried with
  | [] => (table, updated_count)
  | medicine :: rest =>
      if med_price medicine <? 10000 then
        let medicine' :=
          mkMedicine (med_id medicine) (med_name medicine)
                     (med_price medicine * conversion_rate)
                     (med_stock_quantity medicine) (med_image medicine)
                     (med_is_active medicine) in
        convert_prices rest (tbl_save med_id medicine' table) (S updated_count)
      else convert_prices rest table updated_count
  end.

(** [handle]: the database after the command and [updated_count]. *)
Definition update_prices_to_rupees (db : DB) : DB * nat :=
  let r := convert_prices (medicines db) (medicines db) 0 in
  (mkDB (fst r) (carts db) (cart_items db) (orders db) (order_items db)
        (seq_cart db) (seq_cart_item db) (seq_order db) (seq_order_item db),
   snd r).

(** A medicine as the command leaves it. *)
Definition converted (m : Medicine) : Medicine :=
  if med_price m <? 10000
  then mkMedicine (med_id m) (med_name m) (med_price m * conversion_rate)
                  (med_stock_quantity m) (med_image m) (med_is_active m)
  else m.

(** ** What a guest does, one request after the other *)

Inductive GuestAction : Type :=
| DoAdd (medicine_id : Z)
| DoUpdate (item_id : Z) (post : Dict string)
| DoRemove (item_id : Z)
| DoCheckout (post : Dict string).

Section GuestRuns.
Context `{PyBuiltins}.

(** The request of an action, sent with the session the browser holds. *)
Definition guest_request (m : Method) (post : Dict string) (s : Session) (now : Z)
  : Request :=
  mkRequest m None post s now.

Definition guest_step (now : Z) (st : DB * Session) (a : GuestAction) : DB * Session :=
  let out :=
    match a with
    | DoAdd medicine_id =>
        add_to_cart (fst st) (guest_request GET [] (snd st) now) medicine_id
    | DoUpdate item_id post =>
        update_cart_item (fst st) (guest_request POST post (snd st) now) item_id
    | DoRemove item_id =>
        remove_from_cart (fst st) (guest_request GET [] (snd st) now) item_id
    | DoCheckout post =>
        checkout (fst st) (guest_request POST post (snd st) now)
    end in
  (out_db out, out_session out).

Definition guest_run (now : Z) (st : DB * Session) (actions : list GuestAction)
  : DB * Session :=
  fold_left (guest_step now) actions st.

End GuestRuns.

(** ** Sample data for the handlers of this part *)

Module SiteSample.
Import Sample.

(** The archive with the items of its orders and Alice's cart. *)
Definition store : DB :=
  mkDB [medicine_a; medicine_b; medicine_c]
       [mkCart 1 7]
       [mkCartItem 1 1 1 2; mkCartItem 2 1 2 1]
       [order_5; order_6; order_8]
       [mkOrderItem 1 5 1 2 9000; mkOrderItem 2 5 2 1 5000;
        mkOrderItem 3 6 2 1 5000; mkOrderItem 4 8 3 1 1250]
       2 3 9 5.

Definition site : Site :=
  mkSite store
    [mkMedicineImage 1 1 "a.jpg" "" true 10;
     mkMedicineImage 2 1 "a-side.jpg" "" false 20;
     mkMedicineImage 3 2 "b.jpg" "" true 30]
    [mkCustomerFeedback 1 "Ann" None 5 "Quick delivery" true true 100;
     mkCustomerFeedback 2 "Ben" (Some "ben@example.org") 4 "" true false 200;
     mkCustomerFeedback 3 "Cy" None 2 "Late" false false 300]
    [mkProductFeedback 1 1 "Ann" None 5 "Works" true 100;
     mkProductFeedback 2 2 "Ben" None 3 "" false 200]
    4 4 3.

Definition visitor : Request := as_guest GET [] [].

Definition alice_get : Request := as_user alice GET [].

Definition staff_form (post : Dict string) : Request := as_user staff POST post.

(** The checkout form with a phone number typed after a blank. *)
Definition padded_checkout : Request :=
  as_guest POST
    [ ("customer_name", "Bob"); ("customer_email", "bob@example.org");
      ("shipping_address", "12 High Street"); ("phone_number", " 5550100") ]
    guest_cart.

Definition guest_lines : list CartLine :=
  [GuestLine None medicine_a 2; GuestLine None medicine_b 1].

(** A guest whose session holds medicine A alone. *)
Definition line_a : SessionLine := mkSessionLine 2 "Medicine A" "90.00" "".

Definition guest_of_a : Request := as_guest POST contact [("1", line_a)].

Definition no_expiry (m : Medicine) : bool := false.

Definition to_orders (s : Site) (request : Request) : Result unit Site :=
  mkResult (Goto "admin_orders" None) s [].

(** A catalogue with prices in dollars and in rupees. *)
Definition dollars : DB :=
  mkDB [mkMedicine 1 "Medicine A" 100 50 None true;
        mkMedicine 2 "Medicine B" 1250 30 None true;
        mkMedicine 3 "Medicine C" 12000 10 None false]
       [] [] [] [] 1 1 1 1.

End SiteSample.

(** ** Sample data at the limits of the columns *)

Module Edge.
Import Sample.

(** The session cart of the samples after the quantity of A was set to
    [2^63]. *)
Definition oversized_cart : SessionCart :=
  [ ("1", mkSessionLine (2 ^ 63) "Medicine A" "90.00" "");
    ("2", mkSessionLine 1 "Medicine B" "50.00" "") ].

Definition oversized_checkout : Request := as_guest POST contact oversized_cart.

(** The same cart, checked out with a phone number typed after a blank. *)
Definition oversized_padded_checkout : Request :=
  as_guest POST (req_POST SiteSample.padded_checkout) oversized_cart.

(** Alice's cart with the largest quantity the column holds for A. *)
Definition full_shop : DB :=
  mkDB [medicine_a; medicine_b; medicine_c]
       [mkCart 1 7]
       [mkCartItem 1 1 1 (2 ^ 63 - 1); mkCartItem 2 1 2 1]
       [] [] 2 3 1 1.

(** A session cart whose total, 2^40 times 90.00, has more than the ten
    digits of [Order.total_amount]. *)
Definition wide_cart : SessionCart :=
  [ ("1", mkSessionLine (2 ^ 40) "Medicine A" "90.00" "") ].

Definition wide_checkout : Request := as_guest POST contact wide_cart.

End Edge.

(** * Properties *)

Unset Implicit Arguments.

(** ** Numbers *)

(** A result of at most 28 digits is not rounded. *)
Lemma context_round_small (d : Decimal) : Z.abs d < 10 ^ prec -> context_round d = d.
Proof.
  intros Hd. unfold context_round. cbn [digits_beyond].
  apply Z.ltb_lt in Hd. rewrite Hd.
  unfold ROUND_HALF_EVEN. change (10 ^ 0) with 1.
  rewrite Z.mod_1_r, Z.div_1_r. change (2 * 0 <? 1) with true. cbv iota. lia.
Qed.

Lemma sum_abs_nonneg (l : list Z) : 0 <= fold_right Z.add 0 (map Z.abs l).
Proof. induction l as [|a l IH]; simpl; lia. Qed.

Lemma Decimal_total_from (l : list Z) : forall acc,
  Z.abs acc + fold_right Z.add 0 (map Z.abs l) < 10 ^ prec ->
  fold_left (fun acc a => Decimal_add acc (context_round a)) l acc
  = acc + fold_right Z.add 0 l.
Proof.
  induction l as [|a l IH]; intros acc Hb; cbn [fold_left fold_right map] in *;
    [lia|].
  pose proof (sum_abs_nonneg l) as Hl.
  rewrite (context_round_small a) by lia.
  unfold Decimal_add at 2. rewrite (context_round_small (acc + a)) by lia.
  rewrite IH by lia. lia.
Qed.

(** Within the precision of the context the total is the exact sum. *)
Lemma Decimal_total_exact (amounts : list Z) :
  within_precision amounts -> Decimal_total amounts = sum_Z amounts.
Proof.
  unfold within_precision, Decimal_total, sum_Z. intros Hb.
  rewrite Decimal_total_from by (change (Z.abs 0) with 0; lia). lia.
Qed.

Lemma PositiveIntegerField_storable (q : Z) :
  storable q -> PositiveIntegerField q = Ok q.
Proof.
  unfold storable, PositiveIntegerField, fits_integer. intros [H0 H1].
  assert ((- 2 ^ 63 <=? q) = true) as -> by (apply Z.leb_le; lia).
  assert ((q <? 2 ^ 63) = true) as -> by (apply Z.ltb_lt; lia).
  assert ((0 <=? q) = true) as -> by (apply Z.leb_le; lia).
  reflexivity.
Qed.

Lemma PositiveIntegerField_Ok (q v : Z) :
  PositiveIntegerField q = Ok v -> v = q /\ storable q.
Proof.
  unfold storable, PositiveIntegerField, fits_integer.
  destruct (Z.leb_spec (- 2 ^ 63) q), (Z.ltb_spec q (2 ^ 63)); cbn [andb];
    try discriminate.
  destruct (Z.leb_spec 0 q); [|discriminate].
  intros [= <-]. lia.
Qed.

Lemma PositiveIntegerField_overflow (q : Z) :
  2 ^ 63 <= q -> PositiveIntegerField q = Raise OverflowError.
Proof.
  unfold PositiveIntegerField, fits_integer. intros Hq.
  assert ((q <? 2 ^ 63) = false) as -> by (apply Z.ltb_ge; lia).
  now rewrite andb_false_r.
Qed.

Lemma CartItem_save_storable db item :
  storable (ci_quantity item) ->
  CartItem_save db item
  = Ok (set_cart_items db (tbl_save ci_id item (cart_items db)) (seq_cart_item db)).
Proof.
  intros Hq. unfold CartItem_save. now rewrite PositiveIntegerField_storable.
Qed.

Lemma CartItem_save_Ok db item db' :
  CartItem_save db item = Ok db' ->
  db' = set_cart_items db (tbl_save ci_id item (cart_items db)) (seq_cart_item db)
  /\ storable (ci_quantity item).
Proof.
  unfold CartItem_save.
  destruct (PositiveIntegerField (ci_quantity item)) as [v|e] eqn:E; [|discriminate].
  apply PositiveIntegerField_Ok in E as [_ Hq]. cbn [bind]. intros [= <-]. now split.
Qed.

Lemma OrderItem_create_storable db order medicine quantity price :
  storable quantity ->
  OrderItem_create db order medicine quantity price
  = Ok (set_order_items db
          (order_items db ++
             [mkOrderItem (seq_order_item db) (order_id order) (med_id medicine)
                          quantity price])
          (seq_order_item db + 1)).
Proof.
  intros Hq. unfold OrderItem_create. now rewrite PositiveIntegerField_storable.
Qed.

Lemma OrderItem_create_Ok db order medicine quantity price db' :
  OrderItem_create db order medicine quantity price = Ok db' ->
  db' = set_order_items db
          (order_items db ++
             [mkOrderItem (seq_order_item db) (order_id order) (med_id medicine)
                          quantity price])
          (seq_order_item db + 1)
  /\ storable quantity.
Proof.
  unfold OrderItem_create.
  destruct (PositiveIntegerField quantity) as [v|e] eqn:E; [|discriminate].
  apply PositiveIntegerField_Ok in E as [_ Hq]. cbn [bind]. intros [= <-]. now split.
Qed.

(** ** Tables and dicts *)

Section TableFacts.
Variable Row : Type.
Variable key : Row -> Z.

Lemma filter_none (p : Row -> bool) (t : list Row) :
  (forall x, In x t -> p x = false) -> filter p t = [].
Proof.
  induction t as [|x t IH]; simpl; intros Hp; [reflexivity|].
  rewrite (Hp x (or_introl eq_refl)). apply IH. intros y Hy. apply Hp. now right.
Qed.

Lemma filter_nil_inv (p : Row -> bool) (t : list Row) x :
  filter p t = [] -> In x t -> p x = false.
Proof.
  intros E Hx. destruct (p x) eqn:Px; [|reflexivity].
  assert (In x (filter p t)) as Hf by (apply filter_In; auto).
  rewrite E in Hf. destruct Hf.
Qed.

Lemma tbl_get_Ok (p : Row -> bool) t r : tbl_get p t = Ok r -> filter p t = [r].
Proof.
  unfold tbl_get. destruct (filter p t) as [|a [|b l]]; congruence.
Qed.

Lemma tbl_get_of_filter (p : Row -> bool) t r : filter p t = [r] -> tbl_get p t = Ok r.
Proof. unfold tbl_get. now intros ->. Qed.

Lemma tbl_get_none (p : Row -> bool) t : filter p t = [] -> tbl_get p t = Raise DoesNotExist.
Proof. unfold tbl_get. now intros ->. Qed.

Lemma tbl_get_In (p : Row -> bool) t r : tbl_get p t = Ok r -> In r t /\ p r = true.
Proof.
  intros E. apply tbl_get_Ok in E. apply filter_In. rewrite E. now left.
Qed.

Lemma tbl_get_or_404_Ok (p : Row -> bool) t r :
  tbl_get_or_404 p t = Ok r -> tbl_get p t = Ok r.
Proof.
  unfold tbl_get_or_404. destruct (tbl_get p t) as [a|[]]; congruence.
Qed.

(** A key that is unique in the table selects one row. *)
Lemma filter_key_unique t r :
  NoDup (map key t) -> In r t -> filter (fun x => key x =? key r) t = [r].
Proof.
  induction t as [|x t IH]; simpl; intros Hn Hr; [destruct Hr|].
  inversion Hn as [|? ? Hx Hn']; subst.
  destruct Hr as [->|Hr].
  - rewrite Z.eqb_refl. f_equal. apply filter_none.
    intros y Hy. apply Z.eqb_neq. intros E. apply Hx.
    rewrite <- E. now apply in_map.
  - destruct (Z.eqb_spec (key x) (key r)) as [E|E].
    + exfalso. apply Hx. rewrite E. now apply in_map.
    + now apply IH.
Qed.

Lemma filter_key_absent t k :
  ~ In k (map key t) -> filter (fun x => key x =? k) t = [].
Proof.
  intros Hk. apply filter_none. intros y Hy. apply Z.eqb_neq.
  intros E. apply Hk. rewrite <- E. now apply in_map.
Qed.

Lemma filter_andb (p q : Row -> bool) t :
  filter (fun x => p x && q x) t = filter q (filter p t).
Proof.
  induction t as [|x t IH]; simpl; [reflexivity|].
  destruct (p x); simpl; [destruct (q x)|]; now rewrite IH.
Qed.

(** Saving a row whose key is in the table replaces just that row. *)
Lemma tbl_save_present t r r' :
  NoDup (map key t) -> In r t -> key r' = key r ->
  tbl_save key r' t = map (fun x => if key x =? key r then r' else x) t.
Proof.
  intros Hn Hr E. unfold tbl_save. rewrite E.
  assert (existsb (fun x => key x =? key r) t = true) as ->; [|reflexivity].
  apply existsb_exists. exists r. split; [assumption|apply Z.eqb_refl].
Qed.

Lemma map_key_replace t k r' :
  key r' = k ->
  map key (map (fun x => if key x =? k then r' else x) t) = map key t.
Proof.
  intros E. rewrite map_map. apply map_ext. intros x.
  destruct (Z.eqb_spec (key x) k); congruence.
Qed.

End TableFacts.

Lemma distinct_NoDup (l : list Z) : distinct l = true -> NoDup l.
Proof.
  induction l as [|x l IH]; simpl; intros E; constructor.
  - apply andb_prop in E as [E _]. intros Hx.
    assert (existsb (Z.eqb x) l = true) as Hex.
    { apply existsb_exists. exists x. split; [assumption|apply Z.eqb_refl]. }
    rewrite Hex in E. discriminate.
  - apply IH. now apply andb_prop in E as [_ E].
Qed.

Lemma forallb_ltb (A : Type) (f : A -> Z) (b : Z) (l : list A) :
  forallb (fun x => f x <? b) l = true -> Forall (fun x => f x < b) l.
Proof.
  intros E. apply Forall_forall. intros x Hx.
  rewrite forallb_forall in E. apply Z.ltb_lt. now apply E.
Qed.

Lemma forallb_mem (A : Type) (f : A -> Z) (ks : list Z) (l : list A) :
  forallb (fun x => existsb (Z.eqb (f x)) ks) l = true ->
  Forall (fun x => In (f x) ks) l.
Proof.
  intros E. apply Forall_forall. intros x Hx.
  rewrite forallb_forall in E. specialize (E x Hx).
  apply existsb_exists in E as [k [Hk E]]. apply Z.eqb_eq in E. now subst.
Qed.

Lemma db_check_sound (db : DB) : db_check db = true -> db_ok db.
Proof.
  unfold db_check. intros E.
  repeat (apply andb_prop in E as [E ?]).
  constructor; auto using distinct_NoDup, forallb_ltb, forallb_mem.
Qed.

(** ** Checkout *)

Section CheckoutFacts.
Context `{PyBuiltins}.

Lemma Order_create_Ok db now user total address phone order db1 :
  Order_create db now user total address phone = Ok (order, db1) ->
  exists a p,
    address = Some a /\ phone = Some p /\
    order = mkOrder (seq_order db) user total "PENDING" a p now now /\
    db1 = set_orders db (orders db ++ [order]) (seq_order db + 1).
Proof.
  unfold Order_create. destruct address as [a|], phone as [p|]; try discriminate.
  intros [= <- <-]. now exists a, p.
Qed.

Lemma order_items_from_cart_medicines order items : forall db,
  medicines (fst (order_items_from_cart db order items)) = medicines db.
Proof.
  induction items as [|i items IH]; intros db; simpl; [reflexivity|].
  destruct (CartItem_medicine db i) as [m|e]; simpl; [|reflexivity].
  destruct (OrderItem_create db order m _ _) as [db'|e] eqn:E; [|reflexivity].
  apply OrderItem_create_Ok in E as [-> _]. now rewrite IH.
Qed.

Lemma order_items_from_session_medicines order items : forall db,
  medicines (fst (order_items_from_session db order items)) = medicines db.
Proof.
  induction items as [|[k l] items IH]; intros db; simpl; [reflexivity|].
  destruct (py_int k) as [n|]; simpl; [|reflexivity].
  destruct (tbl_get _ (medicines db)) as [m|[]]; simpl; try reflexivity.
  - destruct (OrderItem_create db order m _ _) as [db'|e] eqn:E; [|reflexivity].
    apply OrderItem_create_Ok in E as [-> _]. now rewrite IH.
  - apply IH.
Qed.

Lemma checkout_medicines db request :
  medicines (out_db (checkout db request)) = medicines db.
Proof.
  unfold checkout.
  destruct (resolve_cart db request false) as [[[|line lines] total]|e];
    try reflexivity.
  destruct (req_method request); [reflexivity|].
  destruct (req_user request) as [user|].
  - destruct (Order_create _ _ _ _ _ _) as [[order db1]|e] eqn:Ho; [|reflexivity].
    apply Order_create_Ok in Ho as (a & p & _ & _ & _ & ->).
    destruct (Cart_get _ user) as [cart|e]; [|reflexivity].
    pose proof (order_items_from_cart_medicines order
                  (Cart_items (set_orders db (orders db ++ [order]) (seq_order db + 1)) cart)
                  (set_orders db (orders db ++ [order]) (seq_order db + 1))) as E.
    destruct (order_items_from_cart _ order _) as [db2 [e|]]; exact E.
  - destruct (Order_create _ _ _ _ _ _) as [[order db1]|e] eqn:Ho; [|reflexivity].
    apply Order_create_Ok in Ho as (a & p & _ & _ & _ & ->).
    pose proof (order_items_from_session_medicines order
                  (session_cart (req_session request))
                  (set_orders db (orders db ++ [order]) (seq_order db + 1))) as E.
    destruct (order_items_from_session _ order _) as [db2 [e|]]; exact E.
Qed.

Lemma set_order_items_same db :
  set_order_items db (order_items db ++ []) (seq_order_item db + 0) = db.
Proof.
  destruct db. unfold set_order_items. simpl.
  now rewrite app_nil_r, Z.add_0_r.
Qed.

Lemma all_parts_cons db line lines parts :
  all_parts db (line :: lines) = Ok parts ->
  exists p ps,
    line_parts db line = Ok p /\ all_parts db lines = Ok ps /\ parts = p :: ps.
Proof.
  simpl. destruct (line_parts db line) as [p|e]; simpl; [|discriminate].
  destruct (all_parts db lines) as [ps|e]; simpl; [|discriminate].
  intros [= <-]. now exists p, ps.
Qed.

Lemma all_parts_length db lines : forall parts,
  all_parts db lines = Ok parts -> List.length parts = List.length lines.
Proof.
  induction lines as [|line lines IH]; intros parts E.
  - simpl in E. now injection E as <-.
  - apply all_parts_cons in E as (p & ps & _ & E & ->). simpl. f_equal. now apply IH.
Qed.

Lemma new_order_items_length order parts : forall first_id,
  List.length (new_order_items first_id order parts) = List.length parts.
Proof.
  induction parts as [|[m q] parts IH]; intros first_id; simpl; [reflexivity|].
  now rewrite IH.
Qed.

Lemma parts_total_amounts (parts : list (Medicine * Z)) :
  parts_total parts = sum_Z (parts_amounts parts).
Proof. induction parts as [|p parts IH]; simpl; [reflexivity|]. now rewrite IH. Qed.

(** The quantities of the parts are those of the lines. *)
Lemma all_parts_quantities db lines : forall parts,
  all_parts db lines = Ok parts -> map snd parts = map line_quantity lines.
Proof.
  induction lines as [|line lines IH]; intros parts E.
  - simpl in E. now injection E as <-.
  - apply all_parts_cons in E as (p & ps & Hp & E & ->). simpl. f_equal.
    + destruct line as [item|id m q]; simpl in Hp.
      * destruct (CartItem_medicine db item); simpl in Hp; [|discriminate].
        now injection Hp as <-.
      * now injection Hp as <-.
    + now apply IH.
Qed.

Lemma all_parts_storable db lines parts :
  all_parts db lines = Ok parts ->
  Forall (fun line => storable (line_quantity line)) lines ->
  Forall (fun p => storable (snd p)) parts.
Proof.
  intros E Hl. apply all_parts_quantities in E.
  apply Forall_forall. intros p Hp.
  assert (In (snd p) (map line_quantity lines)) as Hin
    by (rewrite <- E; now apply in_map).
  apply in_map_iff in Hin as (line & <- & Hline).
  rewrite Forall_forall in Hl. now apply Hl.
Qed.

(** The total of a database cart is the sum, as [sum] computes it, of
    quantity × price over its rows. *)
Lemma cart_total_parts db items : forall acc total,
  sum_exc (CartItem_get_total_price db) items acc = Ok total ->
  exists parts,
    all_parts db (map DbLine items) = Ok parts
    /\ total = fold_left (fun acc a => Decimal_add acc (context_round a))
                         (parts_amounts parts) acc.
Proof.
  induction items as [|i items IH]; intros acc total; simpl.
  - intros [= <-]. now exists [].
  - unfold CartItem_get_total_price at 1.
    destruct (CartItem_medicine db i) as [m|e]; simpl; [|discriminate].
    intros E. apply IH in E as (parts & -> & ->).
    now exists ((m, ci_quantity i) :: parts).
Qed.

(** The loop over the rows of the cart adds one row per line. *)
Lemma order_items_from_cart_spec db order items : forall parts db',
  medicines db' = medicines db ->
  all_parts db (map DbLine items) = Ok parts ->
  Forall (fun p => storable (snd p)) parts ->
  order_items_from_cart db' order items
  = (set_order_items db'
       (order_items db' ++ new_order_items (seq_order_item db') order parts)
       (seq_order_item db' + Z.of_nat (List.length parts)),
     None).
Proof.
  induction items as [|i items IH]; intros parts db' Hm E Hq.
  - simpl in E. injection E as <-. simpl. now rewrite set_order_items_same.
  - change (map DbLine (i :: items)) with (DbLine i :: map DbLine items) in E.
    apply all_parts_cons in E as (p & ps & Hp & E & ->).
    simpl in Hp. destruct (CartItem_medicine db i) as [m|e] eqn:Hi; [|discriminate].
    simpl in Hp. injection Hp as <-.
    inversion Hq as [|? ? Hq1 Hq2]; subst. cbn [snd] in Hq1.
    simpl List.length. rewrite Nat2Z.inj_succ.
    simpl. unfold CartItem_medicine in *. rewrite Hm, Hi.
    rewrite OrderItem_create_storable by exact Hq1.
    rewrite (IH ps); [|exact Hm|exact E|exact Hq2].
    unfold set_order_items. simpl.
    f_equal. f_equal; [now rewrite <- app_assoc|lia].
Qed.

(** The loop over the session's dict: the lines it finds, their total,
    and what the second loop of [checkout] does with the same dict. *)
Lemma session_lines_spec db with_id items : forall acc t lines total,
  session_lines db with_id items acc t = Ok (lines, total) ->
  exists new parts,
    lines = acc ++ new /\
    all_parts db new = Ok parts /\
    total = fold_left (fun acc a => Decimal_add acc (context_round a))
                      (parts_amounts parts) t /\
    forall db' order,
      medicines db' = medicines db ->
      Forall (fun p => storable (snd p)) parts ->
      order_items_from_session db' order items
      = (set_order_items db'
           (order_items db' ++ new_order_items (seq_order_item db') order parts)
           (seq_order_item db' + Z.of_nat (List.length parts)),
         None).
Proof.
  induction items as [|[k l] items IH]; intros acc t lines total; simpl.
  - intros [= <- <-]. exists [], []. simpl.
    rewrite app_nil_r. split; [reflexivity|]. split; [reflexivity|].
    split; [reflexivity|].
    intros db' order _ _. now rewrite set_order_items_same.
  - destruct (py_int k) as [n|]; [|discriminate].
    destruct (tbl_get _ (medicines db)) as [m|[]] eqn:Hm; try discriminate.
    + intros E. apply IH in E as (new & parts & -> & Hp & -> & Hloop).
      exists (GuestLine (if with_id then Some k else None) m (sl_quantity l) :: new),
             ((m, sl_quantity l) :: parts).
      rewrite <- app_assoc. simpl. rewrite Hp. simpl.
      split; [reflexivity|]. split; [reflexivity|].
      split; [unfold Decimal_mul; now rewrite Z.mul_comm|].
      intros db' order Hdb Hq. rewrite Hdb, Hm.
      inversion Hq as [|? ? Hq1 Hq2]; subst. cbn [snd] in Hq1.
      rewrite OrderItem_create_storable by exact Hq1.
      rewrite Hloop by assumption.
      rewrite Zpos_P_of_succ_nat.
      unfold set_order_items. simpl.
      f_equal. f_equal; [now rewrite <- app_assoc|lia].
    + intros E. apply IH in E as (new & parts & -> & Hp & -> & Hloop).
      exists new, parts.
      split; [reflexivity|]. split; [assumption|]. split; [reflexivity|].
      intros db' order Hdb Hq. rewrite Hdb, Hm. now apply Hloop.
Qed.

(** C7.  Placing an order never touches the [Medicine] table: after any
    call of [checkout], by a logged-in user or by a guest, with any method
    and any form data, the table is the one the call found, so every
    medicine has the [stock_quantity] it had. *)
Theorem checkout_keeps_stock_quantity db request :
  medicines (out_db (checkout db request)) = medicines db
  /\ map (fun m => (med_id m, med_stock_quantity m))
         (medicines (out_db (checkout db request)))
     = map (fun m => (med_id m, med_stock_quantity m)) (medicines db).
Proof.
  split; now rewrite checkout_medicines.
Qed.

(** C2.  When the resolved cart is empty, [checkout] answers with the
    error message and the redirect to the cart page, and leaves the
    database, so the [Order] table too, and the session as they were;
    this is so for a GET and for a POST, for a user and for a guest. *)
Theorem checkout_empty_cart db request total :
  resolve_cart db request false = Ok ([], total) ->
  out_response (checkout db request) = Redirect "cart_detail" None
  /\ out_messages (checkout db request) = [(ERROR, "Your cart is empty!")]
  /\ out_db (checkout db request) = db
  /\ orders (out_db (checkout db request)) = orders db
  /\ out_session (checkout db request) = req_session request.
Proof.
  intros E. unfold checkout. rewrite E. simpl. auto.
Qed.

Lemma resolve_cart_user db request user with_id lines total :
  req_user request = Some user ->
  resolve_cart db request with_id = Ok (lines, total) ->
  lines <> [] ->
  exists cart parts,
    Cart_get db user = Ok cart /\
    lines = map DbLine (Cart_items db cart) /\
    all_parts db lines = Ok parts /\
    total = Decimal_total (parts_amounts parts).
Proof.
  intros Hu E Hne. unfold resolve_cart in E. rewrite Hu in E.
  destruct (Cart_get db user) as [cart|[]] eqn:Hc; try discriminate.
  - unfold Cart_get_total_price in E.
    destruct (sum_exc _ _ 0) as [t|e] eqn:Ht; simpl in E; [|discriminate].
    injection E as <- <-.
    apply cart_total_parts in Ht as (parts & Hp & ->).
    exists cart, parts. repeat split; assumption.
  - injection E as <- _. now contradiction Hne.
Qed.

Lemma resolve_cart_guest db request with_id lines total :
  req_user request = None ->
  resolve_cart db request with_id = Ok (lines, total) ->
  exists parts,
    all_parts db lines = Ok parts /\
    total = Decimal_total (parts_amounts parts) /\
    forall db' order,
      medicines db' = medicines db ->
      Forall (fun p => storable (snd p)) parts ->
      order_items_from_session db' order (session_cart (req_session request))
      = (set_order_items db'
           (order_items db' ++ new_order_items (seq_order_item db') order parts)
           (seq_order_item db' + Z.of_nat (List.length parts)),
         None).
Proof.
  intros Hu E. unfold resolve_cart in E. rewrite Hu in E.
  apply session_lines_spec in E as (new & parts & -> & Hp & -> & Hloop).
  exists parts. simpl. repeat split; assumption.
Qed.

(** The rows of the cart of a user are gone once the rows of the user's
    one cart are deleted. *)
Lemma cart_rows_deleted db user cart (t : list CartItem) db' :
  Cart_get db user = Ok cart ->
  carts db' = carts db ->
  cart_items db' = tbl_delete_where (fun i => ci_cart i =? cart_id cart) t ->
  filter (in_cart_of db' user) (cart_items db') = [].
Proof.
  intros Hc Hcarts ->. apply filter_none. intros i Hi.
  apply filter_In in Hi as [_ Hi]. apply negb_true_iff in Hi.
  unfold in_cart_of. rewrite Hcarts.
  destruct (existsb _ (carts db)) eqn:Hex; [|reflexivity].
  apply existsb_exists in Hex as (c & Hin & Hcond).
  apply andb_prop in Hcond as [Hid Hus].
  apply tbl_get_Ok in Hc.
  assert (In c (filter (fun c => cart_user c =? user_id user) (carts db))) as Hf
    by (apply filter_In; auto).
  unfold Cart_get in Hc. rewrite Hc in Hf. destruct Hf as [<-|[]].
  apply Z.eqb_eq in Hid. rewrite Hid, Z.eqb_refl in Hi. discriminate.
Qed.

(** C1, as the code has it.  A POST to [checkout] that carries the
    shipping address and the phone number, made with a resolved cart that
    is not empty and whose quantities a [PositiveIntegerField] holds, by a
    user or by a guest: one row [order] is added to [Order], with status
    PENDING and with the total of the lines, which is the sum of quantity ×
    price as [Decimal] computes it, and Σ quantity × price itself when the
    amounts stay within the 28 digits of the context; one row is added to
    [OrderItem] for each line, in their order, holding the order, the
    medicine, the quantity and the price the medicine has at that moment;
    and the cart is empty afterwards: resolving it again gives no line, the
    rows of the user's cart are deleted, the guest's session holds the
    empty dict. *)
Theorem checkout_places_order db request lines total address phone :
  req_method request = POST ->
  resolve_cart db request false = Ok (lines, total) ->
  lines <> [] ->
  dict_get "shipping_address" (req_POST request) = Some address ->
  dict_get "phone_number" (req_POST request) = Some phone ->
  Forall (fun line => storable (line_quantity line)) lines ->
  exists order parts,
    all_parts db lines = Ok parts
    /\ out_response (checkout db request)
       = Redirect "order_success" (Some (order_id order))
    /\ orders (out_db (checkout db request)) = orders db ++ [order]
    /\ order_status order = "PENDING"
    /\ order_total_amount order = Decimal_total (parts_amounts parts)
    /\ (within_precision (parts_amounts parts) ->
        order_total_amount order = parts_total parts)
    /\ order_phone_number order = phone
    /\ order_items (out_db (checkout db request))
       = order_items db ++ new_order_items (seq_order_item db) order parts
    /\ List.length (new_order_items (seq_order_item db) order parts)
       = List.length lines
    /\ resolve_cart (out_db (checkout db request))
                    (with_session request (out_session (checkout db request)))
                    false
       = Ok ([], 0)
    /\ match req_user request with
       | Some user =>
           filter (in_cart_of (out_db (checkout db request)) user)
                  (cart_items (out_db (checkout db request))) = []
       | None => out_session (checkout db request) = Some []
       end.
Proof.
  intros Hpost Hres Hne Haddr Hphone Hq.
  unfold checkout. rewrite Hres.
  destruct lines as [|line lines']; [now contradiction Hne|].
  rewrite Hpost, Haddr, Hphone.
  destruct (req_user request) as [user|] eqn:Hu.
  - destruct (resolve_cart_user _ _ _ _ _ _ Hu Hres Hne) as (cart & parts & Hc & Hl & Hp & Ht).
    pose proof (all_parts_storable _ _ _ Hp Hq) as Hqp.
    simpl Order_create. cbv beta iota.
    set (order := mkOrder (seq_order db) (Some (user_id user)) total "PENDING"
                          address phone (req_now request) (req_now request)).
    set (db1 := set_orders db (orders db ++ [order]) (seq_order db + 1)).
    assert (Cart_get db1 user = Ok cart) as -> by exact Hc.
    change (Cart_items db1 cart) with (Cart_items db cart).
    rewrite (order_items_from_cart_spec db order (Cart_items db cart) parts db1);
      [|reflexivity|now rewrite <- Hl|exact Hqp].
    exists order, parts. simpl.
    split; [assumption|]. split; [reflexivity|]. split; [reflexivity|].
    split; [reflexivity|]. split; [assumption|].
    split; [intros Hw; rewrite Ht, parts_total_amounts;
            now apply Decimal_total_exact|].
    split; [reflexivity|]. split; [reflexivity|].
    split; [rewrite new_order_items_length; now apply all_parts_length in Hp|].
    split.
    + unfold resolve_cart. simpl. rewrite Hu.
      unfold Cart_get in *. simpl. rewrite Hc.
      unfold Cart_get_total_price, Cart_items, tbl_filter. simpl.
      unfold tbl_delete_where.
      rewrite (filter_none _ _ (filter _ (cart_items db))); [reflexivity|].
      intros i Hi. apply filter_In in Hi as [_ Hi].
      now apply negb_true_iff in Hi.
    + eapply cart_rows_deleted with (db := db); [exact Hc|reflexivity|reflexivity].
  - destruct (resolve_cart_guest _ _ _ _ _ Hu Hres) as (parts & Hp & Ht & Hloop).
    pose proof (all_parts_storable _ _ _ Hp Hq) as Hqp.
    simpl Order_create. cbv beta iota.
    set (order := mkOrder (seq_order db) None total "PENDING" _
                          phone (req_now request) (req_now request)).
    set (db1 := set_orders db (orders db ++ [order]) (seq_order db + 1)).
    rewrite (Hloop db1 order) by (reflexivity || exact Hqp).
    exists order, parts. simpl.
    split; [assumption|]. split; [reflexivity|]. split; [reflexivity|].
    split; [reflexivity|]. split; [assumption|].
    split; [intros Hw; rewrite Ht, parts_total_amounts;
            now apply Decimal_total_exact|].
    split; [reflexivity|]. split; [reflexivity|].
    split; [rewrite new_order_items_length; now apply all_parts_length in Hp|].
    split; [|reflexivity].
    unfold resolve_cart. simpl. now rewrite Hu.
Qed.

End CheckoutFacts.

Lemma checkout_places_order_witness :
  (req_method Sample.alice_checkout = POST
   /\ resolve_cart Sample.shop Sample.alice_checkout false
      = Ok (Sample.alice_lines, 23000)
   /\ Sample.alice_lines <> []
   /\ dict_get "shipping_address" (req_POST Sample.alice_checkout)
      = Some "12 High Street"
   /\ dict_get "phone_number" (req_POST Sample.alice_checkout) = Some "5550100"
   /\ Forall (fun line => storable (line_quantity line)) Sample.alice_lines)
  /\ exists order parts,
       all_parts Sample.shop Sample.alice_lines = Ok parts
       /\ out_response (checkout Sample.shop Sample.alice_checkout)
          = Redirect "order_success" (Some (order_id order))
       /\ orders (out_db (checkout Sample.shop Sample.alice_checkout))
          = orders Sample.shop ++ [order]
       /\ order_status order = "PENDING"
       /\ order_total_amount order = Decimal_total (parts_amounts parts)
       /\ (within_precision (parts_amounts parts) ->
           order_total_amount order = parts_total parts)
       /\ order_phone_number order = "5550100"
       /\ order_items (out_db (checkout Sample.shop Sample.alice_checkout))
          = order_items Sample.shop
            ++ new_order_items (seq_order_item Sample.shop) order parts
       /\ List.length (new_order_items (seq_order_item Sample.shop) order parts)
          = List.length Sample.alice_lines
       /\ resolve_cart (out_db (checkout Sample.shop Sample.alice_checkout))
            (with_session Sample.alice_checkout
               (out_session (checkout Sample.shop Sample.alice_checkout)))
            false
          = Ok ([], 0)
       /\ match req_user Sample.alice_checkout with
          | Some user =>
              filter (in_cart_of (out_db (checkout Sample.shop Sample.alice_checkout)) user)
                     (cart_items (out_db (checkout Sample.shop Sample.alice_checkout)))
              = []
          | None =>
              out_session (checkout Sample.shop Sample.alice_checkout) = Some []
          end.
Proof.
  assert (Forall (fun line => storable (line_quantity line)) Sample.alice_lines)
    as Hq by (repeat constructor; simpl; lia).
  split.
  - split; [reflexivity|]. split; [reflexivity|]. split; [discriminate|].
    split; [reflexivity|]. split; [reflexivity|exact Hq].
  - apply (@checkout_places_order decimal_builtins Sample.shop Sample.alice_checkout
             Sample.alice_lines 23000 "12 High Street" "5550100");
      try reflexivity; [discriminate|exact Hq].
Defined.

(** C1 as stated fails for a guest whose session holds a quantity of
    [2^63], which [update_cart_item] writes there on request: the cart
    resolves to one line, [checkout] writes the order and then fails on the
    order item, whose quantity the driver refuses; the answer is the server
    error, the order has no item and the session cart is not emptied. *)
Lemma checkout_fails_on_oversized_quantity :
  out_session (update_cart_item Sample.catalogue
                 (Sample.set_quantity None "9223372036854775808") 1)
  = Some Edge.oversized_cart
  /\ resolve_cart Sample.catalogue Edge.oversized_checkout false
     = Ok ([GuestLine None Sample.medicine_a (2 ^ 63);
            GuestLine None Sample.medicine_b 1],
           2 ^ 63 * 9000 + 5000)
  /\ out_response (checkout Sample.catalogue Edge.oversized_checkout) = ServerError
  /\ map order_status
         (orders (out_db (checkout Sample.catalogue Edge.oversized_checkout)))
     = ["PENDING"]
  /\ order_items (out_db (checkout Sample.catalogue Edge.oversized_checkout)) = []
  /\ out_session (checkout Sample.catalogue Edge.oversized_checkout)
     = Some Edge.oversized_cart.
Proof. repeat split. Qed.

(** The example of the specification: two of A at 90.00 and one of B at
    50.00 give an order of 230.00 with two items at 90.00 and 50.00, and an
    empty cart; the same for a guest whose session holds these lines. *)
Example checkout_example_user :
  let out := checkout Sample.shop Sample.alice_checkout in
  map order_total_amount (orders (out_db out)) = [23000]
  /\ map oi_price (order_items (out_db out)) = [9000; 5000]
  /\ cart_items (out_db out) = [].
Proof. repeat split. Qed.

Example checkout_example_guest :
  let out := checkout Sample.catalogue Sample.guest_checkout in
  map order_total_amount (orders (out_db out)) = [23000]
  /\ map oi_price (order_items (out_db out)) = [9000; 5000]
  /\ map order_user (orders (out_db out)) = [None]
  /\ out_session out = Some [].
Proof. repeat split. Qed.

Lemma checkout_empty_cart_witness :
  resolve_cart Sample.catalogue Sample.nobody_checkout false = Ok ([], 0)
  /\ out_response (checkout Sample.catalogue Sample.nobody_checkout)
     = Redirect "cart_detail" None
  /\ out_messages (checkout Sample.catalogue Sample.nobody_checkout)
     = [(ERROR, "Your cart is empty!")]
  /\ out_db (checkout Sample.catalogue Sample.nobody_checkout) = Sample.catalogue
  /\ orders (out_db (checkout Sample.catalogue Sample.nobody_checkout))
     = orders Sample.catalogue
  /\ out_session (checkout Sample.catalogue Sample.nobody_checkout)
     = req_session Sample.nobody_checkout.
Proof.
  split; [reflexivity|].
  apply (@checkout_empty_cart decimal_builtins Sample.catalogue
           Sample.nobody_checkout 0).
  reflexivity.
Defined.

(** ** Saving a row *)

Section SaveFacts.
Variable Row : Type.
Variable key : Row -> Z.

Lemma filter_key_saved t r r' :
  NoDup (map key t) -> In r t -> key r' = key r ->
  filter (fun x => key x =? key r) (tbl_save key r' t) = [r'].
Proof.
  intros Hn Hr E. rewrite (tbl_save_present Row key t r r' Hn Hr E).
  rewrite <- E. apply filter_key_unique.
  - rewrite E. now rewrite map_key_replace.
  - apply in_map_iff. exists r. split; [|assumption].
    rewrite E. now rewrite Z.eqb_refl.
Qed.

Lemma tbl_save_keys t r r' :
  NoDup (map key t) -> In r t -> key r' = key r ->
  map key (tbl_save key r' t) = map key t.
Proof.
  intros Hn Hr E. rewrite (tbl_save_present Row key t r r' Hn Hr E).
  now apply map_key_replace.
Qed.

Lemma tbl_save_other t r r' x :
  NoDup (map key t) -> In r t -> key r' = key r ->
  key x <> key r -> (In x (tbl_save key r' t) <-> In x t).
Proof.
  intros Hn Hr E Hx. rewrite (tbl_save_present Row key t r r' Hn Hr E).
  rewrite in_map_iff. split.
  - intros (y & Hy & Hin). destruct (Z.eqb_spec (key y) (key r)); subst; [|assumption].
    congruence.
  - intros Hin. exists x. split; [|assumption].
    destruct (Z.eqb_spec (key x) (key r)); congruence.
Qed.

End SaveFacts.


(** ** Order status *)

Section StatusFacts.
Context `{PyBuiltins}.


End StatusFacts.


(** A delivered order goes back to PENDING, a cancelled one to SHIPPED;
    a status that is no choice changes nothing. *)
Example status_out_of_terminal_states :
  map order_status
      (orders (out_db (admin_order_detail 5 Sample.archive (Sample.staff_post "PENDING"))))
  = ["PENDING"; "CANCELLED"; "PENDING"]
  /\ map order_status
      (orders (out_db (admin_order_detail 6 Sample.archive (Sample.staff_post "SHIPPED"))))
     = ["DELIVERED"; "SHIPPED"; "PENDING"]
  /\ out_db (admin_order_detail 6 Sample.archive (Sample.staff_post "RETURNED"))
     = Sample.archive.
Proof. repeat split. Qed.

(** ** Order tracking *)

Lemma insert_newest_first_perm o l : Permutation (insert_newest_first o l) (o :: l).
Proof.
  induction l as [|x l IH]; simpl; [reflexivity|].
  destruct (order_created_at x <=? order_created_at o); [reflexivity|].
  rewrite IH. apply perm_swap.
Qed.

Lemma order_by_created_desc_perm l : Permutation (order_by_created_desc l) l.
Proof.
  induction l as [|x l IH]; simpl; [reflexivity|].
  rewrite insert_newest_first_perm. now constructor.
Qed.



Section TrackFacts.
Context `{PyBuiltins}.


End TrackFacts.


(** By phone alone: both orders of the number, the later one first.  By
    phone and identifier: the one order, or the error when the identifier
    belongs to an order of another number or is no number. *)
Example track_order_examples :
  out_response (track_order Sample.archive (Sample.track "" " 5550100 "))
  = Render "medicines/track_order.html"
      (TrackContext (Some [Sample.order_8; Sample.order_5]) None None (Some "phone"))
  /\ out_response (track_order Sample.archive (Sample.track "8" "5550100"))
     = Render "medicines/track_order.html"
         (TrackContext None (Some Sample.order_8) None (Some "specific"))
  /\ out_response (track_order Sample.archive (Sample.track "6" "5550100"))
     = Render "medicines/track_order.html"
         (TrackContext None None
            (Some "Order not found. Please check your Order ID and Phone Number.")
            None)
  /\ out_response (track_order Sample.archive (Sample.track "x8" "5550100"))
     = Render "medicines/track_order.html"
         (TrackContext None None
            (Some "Order not found. Please check your Order ID and Phone Number.")
            None)
  /\ out_response (track_order Sample.archive (Sample.track "" "5550000"))
     = Render "medicines/track_order.html"
         (TrackContext (Some []) None
            (Some "No orders found with this phone number.") (Some "phone")).
Proof. repeat split. Qed.

(** ** The lines of a cart *)

Section LineFacts.
Variable Row : Type.
Variable key : Row -> Z.

Lemma filter_map_commute (p : Row -> bool) (f : Row -> Row) (l : list Row) :
  (forall x, In x l -> p (f x) = p x) ->
  filter p (map f l) = map f (filter p l).
Proof.
  induction l as [|x l IH]; simpl; intros Hp; [reflexivity|].
  rewrite (Hp x (or_introl eq_refl)).
  rewrite IH by (intros y Hy; apply Hp; now right).
  now destruct (p x).
Qed.

Lemma key_determines_row t x y :
  NoDup (map key t) -> In x t -> In y t -> key x = key y -> x = y.
Proof.
  induction t as [|a t IH]; simpl; intros Hn Hx Hy E; [destruct Hx|].
  inversion Hn as [|? ? Ha Hn']; subst.
  destruct Hx as [->|Hx], Hy as [->|Hy]; auto.
  - exfalso. apply Ha. rewrite E. now apply in_map.
  - exfalso. apply Ha. rewrite <- E. now apply in_map.
Qed.

(** Saving over the one row a query selects leaves the query with the
    saved row, when the saved row still satisfies it. *)
Lemma filter_saved (p : Row -> bool) t r r' :
  NoDup (map key t) -> filter p t = [r] -> key r' = key r -> p r' = true ->
  filter p (tbl_save key r' t) = [r'].
Proof.
  intros Hn Hf E Hp.
  assert (In r t /\ p r = true) as [Hr Hpr].
  { apply filter_In. rewrite Hf. now left. }
  rewrite (tbl_save_present Row key t r r' Hn Hr E).
  rewrite filter_map_commute.
  - rewrite Hf. simpl. now rewrite Z.eqb_refl.
  - intros x Hx. destruct (Z.eqb_spec (key x) (key r)) as [Ek|Ek]; [|reflexivity].
    rewrite (key_determines_row t x r Hn Hx Hr Ek). congruence.
Qed.

Lemma filter_deleted (p : Row -> bool) t r :
  (forall x, p x = true -> key x = key r) ->
  filter p (tbl_delete key r t) = [].
Proof.
  intros Hp. apply filter_none. intros x Hx.
  apply filter_In in Hx as [_ Hx]. apply negb_true_iff, Z.eqb_neq in Hx.
  destruct (p x) eqn:Px; [|reflexivity]. now apply Hp in Px.
Qed.

End LineFacts.

Lemma map_singleton (A B : Type) (f : A -> B) (l : list A) (b : B) :
  map f l = [b] -> exists a, l = [a] /\ f a = b.
Proof.
  destruct l as [|a [|a' l]]; simpl; try discriminate.
  intros [= <-]. now exists a.
Qed.

Lemma dict_mem_filter (V : Type) (k : string) (d : Dict V) :
  dict_mem k d = match filter (fun kv => String.eqb (fst kv) k) d with
                 | [] => false
                 | _ => true
                 end.
Proof.
  unfold dict_mem. induction d as [|kv d IH]; simpl; [reflexivity|].
  destruct (String.eqb (fst kv) k); simpl; [reflexivity|exact IH].
Qed.

Lemma dict_update_filter (V : Type) (k : string) (f : V -> V) (d : Dict V) :
  filter (fun kv => String.eqb (fst kv) k) (dict_update k f d)
  = map (fun kv => (fst kv, f (snd kv)))
        (filter (fun kv => String.eqb (fst kv) k) d).
Proof.
  unfold dict_update. induction d as [|kv d IH]; simpl; [reflexivity|].
  destruct (String.eqb (fst kv) k) eqn:E; simpl; rewrite E; [simpl|]; now rewrite IH.
Qed.

Lemma dict_del_filter (V : Type) (k : string) (d : Dict V) :
  filter (fun kv => String.eqb (fst kv) k) (dict_del k d) = [].
Proof.
  apply filter_none. intros kv Hkv.
  apply filter_In in Hkv as [_ Hkv]. now apply negb_true_iff in Hkv.
Qed.

Section CartLineFacts.
Context `{PyBuiltins}.

(** C4, as the code has it.  A POST to [update_cart_item] that supplies
    the integer [q] for a line of the actor's cart, a row of the user's
    database cart or an item of the guest's session cart.  When [q <= 0]
    the line is gone afterwards.  When [q > 0] the line has quantity [q]
    afterwards, in the session cart for every [q] and in the database cart
    for [q] below [2^63]; from [2^63] on the row cannot be written: the
    request of the user ends in the server error and the line keeps the
    quantity it had. *)
Theorem update_cart_item_sets_or_removes db request item_id s q q0 :
  db_ok db ->
  req_method request = POST ->
  dict_get "quantity" (req_POST request) = Some s ->
  py_int s = Some q ->
  line_quantities db (req_session request) (req_user request) item_id = [q0] ->
  let out := update_cart_item db request item_id in
  (q <= 0 ->
   line_quantities (out_db out) (out_session out) (req_user request) item_id = []
   /\ out_response out = Redirect "cart_detail" None)
  /\ (0 < q -> req_user request = None \/ q < 2 ^ 63 ->
      line_quantities (out_db out) (out_session out) (req_user request) item_id = [q]
      /\ out_response out = Redirect "cart_detail" None)
  /\ (2 ^ 63 <= q -> req_user request <> None ->
      line_quantities (out_db out) (out_session out) (req_user request) item_id = [q0]
      /\ out_db out = db
      /\ out_session out = req_session request
      /\ out_response out = ServerError).
Proof.
  intros Hok Hpost Hs Hq Hline out. subst out.
  unfold update_cart_item, posted_quantity. rewrite Hpost, Hs, Hq.
  unfold line_quantities in *.
  destruct (req_user request) as [user|].
  - pose proof Hline as Hline0.
    apply map_singleton in Hline as (item & Hf & _).
    unfold CartItem_of_user_or_404, tbl_get_or_404.
    rewrite (tbl_get_of_filter _ _ _ item) by exact Hf.
    assert (In item (filter (fun i => (ci_id i =? item_id) && in_cart_of db user i)
                            (cart_items db))) as Hin by (rewrite Hf; now left).
    apply filter_In in Hin as [_ Hin].
    split; [|split].
    + intros Hle. assert ((q >? 0) = false) as ->
        by (destruct (Z.gtb_spec q 0); [lia|reflexivity]).
      simpl. split; [|reflexivity].
      apply andb_prop in Hin as [Hid _]. apply Z.eqb_eq in Hid.
      rewrite (filter_deleted CartItem ci_id); [reflexivity|].
      intros x Hx. apply andb_prop in Hx as [Hx _]. apply Z.eqb_eq in Hx. congruence.
    + intros Hpos [Hguest|Hlt]; [discriminate|].
      assert ((q >? 0) = true) as ->
        by (destruct (Z.gtb_spec q 0); [reflexivity|lia]).
      rewrite CartItem_save_storable by (cbn [ci_quantity]; unfold storable; lia).
      simpl. split; [|reflexivity].
      erewrite filter_saved; [reflexivity|apply Hok|exact Hf|reflexivity|exact Hin].
    + intros Hbig _.
      assert ((q >? 0) = true) as ->
        by (destruct (Z.gtb_spec q 0); [reflexivity|lia]).
      unfold CartItem_save. cbn [ci_quantity].
      rewrite PositiveIntegerField_overflow by exact Hbig.
      cbn [bind uncaught out_db out_session out_response].
      split; [exact Hline0|]. now repeat split.
  - apply map_singleton in Hline as (kv & Hf & _).
    rewrite dict_mem_filter, Hf.
    split; [|split].
    + intros Hle. assert ((q >? 0) = false) as ->
        by (destruct (Z.gtb_spec q 0); [lia|reflexivity]).
      simpl. split; [|reflexivity]. now rewrite dict_del_filter.
    + intros Hpos _.
      assert ((q >? 0) = true) as ->
        by (destruct (Z.gtb_spec q 0); [reflexivity|lia]).
      simpl. split; [|reflexivity]. rewrite dict_update_filter, Hf. reflexivity.
    + intros _ Hu. now contradiction Hu.
Qed.

(** C5, as the code has it.  [remove_from_cart] deletes the line that
    [item_id] names when the actor's cart has it.  When the cart has no
    such line nothing is changed, neither the database nor the session:
    a guest is redirected to the cart page as after a removal, a
    logged-in user gets the not-found response. *)
Theorem remove_from_cart_line db request item_id :
  (forall q0,
      line_quantities db (req_session request) (req_user request) item_id = [q0] ->
      line_quantities (out_db (remove_from_cart db request item_id))
                      (out_session (remove_from_cart db request item_id))
                      (req_user request) item_id = []
      /\ out_response (remove_from_cart db request item_id)
         = Redirect "cart_detail" None)
  /\ (line_quantities db (req_session request) (req_user request) item_id = [] ->
      out_db (remove_from_cart db request item_id) = db
      /\ out_session (remove_from_cart db request item_id) = req_session request
      /\ out_response (remove_from_cart db request item_id)
         = match req_user request with
           | Some _ => NotFound
           | None => Redirect "cart_detail" None
           end).
Proof.
  unfold remove_from_cart, line_quantities.
  destruct (req_user request) as [user|]; split.
  - intros q0 Hline. apply map_singleton in Hline as (item & Hf & _).
    unfold CartItem_of_user_or_404, tbl_get_or_404.
    rewrite (tbl_get_of_filter _ _ _ item) by exact Hf. simpl.
    split; [|reflexivity].
    assert (In item (filter (fun i => (ci_id i =? item_id) && in_cart_of db user i)
                            (cart_items db))) as Hin by (rewrite Hf; now left).
    apply filter_In in Hin as [_ Hin]. apply andb_prop in Hin as [Hid _].
    apply Z.eqb_eq in Hid.
    rewrite (filter_deleted CartItem ci_id); [reflexivity|].
    intros x Hx. apply andb_prop in Hx as [Hx _]. apply Z.eqb_eq in Hx. congruence.
  - intros Hline. apply map_eq_nil in Hline.
    unfold CartItem_of_user_or_404, tbl_get_or_404.
    rewrite tbl_get_none by exact Hline. simpl. auto.
  - intros q0 Hline. apply map_singleton in Hline as (kv & Hf & _).
    rewrite dict_mem_filter, Hf. simpl. now rewrite dict_del_filter.
  - intros Hline. apply map_eq_nil in Hline.
    rewrite dict_mem_filter, Hline. simpl. auto.
Qed.

End CartLineFacts.

Lemma update_cart_item_sets_or_removes_witness :
  (db_ok Sample.shop
   /\ req_method (Sample.set_quantity (Some Sample.alice) "5") = POST
   /\ dict_get "quantity" (req_POST (Sample.set_quantity (Some Sample.alice) "5"))
      = Some "5"
   /\ py_int "5" = Some 5
   /\ line_quantities Sample.shop
        (req_session (Sample.set_quantity (Some Sample.alice) "5"))
        (req_user (Sample.set_quantity (Some Sample.alice) "5")) 1 = [2])
  /\ let out := update_cart_item Sample.shop
                  (Sample.set_quantity (Some Sample.alice) "5") 1 in
     (5 <= 0 ->
      line_quantities (out_db out) (out_session out)
        (req_user (Sample.set_quantity (Some Sample.alice) "5")) 1 = []
      /\ out_response out = Redirect "cart_detail" None)
     /\ (0 < 5 ->
         req_user (Sample.set_quantity (Some Sample.alice) "5") = None \/ 5 < 2 ^ 63 ->
         line_quantities (out_db out) (out_session out)
           (req_user (Sample.set_quantity (Some Sample.alice) "5")) 1 = [5]
         /\ out_response out = Redirect "cart_detail" None)
     /\ (2 ^ 63 <= 5 ->
         req_user (Sample.set_quantity (Some Sample.alice) "5") <> None ->
         line_quantities (out_db out) (out_session out)
           (req_user (Sample.set_quantity (Some Sample.alice) "5")) 1 = [2]
         /\ out_db out = Sample.shop
         /\ out_session out
            = req_session (Sample.set_quantity (Some Sample.alice) "5")
         /\ out_response out = ServerError).
Proof.
  assert (db_ok Sample.shop) as Hok by (apply db_check_sound; reflexivity).
  split.
  - split; [exact Hok|]. repeat split.
  - apply (@update_cart_item_sets_or_removes decimal_builtins Sample.shop
             (Sample.set_quantity (Some Sample.alice) "5") 1 "5" 5 2 Hok);
      reflexivity.
Defined.

(** C4 as stated fails for a logged-in user at [q = 2^63]: the quantity is
    positive, the line does not get it; the request ends in the server
    error and the line has the quantity 2 it had. *)
Lemma update_cart_item_refuses_oversized_quantity :
  py_int "9223372036854775808" = Some (2 ^ 63)
  /\ line_quantities Sample.shop None (Some Sample.alice) 1 = [2]
  /\ out_response (update_cart_item Sample.shop
                     (Sample.set_quantity (Some Sample.alice) "9223372036854775808") 1)
     = ServerError
  /\ line_quantities
       (out_db (update_cart_item Sample.shop
                  (Sample.set_quantity (Some Sample.alice) "9223372036854775808") 1))
       (out_session (update_cart_item Sample.shop
                       (Sample.set_quantity (Some Sample.alice) "9223372036854775808")
                       1))
       (Some Sample.alice) 1
     = [2]
  /\ [2] <> [2 ^ 63].
Proof. repeat split. discriminate. Qed.

(** Zero and a negative quantity remove the line, on the database cart and
    on the session cart; a positive one is stored. *)
Example update_cart_item_examples :
  cart_items (out_db (update_cart_item Sample.shop
                        (Sample.set_quantity (Some Sample.alice) "0") 1))
  = [mkCartItem 2 1 2 1]
  /\ cart_items (out_db (update_cart_item Sample.shop
                           (Sample.set_quantity (Some Sample.alice) "-3") 2))
     = [mkCartItem 1 1 1 2]
  /\ cart_items (out_db (update_cart_item Sample.shop
                           (Sample.set_quantity (Some Sample.alice) "7") 2))
     = [mkCartItem 1 1 1 2; mkCartItem 2 1 2 7]
  /\ out_session (update_cart_item Sample.catalogue (Sample.set_quantity None "0") 1)
     = Some [("2", mkSessionLine 1 "Medicine B" "50.00" "")]
  /\ out_session (update_cart_item Sample.catalogue (Sample.set_quantity None "-1") 2)
     = Some [("1", mkSessionLine 2 "Medicine A" "90.00" "")]
  /\ out_session (update_cart_item Sample.catalogue (Sample.set_quantity None "4") 2)
     = Some [("1", mkSessionLine 2 "Medicine A" "90.00" "");
             ("2", mkSessionLine 4 "Medicine B" "50.00" "")].
Proof. repeat split. Qed.

(** C5 as stated fails for a logged-in user: removing a line the cart does
    not have is answered with the not-found response, not with the
    redirect of a removal. *)
Lemma remove_absent_line_is_not_found :
  line_quantities Sample.shop None (Some Sample.alice) 99 = []
  /\ out_response (remove_from_cart Sample.shop
                     (Sample.as_user Sample.alice POST []) 99)
     = NotFound
  /\ out_response (remove_from_cart Sample.shop
                     (Sample.as_user Sample.alice POST []) 99)
     <> Redirect "cart_detail" None.
Proof. repeat split. discriminate. Qed.

Example remove_from_cart_examples :
  cart_items (out_db (remove_from_cart Sample.shop
                        (Sample.as_user Sample.alice GET []) 1))
  = [mkCartItem 2 1 2 1]
  /\ out_session (remove_from_cart Sample.catalogue
                    (Sample.as_guest GET [] Sample.guest_cart) 1)
     = Some [("2", mkSessionLine 1 "Medicine B" "50.00" "")]
  /\ remove_from_cart Sample.catalogue (Sample.as_guest GET [] Sample.guest_cart) 99
     = mkOutcome (Redirect "cart_detail" None) Sample.catalogue
                 (Some Sample.guest_cart) [(SUCCESS, "Item removed from cart!")].
Proof. repeat split. Qed.

(** ** The total of a cart *)

Lemma medicine_get_find (meds : list Medicine) (n : Z) :
  NoDup (map med_id meds) ->
  tbl_get (fun m => med_id m =? n) meds
  = match find (fun m => med_id m =? n) meds with
    | Some m => Ok m
    | None => Raise DoesNotExist
    end.
Proof.
  intros Hn. destruct (find _ meds) as [m|] eqn:Hf.
  - apply find_some in Hf as [Hin E]. apply Z.eqb_eq in E. subst n.
    apply tbl_get_of_filter. now apply filter_key_unique.
  - apply tbl_get_none. apply filter_none. intros x Hx.
    exact (find_none _ _ Hf x Hx).
Qed.

Lemma sum_exc_ok (A : Type) (f : A -> Exc Decimal) (g : A -> Z) (l : list A) :
  forall acc,
    (forall x, In x l -> f x = Ok (context_round (g x))) ->
    sum_exc f l acc
    = Ok (fold_left (fun acc a => Decimal_add acc (context_round a)) (map g l) acc).
Proof.
  induction l as [|x l IH]; intros acc Hf; simpl; [reflexivity|].
  rewrite (Hf x (or_introl eq_refl)). simpl.
  now rewrite IH by (intros y Hy; apply Hf; now right).
Qed.

(** Which rows belong to the cart of a user. *)
Lemma in_cart_of_cart db user cart i :
  Cart_get db user = Ok cart ->
  in_cart_of db user i = (ci_cart i =? cart_id cart).
Proof.
  intros Hc. apply tbl_get_Ok in Hc. unfold in_cart_of.
  assert (In cart (filter (fun c => cart_user c =? user_id user) (carts db)))
    as Hin by (rewrite Hc; now left).
  apply filter_In in Hin as [Hin Hu].
  destruct (Z.eqb_spec (ci_cart i) (cart_id cart)) as [E|E].
  - apply existsb_exists. exists cart. split; [assumption|].
    rewrite E, Z.eqb_refl. exact Hu.
  - destruct (existsb _ (carts db)) eqn:Hex; [|reflexivity].
    apply existsb_exists in Hex as (c & Hcin & Hcond).
    apply andb_prop in Hcond as [Hid Hus].
    assert (In c (filter (fun c => cart_user c =? user_id user) (carts db))) as Hf
      by (apply filter_In; auto).
    rewrite Hc in Hf. destruct Hf as [<-|[]].
    apply Z.eqb_eq in Hid. congruence.
Qed.

Lemma in_cart_of_no_cart db user i :
  Cart_get db user = Raise DoesNotExist -> in_cart_of db user i = false.
Proof.
  unfold Cart_get, tbl_get, in_cart_of. intros Hc.
  destruct (filter _ (carts db)) as [|a [|b l]] eqn:Hf; try discriminate.
  destruct (existsb _ (carts db)) eqn:Hex; [|reflexivity].
  apply existsb_exists in Hex as (c & Hcin & Hcond).
  apply andb_prop in Hcond as [_ Hus].
  now rewrite (filter_nil_inv _ _ _ c Hf Hcin) in Hus.
Qed.

(** A user has a cart or none: the lookup does not find two. *)
Lemma Cart_get_cases db user :
  db_ok db ->
  (exists cart, Cart_get db user = Ok cart)
  \/ Cart_get db user = Raise DoesNotExist.
Proof.
  intros Hok. unfold Cart_get.
  destruct (in_dec Z.eq_dec (user_id user) (map cart_user (carts db))) as [Hin|Hin].
  - apply in_map_iff in Hin as (c & E & Hc). left. exists c.
    apply tbl_get_of_filter. rewrite <- E.
    apply filter_key_unique; [apply Hok|assumption].
  - right. apply tbl_get_none. now apply filter_key_absent.
Qed.

Section TotalFacts.
Context `{PyBuiltins}.

Lemma session_lines_shown db cart : forall acc t,
  NoDup (map med_id (medicines db)) ->
  Forall (fun kv => py_int (fst kv) <> None) cart ->
  session_lines db true cart acc t
  = Ok (acc ++ shown_guest_lines db cart,
        fold_left (fun acc a => Decimal_add acc (context_round a))
                  (guest_amounts db cart) t).
Proof.
  induction cart as [|[k l] cart IH]; intros acc t Hn Hk; simpl.
  - now rewrite app_nil_r.
  - inversion Hk as [|? ? Hk1 Hk2]; subst. simpl in Hk1.
    unfold key_medicine, medicine_of. simpl.
    destruct (py_int k) as [n|]; [|now contradiction Hk1].
    rewrite medicine_get_find by exact Hn.
    destruct (find _ (medicines db)) as [m|].
    + rewrite IH by assumption. rewrite <- app_assoc. reflexivity.
    + rewrite IH by assumption. reflexivity.
Qed.

(** C6, as the code has it.  The total [cart_detail] shows is the sum of
    quantity × unit price with the unit price read from the [Medicine] row
    at the time of the call, for the rows of a user's cart and for the
    items of a guest's session cart alike; an item of the session cart
    whose medicine is not in the database adds no line and nothing to the
    total, and the page is rendered all the same.  The sum is the one
    [Decimal] computes: it is Σ quantity × unit price when the amounts stay
    within the 28 digits of the context, and is rounded to 28 digits
    beyond. *)
Theorem cart_detail_total_is_live db request :
  db_ok db ->
  (req_user request = None -> session_keys_ok (req_session request)) ->
  out_response (cart_detail db request)
  = Render "medicines/cart_detail.html"
      (match req_user request with
       | Some user =>
           CartContext
             (map DbLine (filter (in_cart_of db user) (cart_items db)))
             (Decimal_total
                (map (fun i => live_amount db (ci_medicine i) (ci_quantity i))
                     (filter (in_cart_of db user) (cart_items db))))
             false
       | None =>
           CartContext
             (shown_guest_lines db (session_cart (req_session request)))
             (Decimal_total (guest_amounts db (session_cart (req_session request))))
             true
       end)
  /\ match req_user request with
     | Some user =>
         let amounts :=
           map (fun i => live_amount db (ci_medicine i) (ci_quantity i))
               (filter (in_cart_of db user) (cart_items db)) in
         within_precision amounts -> Decimal_total amounts = sum_Z amounts
     | None =>
         let amounts := guest_amounts db (session_cart (req_session request)) in
         within_precision amounts -> Decimal_total amounts = sum_Z amounts
     end.
Proof.
  intros Hok Hkeys. split.
  2: { destruct (req_user request); intros amounts; apply Decimal_total_exact. }
  unfold cart_detail, resolve_cart, is_guest.
  destruct (req_user request) as [user|].
  - destruct (Cart_get_cases db user Hok) as [[cart Hc]|Hc]; rewrite Hc.
    + unfold Cart_get_total_price, Cart_items, tbl_filter.
      rewrite (filter_ext (in_cart_of db user) (fun i => ci_cart i =? cart_id cart))
        by (intros i; now apply in_cart_of_cart).
      rewrite (sum_exc_ok _ _ (fun i => live_amount db (ci_medicine i) (ci_quantity i))).
      * reflexivity.
      * intros i Hi. apply filter_In in Hi as [Hi _].
        unfold CartItem_get_total_price, CartItem_medicine, live_amount, medicine_of.
        rewrite medicine_get_find by apply Hok.
        destruct (find _ (medicines db)) as [m|] eqn:Hf; [reflexivity|].
        exfalso.
        pose proof (ok_cart_item_medicine Hok) as Hfk.
        rewrite Forall_forall in Hfk. specialize (Hfk i Hi).
        apply in_map_iff in Hfk as (m & E & Hm).
        pose proof (find_none _ _ Hf m Hm) as Hno. simpl in Hno.
        apply Z.eqb_neq in Hno. congruence.
    + rewrite (filter_none _ (in_cart_of db user) (cart_items db)); [reflexivity|].
      intros i _. now apply in_cart_of_no_cart.
  - rewrite session_lines_shown; [reflexivity|apply Hok|now apply Hkeys].
Qed.

End TotalFacts.

Lemma cart_detail_total_is_live_witness :
  (db_ok Sample.catalogue
   /\ (req_user (Sample.as_guest GET [] Sample.stale_cart) = None ->
       session_keys_ok (req_session (Sample.as_guest GET [] Sample.stale_cart))))
  /\ out_response (cart_detail Sample.catalogue (Sample.as_guest GET [] Sample.stale_cart))
     = Render "medicines/cart_detail.html"
         (match req_user (Sample.as_guest GET [] Sample.stale_cart) with
          | Some user =>
              CartContext
                (map DbLine (filter (in_cart_of Sample.catalogue user)
                                    (cart_items Sample.catalogue)))
                (Decimal_total
                   (map (fun i => live_amount Sample.catalogue (ci_medicine i)
                                              (ci_quantity i))
                        (filter (in_cart_of Sample.catalogue user)
                                (cart_items Sample.catalogue))))
                false
          | None =>
              CartContext
                (shown_guest_lines Sample.catalogue
                   (session_cart (req_session (Sample.as_guest GET [] Sample.stale_cart))))
                (Decimal_total
                   (guest_amounts Sample.catalogue
                      (session_cart
                         (req_session (Sample.as_guest GET [] Sample.stale_cart)))))
                true
          end)
     /\ match req_user (Sample.as_guest GET [] Sample.stale_cart) with
        | Some user =>
            let amounts :=
              map (fun i => live_amount Sample.catalogue (ci_medicine i) (ci_quantity i))
                  (filter (in_cart_of Sample.catalogue user)
                          (cart_items Sample.catalogue)) in
            within_precision amounts -> Decimal_total amounts = sum_Z amounts
        | None =>
            let amounts :=
              guest_amounts Sample.catalogue
                (session_cart (req_session (Sample.as_guest GET [] Sample.stale_cart))) in
            within_precision amounts -> Decimal_total amounts = sum_Z amounts
        end.
Proof.
  assert (db_ok Sample.catalogue) as Hok by (apply db_check_sound; reflexivity).
  assert (session_keys_ok (Some Sample.stale_cart)) as Hkeys
    by (repeat constructor; discriminate).
  split.
  - split; [exact Hok|]. intros _. exact Hkeys.
  - apply (@cart_detail_total_is_live decimal_builtins Sample.catalogue
             (Sample.as_guest GET [] Sample.stale_cart) Hok).
    intros _. exact Hkeys.
Defined.

(** C6 as stated fails for a guest.  A guest adds medicine A while it costs
    90.00, and the session keeps the string [90.00]; the price then goes to
    100.00; the cart page shows the total 100.00, the price of the
    database, not the 90.00 of the session. *)
Lemma guest_total_is_not_the_snapshot :
  out_session (add_to_cart Sample.catalogue (Sample.as_guest GET [] []) 1)
  = Some [("1", mkSessionLine 1 "Medicine A" "90.00" "")]
  /\ str_decimal (med_price Sample.medicine_a) = "90.00"
  /\ out_response
       (cart_detail Sample.repriced
          (Sample.as_guest GET [] [("1", mkSessionLine 1 "Medicine A" "90.00" "")]))
     = Render "medicines/cart_detail.html"
         (CartContext [GuestLine (Some "1") Sample.medicine_a_dearer 1] 10000 true)
  /\ 10000 <> 1 * med_price Sample.medicine_a.
Proof. repeat split. discriminate. Qed.

(** Beyond 28 digits the total is rounded: 11111111111111111111111111111
    of A at 90.00 come to a total of [10^32] hundredths, where the product
    is 99999999999999999999999999999000. *)
Example cart_detail_total_is_rounded :
  out_response
    (cart_detail Sample.catalogue
       (Sample.as_guest GET []
          [("1", mkSessionLine 11111111111111111111111111111 "Medicine A" "90.00" "")]))
  = Render "medicines/cart_detail.html"
      (CartContext [GuestLine (Some "1") Sample.medicine_a 11111111111111111111111111111]
                   (10 ^ 32) true)
  /\ 11111111111111111111111111111 * med_price Sample.medicine_a
     = 99999999999999999999999999999000.
Proof. split; reflexivity. Qed.

(** An item of the session whose medicine is gone is passed over: the page
    shows the two other lines and their total. *)
Example cart_detail_skips_missing_medicine :
  out_response (cart_detail Sample.catalogue (Sample.as_guest GET [] Sample.stale_cart))
  = Render "medicines/cart_detail.html"
      (CartContext [GuestLine (Some "1") Sample.medicine_a 2;
                    GuestLine (Some "2") Sample.medicine_b 1]
                   23000 true).
Proof. reflexivity. Qed.

(** ** Adding to the cart keeps the database sound *)

Lemma NoDup_snoc (l : list Z) (x : Z) : NoDup l -> ~ In x l -> NoDup (l ++ [x]).
Proof.
  intros Hl Hx. apply NoDup_app; [assumption|repeat constructor; auto|].
  intros a Ha [<-|[]]. now apply Hx.
Qed.

Lemma fresh_key (A : Type) (key : A -> Z) (s : Z) (t : list A) :
  Forall (fun r => key r < s) t -> ~ In s (map key t).
Proof.
  intros Hlt Hin. apply in_map_iff in Hin as (r & E & Hr).
  rewrite Forall_forall in Hlt. specialize (Hlt r Hr). lia.
Qed.

Lemma Forall_lt_snoc (A : Type) (key : A -> Z) (s : Z) (t : list A) (r : A) :
  Forall (fun x => key x < s) t -> key r = s ->
  Forall (fun x => key x < s + 1) (t ++ [r]).
Proof.
  intros Hlt E. apply Forall_app. split.
  - eapply Forall_impl; [|exact Hlt]. simpl. intros; lia.
  - repeat constructor. lia.
Qed.

Lemma db_ok_add_cart db uid :
  db_ok db -> ~ In uid (map cart_user (carts db)) ->
  db_ok (set_carts db (carts db ++ [mkCart (seq_cart db) uid]) (seq_cart db + 1)).
Proof.
  intros Hok Hu. destruct Hok. unfold set_carts. constructor; simpl; try assumption.
  - rewrite map_app. apply NoDup_snoc; [assumption|]. now apply fresh_key.
  - rewrite map_app. now apply NoDup_snoc.
  - now apply Forall_lt_snoc.
  - eapply Forall_impl; [|exact ok_cart_item_cart0]. simpl. intros i Hi.
    rewrite map_app. apply in_or_app. now left.
Qed.

Lemma db_ok_add_cart_item db cid mid q :
  db_ok db ->
  In cid (map cart_id (carts db)) -> In mid (map med_id (medicines db)) ->
  db_ok (set_cart_items db
           (cart_items db ++ [mkCartItem (seq_cart_item db) cid mid q])
           (seq_cart_item db + 1)).
Proof.
  intros Hok Hc Hm. destruct Hok. unfold set_cart_items.
  constructor; simpl; try assumption.
  - rewrite map_app. apply NoDup_snoc; [assumption|]. now apply fresh_key.
  - now apply Forall_lt_snoc.
  - apply Forall_app. split; [assumption|]. now repeat constructor.
  - apply Forall_app. split; [assumption|]. now repeat constructor.
Qed.

Lemma Forall_saved (A : Type) (key : A -> Z) (P : A -> Prop) (t : list A) (r r' : A) :
  NoDup (map key t) -> In r t -> key r' = key r ->
  Forall P t -> P r' -> Forall P (tbl_save key r' t).
Proof.
  intros Hn Hr E Ht Hp. rewrite (tbl_save_present A key t r r' Hn Hr E).
  apply Forall_forall. intros x Hx. apply in_map_iff in Hx as (y & Hy & Hin).
  destruct (key y =? key r); subst; [assumption|].
  rewrite Forall_forall in Ht. now apply Ht.
Qed.

Lemma db_ok_save_cart_item db item item' :
  db_ok db -> In item (cart_items db) ->
  ci_id item' = ci_id item -> ci_cart item' = ci_cart item ->
  ci_medicine item' = ci_medicine item ->
  db_ok (set_cart_items db (tbl_save ci_id item' (cart_items db))
                        (seq_cart_item db)).
Proof.
  intros Hok Hin Eid Ecart Emed.
  pose proof (ok_cart_item_pk Hok) as Hn.
  assert (forall P : CartItem -> Prop,
             Forall P (cart_items db) -> P item ->
             (P item -> P item') ->
             Forall P (tbl_save ci_id item' (cart_items db))) as Hall.
  { intros P Ht Hp Himp.
    apply (Forall_saved CartItem ci_id P (cart_items db) item item'); auto. }
  pose proof Hok as Hok'. destruct Hok'. unfold set_cart_items.
  constructor; simpl; try assumption.
  - now rewrite (tbl_save_keys CartItem ci_id (cart_items db) item item').
  - apply Hall; [assumption| |now rewrite Eid].
    rewrite Forall_forall in ok_cart_item_seq0. now apply ok_cart_item_seq0.
  - apply Hall; [assumption| |now rewrite Ecart].
    rewrite Forall_forall in ok_cart_item_cart0. now apply ok_cart_item_cart0.
  - apply Hall; [assumption| |now rewrite Emed].
    rewrite Forall_forall in ok_cart_item_medicine0. now apply ok_cart_item_medicine0.
Qed.

(** [get_or_create] of the cart of a user: it returns, the database stays
    sound, the cart is the user's one cart, and the rows of the cart are
    the rows the user had. *)
Lemma Cart_get_or_create_ok db user :
  db_ok db ->
  exists cart db1,
    Cart_get_or_create db user = Ok (cart, db1)
    /\ db_ok db1
    /\ Cart_get db1 user = Ok cart
    /\ medicines db1 = medicines db
    /\ cart_items db1 = cart_items db
    /\ seq_cart_item db1 = seq_cart_item db
    /\ (forall i, In i (cart_items db) ->
                  in_cart_of db1 user i = in_cart_of db user i).
Proof.
  intros Hok. unfold Cart_get_or_create.
  destruct (in_dec Z.eq_dec (user_id user) (map cart_user (carts db))) as [Hin|Hin].
  - apply in_map_iff in Hin as (c & E & Hc).
    assert (Cart_get db user = Ok c) as Hget.
    { apply tbl_get_of_filter. rewrite <- E.
      apply filter_key_unique; [apply Hok|assumption]. }
    rewrite Hget. exists c, db. auto 10.
  - assert (filter (fun c => cart_user c =? user_id user) (carts db) = []) as Hf
      by now apply filter_key_absent.
    unfold Cart_get at 1. rewrite (tbl_get_none _ _ _ Hf).
    eexists. eexists. split; [reflexivity|].
    split; [now apply db_ok_add_cart|].
    split.
    { apply tbl_get_of_filter. unfold set_carts. simpl.
      rewrite filter_app, Hf. simpl. now rewrite Z.eqb_refl. }
    repeat split.
    intros i Hi. unfold in_cart_of, set_carts. simpl.
    rewrite existsb_app. simpl.
    assert ((seq_cart db =? ci_cart i) = false) as ->.
    { apply Z.eqb_neq. intros E.
      pose proof (ok_cart_item_cart Hok) as Hfk.
      rewrite Forall_forall in Hfk. specialize (Hfk i Hi).
      apply (fresh_key Cart cart_id (seq_cart db) (carts db) (ok_cart_seq Hok)).
      now rewrite E. }
    simpl. now rewrite orb_false_r.
Qed.

Lemma active_medicine_found db m :
  db_ok db -> In m (medicines db) -> med_is_active m = true ->
  tbl_get_or_404 (fun x => (med_id x =? med_id m) && med_is_active x) (medicines db)
  = Ok m.
Proof.
  intros Hok Hm Ha. unfold tbl_get_or_404.
  rewrite (tbl_get_of_filter _ _ _ m); [reflexivity|].
  rewrite filter_andb.
  rewrite (filter_key_unique Medicine med_id (medicines db) m);
    [|apply Hok|assumption].
  simpl. now rewrite Ha.
Qed.

Section AddFacts.
Context `{PyBuiltins}.

(** The quantities of a user's lines for a medicine, through the cart. *)
Lemma cart_quantities_user db s user mid cart :
  Cart_get db user = Ok cart ->
  cart_quantities db s (Some user) mid
  = map ci_quantity
        (filter (fun i => (ci_cart i =? cart_id cart) && (ci_medicine i =? mid))
                (cart_items db)).
Proof.
  intros Hc. unfold cart_quantities. f_equal. apply filter_ext. intros i.
  rewrite (in_cart_of_cart db user cart i Hc). apply andb_comm.
Qed.

(** One call by a logged-in user. *)
Lemma add_to_cart_user db request user m :
  db_ok db -> req_user request = Some user ->
  In m (medicines db) -> med_is_active m = true ->
  db_ok (out_db (add_to_cart db request (med_id m)))
  /\ medicines (out_db (add_to_cart db request (med_id m))) = medicines db
  /\ (cart_quantities db (req_session request) (Some user) (med_id m) = [] ->
      cart_quantities (out_db (add_to_cart db request (med_id m)))
                      (out_session (add_to_cart db request (med_id m)))
                      (Some user) (med_id m) = [1])
  /\ (forall q,
         cart_quantities db (req_session request) (Some user) (med_id m) = [q] ->
         storable (q + 1) ->
         cart_quantities (out_db (add_to_cart db request (med_id m)))
                         (out_session (add_to_cart db request (med_id m)))
                         (Some user) (med_id m) = [q + 1])
  /\ (forall q,
         cart_quantities db (req_session request) (Some user) (med_id m) = [q] ->
         2 ^ 63 <= q + 1 ->
         cart_quantities (out_db (add_to_cart db request (med_id m)))
                         (out_session (add_to_cart db request (med_id m)))
                         (Some user) (med_id m) = [q]
         /\ out_response (add_to_cart db request (med_id m)) = ServerError).
Proof.
  intros Hok Hu Hm Ha.
  destruct (Cart_get_or_create_ok db user Hok)
    as (cart & db1 & Hgoc & Hok1 & Hc1 & Hmeds & Hitems & Hseq & Hin).
  assert (cart_quantities db (req_session request) (Some user) (med_id m)
          = cart_quantities db1 (req_session request) (Some user) (med_id m))
    as Hsame.
  { unfold cart_quantities. rewrite Hitems. f_equal.
    apply filter_ext_in. intros i Hi. now rewrite (Hin i Hi). }
  rewrite Hsame, (cart_quantities_user db1 _ user (med_id m) cart Hc1).
  clear Hsame.
  assert (In (cart_id cart) (map cart_id (carts db1))) as Hcart.
  { apply in_map. now apply (tbl_get_In _ _ _ _ Hc1). }
  assert (In (med_id m) (map med_id (medicines db1))) as Hmed
    by (rewrite Hmeds; now apply in_map).
  destruct (filter (fun i => (ci_cart i =? cart_id cart)
                             && (ci_medicine i =? med_id m))
                   (cart_items db1)) as [|item [|item2 rest]] eqn:Hf.
  - set (db2 := set_cart_items db1
                  (cart_items db1 ++
                     [mkCartItem (seq_cart_item db1) (cart_id cart) (med_id m) 1])
                  (seq_cart_item db1 + 1)).
    assert (add_to_cart db request (med_id m)
            = mkOutcome (Redirect "cart_detail" None) db2 (req_session request)
                        [(SUCCESS, med_name m +s+ " added to cart!")]) as ->.
    { unfold add_to_cart.
      rewrite (active_medicine_found db m Hok Hm Ha), Hu, Hgoc.
      unfold CartItem_get_or_create, tbl_get. now rewrite Hf. }
    cbn [out_db out_session].
    split; [now apply db_ok_add_cart_item|]. split; [assumption|].
    split; [|split; intros q; discriminate]. intros _.
    rewrite (cart_quantities_user db2 _ user (med_id m) cart Hc1).
    unfold db2, set_cart_items. cbn [cart_items].
    rewrite filter_app, Hf. simpl. now rewrite !Z.eqb_refl.
  - assert (In item (filter (fun i => (ci_cart i =? cart_id cart)
                                        && (ci_medicine i =? med_id m))
                            (cart_items db1))) as Hi by (rewrite Hf; now left).
    apply filter_In in Hi as [Hitem Hcond].
    set (item' := mkCartItem (ci_id item) (ci_cart item) (ci_medicine item)
                             (ci_quantity item + 1)).
    set (db2 := set_cart_items db1 (tbl_save ci_id item' (cart_items db1))
                               (seq_cart_item db1)).
    assert (add_to_cart db request (med_id m)
            = match CartItem_save db1 item' with
              | Raise e => uncaught e db1 request
              | Ok db3 =>
                  mkOutcome (Redirect "cart_detail" None) db3 (req_session request)
                            [(SUCCESS, med_name m +s+ " added to cart!")]
              end) as ->.
    { unfold add_to_cart.
      rewrite (active_medicine_found db m Hok Hm Ha), Hu, Hgoc.
      unfold CartItem_get_or_create, tbl_get. now rewrite Hf. }
    split.
    { destruct (CartItem_save db1 item') as [db3|e] eqn:Es; [|exact Hok1].
      apply CartItem_save_Ok in Es as [-> _]. cbn [out_db].
      now apply (db_ok_save_cart_item db1 item). }
    split.
    { destruct (CartItem_save db1 item') as [db3|e] eqn:Es; [|exact Hmeds].
      apply CartItem_save_Ok in Es as [-> _]. exact Hmeds. }
    split; [discriminate|]. split.
    + intros q [= <-] Hq.
      rewrite (CartItem_save_storable db1 item') by exact Hq.
      cbn [out_db out_session]. fold db2.
      rewrite (cart_quantities_user db2 _ user (med_id m) cart Hc1).
      unfold db2, set_cart_items. cbn [cart_items].
      rewrite (filter_saved CartItem ci_id _ (cart_items db1) item item');
        [reflexivity|apply Hok1|exact Hf|reflexivity|exact Hcond].
    + intros q [= <-] Hq. unfold CartItem_save. cbn [item' ci_quantity].
      rewrite PositiveIntegerField_overflow by exact Hq.
      cbn [bind uncaught out_db out_session out_response].
      split; [|reflexivity].
      rewrite (cart_quantities_user db1 _ user (med_id m) cart Hc1).
      now rewrite Hf.
  - assert (add_to_cart db request (med_id m)
            = uncaught MultipleObjectsReturned db1 request) as ->.
    { unfold add_to_cart.
      rewrite (active_medicine_found db m Hok Hm Ha), Hu, Hgoc.
      unfold CartItem_get_or_create, tbl_get. now rewrite Hf. }
    cbn [out_db out_session uncaught].
    split; [assumption|]. split; [assumption|]. split; [discriminate|].
    split; intros q; discriminate.
Qed.






End AddFacts.



(** Three calls for A and one for B, by a user and by a guest. *)
Example add_to_cart_examples :
  cart_items (fst (add_to_cart_times 3 Sample.catalogue
                     (Sample.as_user Sample.alice GET []) 1))
  = [mkCartItem 1 1 1 3]
  /\ snd (add_to_cart_times 1
            (fst (add_to_cart_times 3 Sample.catalogue (Sample.as_guest GET [] []) 1))
            (Sample.as_guest GET []
               (session_cart
                  (snd (add_to_cart_times 3 Sample.catalogue
                          (Sample.as_guest GET [] []) 1))))
            2)
     = Some [("1", mkSessionLine 3 "Medicine A" "90.00" "");
             ("2", mkSessionLine 1 "Medicine B" "50.00" "")].
Proof. repeat split. Qed.

(** At the largest quantity of the column the call of the user ends in
    the server error and the row keeps its quantity; one call less and the
    row reaches that quantity. *)
Example add_to_cart_at_the_limit :
  out_response (add_to_cart Edge.full_shop (Sample.as_user Sample.alice GET []) 1)
  = ServerError
  /\ cart_items (out_db (add_to_cart Edge.full_shop
                           (Sample.as_user Sample.alice GET []) 1))
     = cart_items Edge.full_shop
  /\ map ci_quantity
         (cart_items
            (out_db (add_to_cart
                       (out_db (update_cart_item Sample.shop
                                  (Sample.set_quantity (Some Sample.alice)
                                                       "9223372036854775806") 1))
                       (Sample.as_user Sample.alice GET []) 1)))
     = [2 ^ 63 - 1; 1].
Proof. repeat split. Qed.

(** ** Site settings *)

Module SiteSettingsFacts.
Import SiteSettings.

(** The guard of [save]: a new object without a key is refused while the
    table has a row. *)
Lemma save_refuses_keyless self t :
  not_pk self = true -> rows t <> [] -> save self t = Raise ValueError.
Proof.
  intros Hpk Hrows. unfold save, objects_exists. rewrite Hpk.
  destruct (rows t); [now contradiction Hrows|reflexivity].
Qed.

(** [get_settings] returns the object of key 1 whenever it returns. *)
Lemma get_settings_key t self t' :
  get_settings t = Ok (self, t') -> pk self = Some 1.
Proof.
  unfold get_settings.
  destruct (tbl_get _ (rows t)) as [r|[]] eqn:Hg; try discriminate.
  - intros E. inversion E; subst. simpl. apply tbl_get_In in Hg as [_ Hg].
    apply Z.eqb_eq in Hg. now rewrite Hg.
  - unfold save, Model_save. simpl.
    destruct (existsb _ (rows t)); intros E; inversion E; subst; reflexivity.
Qed.

(** When the table has its row of key 1, [get_settings] changes nothing. *)
Lemma get_settings_present t r :
  tbl_get (fun x => row_pk x =? 1) (rows t) = Ok r ->
  get_settings t = Ok (mkInstance (Some (row_pk r)) (row_fields r), t).
Proof. unfold get_settings. now intros ->. Qed.

(** From a table with no row, or with the one row of key 1, [get_settings]
    leaves one row. *)
Lemma get_settings_keeps_singleton t :
  rows t = [] \/ (exists f, rows t = [mkRow 1 f]) ->
  exists self t',
    get_settings t = Ok (self, t') /\ exists f, rows t' = [mkRow 1 f].
Proof.
  destruct t as [rs sq]. simpl.
  intros [->|[f ->]]; eexists; eexists; (split; [reflexivity|]); simpl.
  - now exists blank.
  - now exists f.
Qed.

(** C10.  The single-record invariant is not kept.  From the empty table:
    [get_settings] makes the row of key 1; [objects.all().delete()] empties
    the table; [save] of a new object is accepted, the table being empty,
    and the object takes the next key, 2; the table has one row, as it
    should.  [get_settings] now finds no row of key 1 and makes one: its
    [save] is not refused, the guard [not self.pk] being false for an
    object that has its key, and the table has two rows. *)
Theorem get_settings_makes_second_record :
  exists s1 t1 s2 t2 s3 t3,
    get_settings empty = Ok (s1, t1)
    /\ map row_pk (rows t1) = [1]
    /\ save (mkInstance None blank) (objects_all_delete t1) = Ok (s2, t2)
    /\ map row_pk (rows t2) = [2]
    /\ get_settings t2 = Ok (s3, t3)
    /\ pk s3 = Some 1
    /\ map row_pk (rows t3) = [2; 1]
    /\ List.length (rows t3) = 2%nat.
Proof.
  do 6 eexists. repeat split.
Qed.

(** The same slip lets [save] add a second row for an object that was given
    a key of its own. *)
Example save_with_key_makes_second_record :
  save (mkInstance (Some 2) blank) (mkTable [mkRow 1 blank] 2)
  = Ok (mkInstance (Some 2) blank, mkTable [mkRow 1 blank; mkRow 2 blank] 3).
Proof. reflexivity. Qed.

End SiteSettingsFacts.

(** ** The handlers keep the database sound and the session readable *)

Lemma NoDup_map_filter (A : Type) (key : A -> Z) (p : A -> bool) (l : list A) :
  NoDup (map key l) -> NoDup (map key (filter p l)).
Proof.
  induction l as [|x l IH]; simpl; intros Hn; [constructor|].
  inversion Hn as [|? ? Hx Hn']; subst.
  destruct (p x); simpl; [|now apply IH].
  constructor; [|now apply IH].
  intros Hin. apply Hx. apply in_map_iff in Hin as (y & E & Hy).
  apply filter_In in Hy as [Hy _]. rewrite <- E. now apply in_map.
Qed.

Lemma Forall_filter_keep (A : Type) (P : A -> Prop) (p : A -> bool) (l : list A) :
  Forall P l -> Forall P (filter p l).
Proof.
  rewrite !Forall_forall. intros Hl x Hx. apply filter_In in Hx as [Hx _]. auto.
Qed.

Lemma db_ok_filter_cart_items db (p : CartItem -> bool) :
  db_ok db ->
  db_ok (set_cart_items db (filter p (cart_items db)) (seq_cart_item db)).
Proof.
  intros Hok. destruct Hok. unfold set_cart_items.
  constructor; simpl; try assumption;
    auto using NoDup_map_filter, Forall_filter_keep.
Qed.

Lemma db_ok_add_order db user total address phone now :
  db_ok db ->
  db_ok (set_orders db
           (orders db ++ [mkOrder (seq_order db) user total "PENDING" address
                                  phone now now])
           (seq_order db + 1)).
Proof.
  intros Hok. destruct Hok. unfold set_orders. constructor; simpl; try assumption.
  - rewrite map_app. apply NoDup_snoc; [assumption|]. now apply fresh_key.
  - now apply Forall_lt_snoc.
Qed.

Lemma db_ok_add_order_item db order medicine quantity price db' :
  db_ok db -> OrderItem_create db order medicine quantity price = Ok db' ->
  db_ok db'.
Proof.
  intros Hok Hc. apply OrderItem_create_Ok in Hc as [-> _].
  destruct Hok. unfold set_order_items.
  constructor; simpl; try assumption.
  - rewrite map_app. apply NoDup_snoc; [assumption|]. now apply fresh_key.
  - now apply Forall_lt_snoc.
Qed.

Lemma db_ok_save_order db order order' :
  db_ok db -> In order (orders db) -> order_id order' = order_id order ->
  db_ok (set_orders db (tbl_save order_id order' (orders db)) (seq_order db)).
Proof.
  intros Hok Hin E. pose proof (ok_order_pk Hok) as Hn.
  pose proof Hok as Hok'. destruct Hok'. unfold set_orders.
  constructor; simpl; try assumption.
  - now rewrite (tbl_save_keys Order order_id (orders db) order order').
  - apply (Forall_saved Order order_id _ (orders db) order order'); auto.
    rewrite E. rewrite Forall_forall in ok_order_seq0. now apply ok_order_seq0.
Qed.

Section Invariants.
Context `{PyBuiltins}.

Lemma order_items_from_cart_ok order items : forall db,
  db_ok db -> db_ok (fst (order_items_from_cart db order items)).
Proof.
  induction items as [|i items IH]; intros db Hok; simpl; [assumption|].
  destruct (CartItem_medicine db i) as [m|e]; simpl; [|assumption].
  destruct (OrderItem_create db order m _ _) as [db'|e] eqn:Hc; simpl; [|assumption].
  apply IH. now apply (db_ok_add_order_item db order m _ _ db' Hok Hc).
Qed.

Lemma order_items_from_session_ok order items : forall db,
  db_ok db -> db_ok (fst (order_items_from_session db order items)).
Proof.
  induction items as [|[k l] items IH]; intros db Hok; simpl; [assumption|].
  destruct (py_int k) as [n|]; simpl; [|assumption].
  destruct (tbl_get _ (medicines db)) as [m|[]]; simpl; auto.
  destruct (OrderItem_create db order m _ _) as [db'|e] eqn:Hc; simpl; [|assumption].
  apply IH. now apply (db_ok_add_order_item db order m _ _ db' Hok Hc).
Qed.

Lemma add_to_cart_db_ok db request medicine_id :
  db_ok db -> db_ok (out_db (add_to_cart db request medicine_id)).
Proof.
  intros Hok. unfold add_to_cart.
  destruct (tbl_get_or_404 _ (medicines db)) as [m|e] eqn:Hm; [|assumption].
  apply tbl_get_or_404_Ok, tbl_get_In in Hm as [Hin Hcond].
  apply andb_prop in Hcond as [Hid Hact]. apply Z.eqb_eq in Hid. subst medicine_id.
  destruct (req_user request) as [user|] eqn:Hu; [|assumption].
  pose proof (add_to_cart_user db request user m Hok Hu Hin Hact) as [Hok' _].
  unfold add_to_cart in Hok'.
  rewrite (active_medicine_found db m Hok Hin Hact), Hu in Hok'. exact Hok'.
Qed.

Lemma update_cart_item_db_ok db request item_id :
  db_ok db -> db_ok (out_db (update_cart_item db request item_id)).
Proof.
  intros Hok. unfold update_cart_item.
  destruct (req_method request); [assumption|].
  destruct (posted_quantity request) as [q|e]; [|assumption].
  destruct (req_user request) as [user|].
  - destruct (CartItem_of_user_or_404 db user item_id) as [item|e] eqn:Hi; [|assumption].
    apply tbl_get_or_404_Ok, tbl_get_In in Hi as [Hin _].
    destruct (q >? 0); simpl.
    + destruct (CartItem_save db _) as [db'|e] eqn:Es; [|assumption].
      apply CartItem_save_Ok in Es as [-> _]. cbn [out_db].
      now apply (db_ok_save_cart_item db item).
    + now apply db_ok_filter_cart_items.
  - destruct (dict_mem _ _); [destruct (q >? 0)|]; assumption.
Qed.

Lemma remove_from_cart_db_ok db request item_id :
  db_ok db -> db_ok (out_db (remove_from_cart db request item_id)).
Proof.
  intros Hok. unfold remove_from_cart.
  destruct (req_user request) as [user|].
  - destruct (CartItem_of_user_or_404 db user item_id) as [item|e]; [|assumption].
    simpl. now apply db_ok_filter_cart_items.
  - destruct (dict_mem _ _); assumption.
Qed.

Lemma checkout_db_ok db request :
  db_ok db -> db_ok (out_db (checkout db request)).
Proof.
  intros Hok. unfold checkout.
  destruct (resolve_cart db request false) as [[[|line lines] total]|e];
    try assumption.
  destruct (req_method request); [assumption|].
  destruct (req_user request) as [user|].
  - destruct (Order_create _ _ _ _ _ _) as [[order db1]|e] eqn:Ho; [|assumption].
    apply Order_create_Ok in Ho as (a & p & _ & _ & Eo & Edb).
    assert (db_ok db1) as Hok1 by (rewrite Edb, Eo; now apply db_ok_add_order).
    destruct (Cart_get db1 user) as [cart|e]; [|assumption].
    pose proof (order_items_from_cart_ok order (Cart_items db1 cart) db1 Hok1)
      as Hok2.
    destruct (order_items_from_cart db1 order (Cart_items db1 cart)) as [db2 [e|]];
      simpl in *; [assumption|].
    now apply db_ok_filter_cart_items.
  - destruct (Order_create _ _ _ _ _ _) as [[order db1]|e] eqn:Ho; [|assumption].
    apply Order_create_Ok in Ho as (a & p & _ & _ & Eo & Edb).
    assert (db_ok db1) as Hok1 by (rewrite Edb, Eo; now apply db_ok_add_order).
    pose proof (order_items_from_session_ok order
                  (session_cart (req_session request)) db1 Hok1) as Hok2.
    destruct (order_items_from_session db1 order _) as [db2 [e|]];
      simpl in *; assumption.
Qed.

Lemma admin_order_detail_db_ok db request id :
  db_ok db -> db_ok (out_db (admin_order_detail id db request)).
Proof.
  intros Hok. unfold admin_order_detail, staff_member_required.
  destruct (req_user request) as [user|]; [|assumption].
  destruct (user_is_active user && user_is_staff user); [|assumption].
  destruct (tbl_get_or_404 _ (orders db)) as [order|e] eqn:Ho; [|assumption].
  apply tbl_get_or_404_Ok, tbl_get_In in Ho as [Hin _].
  destruct (req_method request); [assumption|].
  destruct (dict_get "status" (req_POST request)) as [s|]; [|assumption].
  destruct (dict_mem s STATUS_CHOICES); [|assumption].
  simpl. now apply (db_ok_save_order db order).
Qed.

(** The keys of the session are written by [add_to_cart] as [str] of an
    [int], so [int] reads every one of them. *)
Lemma add_to_cart_keys_ok db request medicine_id :
  session_keys_ok (req_session request) ->
  session_keys_ok (out_session (add_to_cart db request medicine_id)).
Proof.
  intros Hs. unfold add_to_cart.
  destruct (tbl_get_or_404 _ (medicines db)) as [m|e]; [|assumption].
  destruct (req_user request) as [user|].
  - destruct (Cart_get_or_create db user) as [[cart db1]|e]; [|assumption].
    destruct (CartItem_get_or_create db1 cart m) as [[[item created] db2]|e];
      [|assumption].
    destruct created; [assumption|].
    now destruct (CartItem_save db2 _).
  - unfold session_keys_ok in *. simpl.
    destruct (dict_mem _ _).
    + unfold dict_update. apply Forall_forall. intros kv Hkv.
      apply in_map_iff in Hkv as (kv0 & E & Hin).
      rewrite Forall_forall in Hs. specialize (Hs kv0 Hin).
      destruct (String.eqb (fst kv0) (py_str medicine_id)); subst; exact Hs.
    + unfold dict_insert. apply Forall_app. split; [assumption|].
      repeat constructor. simpl. rewrite py_int_str. discriminate.
Qed.

Lemma update_cart_item_keys_ok db request item_id :
  session_keys_ok (req_session request) ->
  session_keys_ok (out_session (update_cart_item db request item_id)).
Proof.
  intros Hs. unfold update_cart_item.
  destruct (req_method request); [assumption|].
  destruct (posted_quantity request) as [q|e]; [|assumption].
  destruct (req_user request) as [user|].
  - destruct (CartItem_of_user_or_404 db user item_id) as [item|e]; [|assumption].
    destruct (q >? 0); [|assumption].
    now destruct (CartItem_save db _).
  - unfold session_keys_ok in *.
    destruct (dict_mem _ _); [|assumption].
    destruct (q >? 0); simpl.
    + unfold dict_update. apply Forall_forall. intros kv Hkv.
      apply in_map_iff in Hkv as (kv0 & E & Hin).
      rewrite Forall_forall in Hs. specialize (Hs kv0 Hin).
      destruct (String.eqb (fst kv0) (py_str item_id)); subst; exact Hs.
    + now apply Forall_filter_keep.
Qed.

Lemma remove_from_cart_keys_ok db request item_id :
  session_keys_ok (req_session request) ->
  session_keys_ok (out_session (remove_from_cart db request item_id)).
Proof.
  intros Hs. unfold remove_from_cart.
  destruct (req_user request) as [user|].
  - now destruct (CartItem_of_user_or_404 db user item_id).
  - unfold session_keys_ok in *.
    destruct (dict_mem _ _); [|assumption].
    simpl. now apply Forall_filter_keep.
Qed.

End Invariants.

(** * Properties of the rest of the application *)

(** ** Order pages *)

Lemma filter_snoc_fresh (A : Type) (key : A -> Z) (t : list A) (r : A) (s : Z) :
  Forall (fun x => key x < s) t -> key r = s ->
  filter (fun x => key x =? s) (t ++ [r]) = [r].
Proof.
  intros Hlt E. rewrite filter_app. simpl. rewrite E, Z.eqb_refl.
  rewrite (filter_key_absent A key t s); [reflexivity|]. now apply fresh_key.
Qed.

Lemma order_by_created_desc_newest (l : list Order) (o : Order) :
  Forall (fun x => order_created_at x < order_created_at o) l ->
  order_by_created_desc (l ++ [o]) = o :: order_by_created_desc l.
Proof.
  induction l as [|x l IH]; intros Hl; [reflexivity|].
  inversion Hl as [|? ? Hx Hl']; subst.
  change (order_by_created_desc ((x :: l) ++ [o]))
    with (insert_newest_first x (order_by_created_desc (l ++ [o]))).
  rewrite (IH Hl'). simpl.
  destruct (Z.leb_spec (order_created_at o) (order_created_at x)); [lia|reflexivity].
Qed.

Section OrderPages.
Context `{PyBuiltins}.

(** The rows of [OrderItem] are written without touching [Order]. *)
Lemma order_items_from_cart_orders order items : forall db,
  orders (fst (order_items_from_cart db order items)) = orders db.
Proof.
  induction items as [|i items IH]; intros db; simpl; [reflexivity|].
  destruct (CartItem_medicine db i) as [m|e]; simpl; [|reflexivity].
  destruct (OrderItem_create db order m _ _) as [db'|e] eqn:E; [|reflexivity].
  apply OrderItem_create_Ok in E as [-> _]. now rewrite IH.
Qed.

Lemma order_items_from_session_orders order items : forall db,
  orders (fst (order_items_from_session db order items)) = orders db.
Proof.
  induction items as [|[k l] items IH]; intros db; simpl; [reflexivity|].
  destruct (py_int k) as [n|]; simpl; [|reflexivity].
  destruct (tbl_get _ (medicines db)) as [m|[]]; simpl; try reflexivity.
  - destruct (OrderItem_create db order m _ _) as [db'|e] eqn:E; [|reflexivity].
    apply OrderItem_create_Ok in E as [-> _]. now rewrite IH.
  - apply IH.
Qed.

(** The row a POST to [checkout] adds to [Order], and what the request is
    answered with when the quantities of the lines can be stored. *)
Lemma checkout_outcome db request lines total address phone :
  req_method request = POST ->
  resolve_cart db request false = Ok (lines, total) ->
  lines <> [] ->
  dict_get "shipping_address" (req_POST request) = Some address ->
  dict_get "phone_number" (req_POST request) = Some phone ->
  let order :=
    mkOrder (seq_order db) (option_map user_id (req_user request)) total "PENDING"
            (checkout_address request address) phone
            (req_now request) (req_now request) in
  orders (out_db (checkout db request)) = orders db ++ [order]
  /\ (Forall (fun line => storable (line_quantity line)) lines ->
      out_response (checkout db request)
      = Redirect "order_success" (Some (order_id order))).
Proof.
  intros Hpost Hres Hne Haddr Hphone order. subst order.
  unfold checkout, checkout_address. rewrite Hres.
  destruct lines as [|line lines']; [now contradiction Hne|].
  rewrite Hpost, Haddr, Hphone.
  destruct (req_user request) as [user|] eqn:Hu.
  - destruct (resolve_cart_user _ _ _ _ _ _ Hu Hres Hne)
      as (cart & parts & Hc & Hl & Hp & Ht).
    simpl Order_create. cbv beta iota.
    set (order := mkOrder (seq_order db) (Some (user_id user)) total "PENDING"
                          address phone (req_now request) (req_now request)).
    set (db1 := set_orders db (orders db ++ [order]) (seq_order db + 1)).
    assert (Cart_get db1 user = Ok cart) as -> by exact Hc.
    change (Cart_items db1 cart) with (Cart_items db cart).
    split.
    + pose proof (order_items_from_cart_orders order (Cart_items db cart) db1) as E.
      destruct (order_items_from_cart db1 order _) as [db2 [e|]]; exact E.
    + intros Hq. pose proof (all_parts_storable _ _ _ Hp Hq) as Hqp.
      rewrite (order_items_from_cart_spec db order (Cart_items db cart) parts db1);
        [reflexivity|reflexivity|now rewrite <- Hl|exact Hqp].
  - destruct (resolve_cart_guest _ _ _ _ _ Hu Hres) as (parts & Hp & Ht & Hloop).
    simpl Order_create. cbv beta iota.
    set (order := mkOrder (seq_order db) None total "PENDING" _
                          phone (req_now request) (req_now request)).
    set (db1 := set_orders db (orders db ++ [order]) (seq_order db + 1)).
    split.
    + pose proof (order_items_from_session_orders order
                    (session_cart (req_session request)) db1) as E.
      destruct (order_items_from_session db1 order _) as [db2 [e|]]; exact E.
    + intros Hq. pose proof (all_parts_storable _ _ _ Hp Hq) as Hqp.
      now rewrite (Hloop db1 order) by (reflexivity || exact Hqp).
Qed.

(** X1.  The page [checkout] redirects to shows the order just placed.
    After a checkout whose lines have quantities the [OrderItem] column
    holds, the order of the redirect is in the table, with the total of the
    cart and the phone number of the form; [order_success] with its
    identifier renders it, whoever asks for the page, when the total has
    the ten digits of the [total_amount] column, and ends in the server
    error when it has more. *)
Theorem order_success_shows_placed_order db request lines total address phone viewer :
  db_ok db ->
  req_method request = POST ->
  resolve_cart db request false = Ok (lines, total) ->
  lines <> [] ->
  Forall (fun line => storable (line_quantity line)) lines ->
  dict_get "shipping_address" (req_POST request) = Some address ->
  dict_get "phone_number" (req_POST request) = Some phone ->
  exists order,
    out_response (checkout db request) = Redirect "order_success" (Some (order_id order))
    /\ In order (orders (out_db (checkout db request)))
    /\ (fits_decimal total = true ->
        reply (order_success (out_db (checkout db request)) viewer (order_id order))
        = Page "medicines/order_success.html" order)
    /\ (fits_decimal total = false ->
        reply (order_success (out_db (checkout db request)) viewer (order_id order))
        = Crash)
    /\ order_total_amount order = total
    /\ order_phone_number order = phone
    /\ order_status order = "PENDING".
Proof.
  intros Hok Hpost Hres Hne Hq Haddr Hphone.
  destruct (checkout_outcome db request lines total address phone
              Hpost Hres Hne Haddr Hphone) as [Ho Hr].
  eexists. split; [exact (Hr Hq)|].
  split; [rewrite Ho; apply in_or_app; right; now left|].
  assert (tbl_get_or_404 (fun o => order_id o =? seq_order db)
                         (orders (out_db (checkout db request)))
          = Ok (mkOrder (seq_order db) (option_map user_id (req_user request)) total
                        "PENDING" (checkout_address request address) phone
                        (req_now request) (req_now request))) as Hget.
  { unfold tbl_get_or_404. rewrite Ho.
    erewrite tbl_get_of_filter; [reflexivity|].
    apply (filter_snoc_fresh Order order_id); [apply Hok|reflexivity]. }
  split; [|split; [|repeat split]].
  - intros Hfit. unfold order_success. cbn [order_id]. rewrite Hget.
    cbn [order_total_amount]. now rewrite Hfit.
  - intros Hfit. unfold order_success. cbn [order_id]. rewrite Hget.
    cbn [order_total_amount]. now rewrite Hfit.
Qed.



(** X4.  The order a user has just placed heads the user's order history,
    every earlier order of the table being older than the request: the
    quantities of the lines are of those the [OrderItem] column holds, and
    the totals of the orders, the new one and those of the table, have the
    ten digits of the [total_amount] column, so that the rows can be read. *)
Theorem order_history_starts_with_placed_order
    db request user lines total address phone :
  req_user request = Some user ->
  Forall (fun o => order_created_at o < req_now request) (orders db) ->
  Forall (fun o => fits_decimal (order_total_amount o) = true) (orders db) ->
  req_method request = POST ->
  resolve_cart db request false = Ok (lines, total) ->
  lines <> [] ->
  Forall (fun line => storable (line_quantity line)) lines ->
  fits_decimal total = true ->
  dict_get "shipping_address" (req_POST request) = Some address ->
  dict_get "phone_number" (req_POST request) = Some phone ->
  exists order earlier,
    out_response (checkout db request) = Redirect "order_success" (Some (order_id order))
    /\ reply (order_history (out_db (checkout db request)) request)
       = Page "medicines/order_history.html" (order :: earlier)
    /\ reply (order_history db request) = Page "medicines/order_history.html" earlier.
Proof.
  intros Hu Hold Hwide Hpost Hres Hne Hq Hfit Haddr Hphone.
  destruct (checkout_outcome db request lines total address phone
              Hpost Hres Hne Haddr Hphone) as [Ho Hr].
  eexists. eexists. split; [exact (Hr Hq)|].
  unfold order_history, login_required. rewrite Hu. cbn [reply].
  split; [|reflexivity].
  rewrite Ho. unfold tbl_filter. rewrite filter_app. simpl.
  rewrite Hu. simpl. unfold order_of_user at 2. simpl. rewrite Z.eqb_refl.
  rewrite order_by_created_desc_newest; [reflexivity|].
  apply Forall_filter_keep. exact Hold.
Qed.

End OrderPages.

Lemma order_success_shows_placed_order_witness :
  (db_ok Sample.shop
   /\ req_method Sample.alice_checkout = POST
   /\ resolve_cart Sample.shop Sample.alice_checkout false = Ok (Sample.alice_lines,
       23000)
   /\ Sample.alice_lines <> []
   /\ Forall (fun line : CartLine => storable (line_quantity line)) Sample.alice_lines
   /\ dict_get "shipping_address" (req_POST Sample.alice_checkout) = Some
       "12 High Street"
   /\ dict_get "phone_number" (req_POST Sample.alice_checkout) = Some "5550100")
  /\ (exists order : Order,
       out_response (checkout Sample.shop Sample.alice_checkout) =
       Redirect "order_success" (Some (order_id order)) /\
       In order (orders (out_db (checkout Sample.shop Sample.alice_checkout))) /\
       (fits_decimal 23000 = true ->
        reply
          (order_success (out_db (checkout Sample.shop Sample.alice_checkout))
             SiteSample.visitor (order_id order)) =
        Page "medicines/order_success.html" order) /\
       (fits_decimal 23000 = false ->
        reply
          (order_success (out_db (checkout Sample.shop Sample.alice_checkout))
             SiteSample.visitor (order_id order)) =
        Crash) /\
       order_total_amount order = 23000 /\
       order_phone_number order = "5550100" /\ order_status order = "PENDING").
Proof.
  split.
  - split; [apply db_check_sound; reflexivity|]. split; [reflexivity|]. split;
    [reflexivity|]. split; [discriminate|]. split; [apply Forall_forall; intros x Hx;
    simpl in Hx; intuition (subst; first [reflexivity | unfold storable; simpl;
    lia])|]. split; [reflexivity|]. reflexivity.
  - apply (@order_success_shows_placed_order decimal_builtins Sample.shop
      Sample.alice_checkout Sample.alice_lines 23000 "12 High Street" "5550100"
      SiteSample.visitor).
    + apply db_check_sound; reflexivity.
    + reflexivity.
    + reflexivity.
    + discriminate.
    + apply Forall_forall; intros x Hx; simpl in Hx; intuition (subst; first [reflexivity | unfold storable; simpl; lia]).
    + reflexivity.
    + reflexivity.
Defined.

(** An order of 2^40 times 90.00 is placed, and its success page ends in
    the server error: the total does not have the width of the column. *)
Example order_success_fails_on_wide_total :
  out_response (checkout Sample.catalogue Edge.wide_checkout)
  = Redirect "order_success" (Some 1)
  /\ map order_total_amount
         (orders (out_db (checkout Sample.catalogue Edge.wide_checkout)))
     = [2 ^ 40 * 9000]
  /\ fits_decimal (2 ^ 40 * 9000) = false
  /\ reply (order_success (out_db (checkout Sample.catalogue Edge.wide_checkout))
                          SiteSample.visitor 1)
     = Crash.
Proof. repeat split. Qed.


Lemma order_history_starts_with_placed_order_witness :
  (req_user Sample.alice_checkout = Some Sample.alice
   /\ Forall (fun o : Order => order_created_at o < req_now Sample.alice_checkout)
       (orders SiteSample.store)
   /\ Forall (fun o : Order => fits_decimal (order_total_amount o) = true) (orders
       SiteSample.store)
   /\ req_method Sample.alice_checkout = POST
   /\ resolve_cart SiteSample.store Sample.alice_checkout false = Ok
       (Sample.alice_lines, 23000)
   /\ Sample.alice_lines <> []
   /\ Forall (fun line : CartLine => storable (line_quantity line)) Sample.alice_lines
   /\ fits_decimal 23000 = true
   /\ dict_get "shipping_address" (req_POST Sample.alice_checkout) = Some
       "12 High Street"
   /\ dict_get "phone_number" (req_POST Sample.alice_checkout) = Some "5550100")
  /\ (exists (order : Order) (earlier : list Order),
       out_response (checkout SiteSample.store Sample.alice_checkout) =
       Redirect "order_success" (Some (order_id order)) /\
       reply
         (order_history (out_db (checkout SiteSample.store Sample.alice_checkout))
            Sample.alice_checkout) =
       Page "medicines/order_history.html" (order :: earlier) /\
       reply (order_history SiteSample.store Sample.alice_checkout) =
       Page "medicines/order_history.html" earlier).
Proof.
  split.
  - split; [reflexivity|]. split; [apply Forall_forall; intros x Hx; simpl in Hx;
    intuition (subst; first [reflexivity | unfold storable; simpl; lia])|]. split;
    [apply Forall_forall; intros x Hx; simpl in Hx; intuition (subst; first
    [reflexivity | unfold storable; simpl; lia])|]. split; [reflexivity|]. split;
    [reflexivity|]. split; [discriminate|]. split; [apply Forall_forall; intros x Hx;
    simpl in Hx; intuition (subst; first [reflexivity | unfold storable; simpl;
    lia])|]. split; [reflexivity|]. split; [reflexivity|]. reflexivity.
  - apply (@order_history_starts_with_placed_order decimal_builtins SiteSample.store
      Sample.alice_checkout Sample.alice Sample.alice_lines 23000 "12 High Street"
      "5550100").
    + reflexivity.
    + apply Forall_forall; intros x Hx; simpl in Hx; intuition (subst; first [reflexivity | unfold storable; simpl; lia]).
    + apply Forall_forall; intros x Hx; simpl in Hx; intuition (subst; first [reflexivity | unfold storable; simpl; lia]).
    + reflexivity.
    + reflexivity.
    + discriminate.
    + apply Forall_forall; intros x Hx; simpl in Hx; intuition (subst; first [reflexivity | unfold storable; simpl; lia]).
    + reflexivity.
    + reflexivity.
    + reflexivity.
Defined.

(** ** Tracking, and what the cart handlers leave alone *)

Lemma py_str_inj `{PyBuiltins} (a b : Z) : py_str a = py_str b -> a = b.
Proof.
  intros E. assert (py_int (py_str a) = py_int (py_str b)) as E' by now rewrite E.
  rewrite !py_int_str in E'. congruence.
Qed.

Section TrackingFacts.
Context `{PyBuiltins}.

(** X5.  The order a checkout has placed is found by [track_order] with
    the phone number of the checkout form, when the number stands the
    [strip()] of the tracking form: with the number alone the order is among
    the orders listed, with the number and the identifier of the success
    page the order is the one shown.  The quantities of the lines are of
    those the [OrderItem] column holds, and the totals of the orders, the
    new one and those of the table, have the ten digits of the
    [total_amount] column, so that the rows can be read. *)
Theorem placed_order_can_be_tracked db request lines total address phone tracker :
  db_ok db ->
  Forall (fun o => fits_decimal (order_total_amount o) = true) (orders db) ->
  req_method request = POST ->
  resolve_cart db request false = Ok (lines, total) ->
  lines <> [] ->
  Forall (fun line => storable (line_quantity line)) lines ->
  fits_decimal total = true ->
  dict_get "shipping_address" (req_POST request) = Some address ->
  dict_get "phone_number" (req_POST request) = Some phone ->
  req_method tracker = POST ->
  py_strip (dict_get_or "phone_number" "" (req_POST tracker)) = phone ->
  truthy phone = true ->
  exists order,
    out_response (checkout db request) = Redirect "order_success" (Some (order_id order))
    /\ (truthy (py_strip (dict_get_or "order_id" "" (req_POST tracker))) = false ->
        exists found,
          out_response (track_order (out_db (checkout db request)) tracker)
          = Render "medicines/track_order.html"
              (TrackContext (Some found) None None (Some "phone"))
          /\ In order found)
    /\ (truthy (py_strip (dict_get_or "order_id" "" (req_POST tracker))) = true ->
        py_int (py_strip (dict_get_or "order_id" "" (req_POST tracker)))
        = Some (order_id order) ->
        out_response (track_order (out_db (checkout db request)) tracker)
        = Render "medicines/track_order.html"
            (TrackContext None (Some order) None (Some "specific"))).
Proof.
  intros Hok Hwide Hpost Hres Hne Hq Hfit Haddr Hphone Htpost Htphone Htruthy.
  destruct (checkout_outcome db request lines total address phone
              Hpost Hres Hne Haddr Hphone) as [Ho Hr].
  eexists. split; [exact (Hr Hq)|].
  unfold track_order. rewrite Htpost, Htphone, Htruthy, Ho.
  split.
  - intros Hid. rewrite Hid. cbn [andb negb].
    set (found := order_by_created_desc _).
    assert (In (mkOrder (seq_order db) (option_map user_id (req_user request)) total
                        "PENDING" (checkout_address request address) phone
                        (req_now request) (req_now request)) found) as Hin.
    { eapply Permutation_in; [symmetry; apply order_by_created_desc_perm|].
      apply filter_In. split; [apply in_or_app; right; now left|].
      simpl. apply String.eqb_refl. }
    destruct found as [|o found']; [destruct Hin|].
    eexists. split; [reflexivity|exact Hin].
  - intros Hid Hint. rewrite Hid, Hint. cbn [andb negb order_id].
    rewrite (tbl_get_of_filter _ _ _
               (mkOrder (seq_order db) (option_map user_id (req_user request)) total
                        "PENDING" (checkout_address request address) phone
                        (req_now request) (req_now request))); [reflexivity|].
    rewrite filter_andb.
    erewrite (filter_snoc_fresh Order order_id); [|apply Hok|reflexivity].
    simpl. now rewrite String.eqb_refl.
Qed.

(** X6.  Without a phone number [track_order] shows no order: on a GET,
    and on a POST whose phone number is empty once the white space around
    it is removed, the page has neither a list nor an order, whatever
    identifier is sent. *)
Theorem track_order_without_phone_shows_nothing db request :
  req_method request = GET
  \/ truthy (py_strip (dict_get_or "phone_number" "" (req_POST request))) = false ->
  exists error,
    out_response (track_order db request)
    = Render "medicines/track_order.html" (TrackContext None None error None)
    /\ (req_method request = POST -> error <> None).
Proof.
  unfold track_order. intros [Hget|Hphone].
  - rewrite Hget. eexists. split; [reflexivity|discriminate].
  - destruct (req_method request); [eexists; split; [reflexivity|discriminate]|].
    rewrite Hphone. cbn [andb negb].
    destruct (truthy (py_strip (dict_get_or "order_id" "" (req_POST request))));
      cbn [andb negb]; eexists; (split; [reflexivity|discriminate]).
Qed.

End TrackingFacts.

Lemma placed_order_can_be_tracked_witness :
  (db_ok Sample.shop
   /\ Forall (fun o : Order => fits_decimal (order_total_amount o) = true) (orders
       Sample.shop)
   /\ req_method Sample.alice_checkout = POST
   /\ resolve_cart Sample.shop Sample.alice_checkout false = Ok (Sample.alice_lines,
       23000)
   /\ Sample.alice_lines <> []
   /\ Forall (fun line : CartLine => storable (line_quantity line)) Sample.alice_lines
   /\ fits_decimal 23000 = true
   /\ dict_get "shipping_address" (req_POST Sample.alice_checkout) = Some
       "12 High Street"
   /\ dict_get "phone_number" (req_POST Sample.alice_checkout) = Some "5550100"
   /\ req_method (Sample.track "" " 5550100 ") = POST
   /\ py_strip (dict_get_or "phone_number" "" (req_POST (Sample.track "" " 5550100 ")))
       = "5550100"
   /\ truthy "5550100" = true)
  /\ (exists order : Order,
       out_response (checkout Sample.shop Sample.alice_checkout) =
       Redirect "order_success" (Some (order_id order)) /\
       (truthy
          (py_strip
             (dict_get_or "order_id" "" (req_POST (Sample.track "" " 5550100 ")))) =
        false ->
        exists found : list Order,
          out_response
            (track_order (out_db (checkout Sample.shop Sample.alice_checkout))
               (Sample.track "" " 5550100 ")) =
          Render "medicines/track_order.html"
            (TrackContext (Some found) None None (Some "phone")) /\
          In order found) /\
       (truthy
          (py_strip
             (dict_get_or "order_id" "" (req_POST (Sample.track "" " 5550100 ")))) =
        true ->
        py_int
          (py_strip
             (dict_get_or "order_id" "" (req_POST (Sample.track "" " 5550100 ")))) =
        Some (order_id order) ->
        out_response
          (track_order (out_db (checkout Sample.shop Sample.alice_checkout))
             (Sample.track "" " 5550100 ")) =
        Render "medicines/track_order.html"
          (TrackContext None (Some order) None (Some "specific")))).
Proof.
  split.
  - split; [apply db_check_sound; reflexivity|]. split; [apply Forall_forall; intros x
    Hx; simpl in Hx; intuition (subst; first [reflexivity | unfold storable; simpl;
    lia])|]. split; [reflexivity|]. split; [reflexivity|]. split; [discriminate|].
    split; [apply Forall_forall; intros x Hx; simpl in Hx; intuition (subst; first
    [reflexivity | unfold storable; simpl; lia])|]. split; [reflexivity|]. split;
    [reflexivity|]. split; [reflexivity|]. split; [reflexivity|]. split;
    [reflexivity|]. reflexivity.
  - apply (@placed_order_can_be_tracked decimal_builtins Sample.shop
      Sample.alice_checkout Sample.alice_lines 23000 "12 High Street" "5550100"
      (Sample.track "" " 5550100 ")).
    + apply db_check_sound; reflexivity.
    + apply Forall_forall; intros x Hx; simpl in Hx; intuition (subst; first [reflexivity | unfold storable; simpl; lia]).
    + reflexivity.
    + reflexivity.
    + discriminate.
    + apply Forall_forall; intros x Hx; simpl in Hx; intuition (subst; first [reflexivity | unfold storable; simpl; lia]).
    + reflexivity.
    + reflexivity.
    + reflexivity.
    + reflexivity.
    + reflexivity.
    + reflexivity.
Defined.

Lemma track_order_without_phone_shows_nothing_witness :
  (req_method (Sample.track "8" "   ") = GET \/ truthy (py_strip (dict_get_or
      "phone_number" "" (req_POST (Sample.track "8" "   ")))) = false)
  /\ (exists error : option string,
       out_response (track_order Sample.archive (Sample.track "8" "   ")) =
       Render "medicines/track_order.html" (TrackContext None None error None) /\
       (req_method (Sample.track "8" "   ") = POST -> error <> None)).
Proof.
  split.
  - right; reflexivity.
  - apply (@track_order_without_phone_shows_nothing decimal_builtins Sample.archive
      (Sample.track "8" "   ")).
    + right; reflexivity.
Defined.

(** ** What the cart handlers leave alone *)

Section OtherRows.
Variable Row : Type.
Variable key : Row -> Z.

(** Saving a row that a query does not select, before or after, leaves the
    result of the query as it was. *)
Lemma filter_save_other (p : Row -> bool) t r r' :
  NoDup (map key t) -> In r t -> key r' = key r ->
  p r = false -> p r' = false ->
  filter p (tbl_save key r' t) = filter p t.
Proof.
  intros Hn Hr E Hpr Hpr'.
  rewrite (tbl_save_present Row key t r r' Hn Hr E).
  rewrite filter_map_commute.
  - rewrite <- (map_id (filter p t)) at 2. apply map_ext_in.
    intros x Hx. apply filter_In in Hx as [Hx Hpx].
    destruct (Z.eqb_spec (key x) (key r)) as [Ek|Ek]; [|reflexivity].
    rewrite (key_determines_row Row key t x r Hn Hx Hr Ek) in Hpx. congruence.
  - intros x Hx. destruct (Z.eqb_spec (key x) (key r)) as [Ek|Ek]; [|reflexivity].
    rewrite (key_determines_row Row key t x r Hn Hx Hr Ek). congruence.
Qed.

Lemma filter_delete_other (p : Row -> bool) t r :
  (forall x, p x = true -> key x <> key r) ->
  filter p (tbl_delete key r t) = filter p t.
Proof.
  intros Hp. unfold tbl_delete. induction t as [|x t IH]; simpl; [reflexivity|].
  destruct (Z.eqb_spec (key x) (key r)) as [Ek|Ek]; simpl.
  - destruct (p x) eqn:Px; [|exact IH]. now apply Hp in Px.
  - now rewrite IH.
Qed.

End OtherRows.

Lemma dict_update_filter_other (V : Type) (k k' : string) (f : V -> V) (d : Dict V) :
  k' <> k ->
  filter (fun kv => String.eqb (fst kv) k') (dict_update k f d)
  = filter (fun kv => String.eqb (fst kv) k') d.
Proof.
  intros Hk. unfold dict_update. induction d as [|kv d IH]; simpl; [reflexivity|].
  destruct (String.eqb_spec (fst kv) k) as [E|E]; simpl.
  - destruct (String.eqb_spec (fst kv) k'); [congruence|exact IH].
  - now rewrite IH.
Qed.

Lemma dict_del_filter_other (V : Type) (k k' : string) (d : Dict V) :
  k' <> k ->
  filter (fun kv => String.eqb (fst kv) k') (dict_del k d)
  = filter (fun kv => String.eqb (fst kv) k') d.
Proof.
  intros Hk. unfold dict_del. induction d as [|kv d IH]; simpl; [reflexivity|].
  destruct (String.eqb_spec (fst kv) k) as [E|E]; simpl.
  - destruct (String.eqb_spec (fst kv) k'); [congruence|exact IH].
  - now rewrite IH.
Qed.

Section FrameFacts.
Context `{PyBuiltins}.

Lemma line_of_user_id db user item_id item :
  CartItem_of_user_or_404 db user item_id = Ok item ->
  In item (cart_items db) /\ ci_id item = item_id.
Proof.
  intros Hi. apply tbl_get_or_404_Ok, tbl_get_In in Hi as [Hin Hc].
  apply andb_prop in Hc as [Hid _]. apply Z.eqb_eq in Hid. auto.
Qed.

(** X7.  [update_cart_item] and [remove_from_cart] touch the line they
    are called for and no other: every other line of the actor's cart, a
    row of the database cart or an item of the session cart, has the
    quantity it had, whatever the request. *)
Theorem other_lines_keep_their_quantity db request item_id other :
  db_ok db -> other <> item_id ->
  line_quantities (out_db (update_cart_item db request item_id))
                  (out_session (update_cart_item db request item_id))
                  (req_user request) other
  = line_quantities db (req_session request) (req_user request) other
  /\ line_quantities (out_db (remove_from_cart db request item_id))
                     (out_session (remove_from_cart db request item_id))
                     (req_user request) other
     = line_quantities db (req_session request) (req_user request) other.
Proof.
  intros Hok Hne.
  assert (py_str other <> py_str item_id) as Hkey
    by (intros E; now apply py_str_inj in E).
  split.
  - unfold update_cart_item.
    destruct (req_method request); [reflexivity|].
    destruct (posted_quantity request) as [q|e]; [|reflexivity].
    unfold line_quantities.
    destruct (req_user request) as [user|].
    + destruct (CartItem_of_user_or_404 db user item_id) as [item|e] eqn:Hi;
        [|reflexivity].
      apply line_of_user_id in Hi as [Hin Hid].
      destruct (q >? 0);
        [destruct (CartItem_save db _) as [db'|e] eqn:Es;
         [apply CartItem_save_Ok in Es as [-> _]|reflexivity]|];
        cbn [out_db set_cart_items cart_items]; f_equal.
      * apply (filter_save_other CartItem ci_id _ (cart_items db) item);
          [apply Hok|assumption|reflexivity| |].
        -- rewrite Hid. apply andb_false_intro1. now apply Z.eqb_neq.
        -- cbn [ci_id]. rewrite Hid. apply andb_false_intro1. now apply Z.eqb_neq.
      * apply (filter_delete_other CartItem ci_id).
        intros x Hx. apply andb_prop in Hx as [Hx _]. apply Z.eqb_eq in Hx.
        congruence.
    + destruct (dict_mem _ _); [|reflexivity].
      destruct (q >? 0); cbn [out_session session_cart]; f_equal.
      * now apply dict_update_filter_other.
      * now apply dict_del_filter_other.
  - unfold remove_from_cart, line_quantities.
    destruct (req_user request) as [user|].
    + destruct (CartItem_of_user_or_404 db user item_id) as [item|e] eqn:Hi;
        [|reflexivity].
      apply line_of_user_id in Hi as [Hin Hid].
      cbn [out_db set_cart_items cart_items]. f_equal.
      apply (filter_delete_other CartItem ci_id).
      intros x Hx. apply andb_prop in Hx as [Hx _]. apply Z.eqb_eq in Hx.
      congruence.
    + destruct (dict_mem _ _); [|reflexivity].
      cbn [out_session session_cart]. f_equal.
      now apply dict_del_filter_other.
Qed.

(** X8.  [add_to_cart] for a medicine leaves the lines of every other
    medicine as they were, in the database cart of a user and in the
    session cart of a guest, whatever the request. *)
Theorem add_to_cart_keeps_other_medicines db request medicine_id other :
  db_ok db -> other <> medicine_id ->
  cart_quantities (out_db (add_to_cart db request medicine_id))
                  (out_session (add_to_cart db request medicine_id))
                  (req_user request) other
  = cart_quantities db (req_session request) (req_user request) other.
Proof.
  intros Hok Hne. unfold add_to_cart.
  destruct (tbl_get_or_404 _ (medicines db)) as [m|e] eqn:Hm; [|reflexivity].
  apply tbl_get_or_404_Ok, tbl_get_In in Hm as [Hmin Hmc].
  apply andb_prop in Hmc as [Hmid _]. apply Z.eqb_eq in Hmid.
  destruct (req_user request) as [user|] eqn:Hu.
  - destruct (Cart_get_or_create_ok db user Hok)
      as (cart & db1 & -> & Hok1 & Hc1 & Hmeds & Hitems & Hseq & Hin).
    assert (cart_quantities db (req_session request) (Some user) other
            = cart_quantities db1 (req_session request) (Some user) other) as ->.
    { unfold cart_quantities. rewrite Hitems. f_equal.
      apply filter_ext_in. intros i Hi. now rewrite (Hin i Hi). }
    unfold CartItem_get_or_create, tbl_get.
    destruct (filter _ (cart_items db1)) as [|item [|item2 rest]] eqn:Hf;
      [| |reflexivity].
    + cbn [out_db out_session]. unfold cart_quantities.
      cbn [set_cart_items cart_items]. rewrite filter_app. simpl.
      rewrite Hmid.
      destruct (Z.eqb_spec medicine_id other) as [E|E]; [congruence|].
      simpl. now rewrite app_nil_r.
    + assert (In item (filter (fun i => (ci_cart i =? cart_id cart)
                                        && (ci_medicine i =? med_id m))
                              (cart_items db1))) as Hi by (rewrite Hf; now left).
      apply filter_In in Hi as [Hitem Hcond].
      apply andb_prop in Hcond as [_ Hmed]. apply Z.eqb_eq in Hmed.
      cbv beta iota zeta.
      destruct (CartItem_save db1 _) as [db3|e] eqn:Es;
        [apply CartItem_save_Ok in Es as [-> _]|reflexivity].
      cbn [out_db out_session]. unfold cart_quantities.
      cbn [set_cart_items cart_items]. f_equal.
      apply (filter_save_other CartItem ci_id _ (cart_items db1) item);
        [apply Hok1|assumption|reflexivity| |].
      * apply andb_false_intro1. apply Z.eqb_neq. congruence.
      * cbn [ci_medicine]. apply andb_false_intro1. apply Z.eqb_neq. congruence.
  - cbn [out_db out_session]. unfold cart_quantities. cbn [session_cart]. f_equal.
    assert (py_str other <> py_str medicine_id) as Hkey
      by (intros E; now apply py_str_inj in E).
    destruct (dict_mem _ _).
    + now apply dict_update_filter_other.
    + unfold dict_insert. rewrite filter_app. simpl.
      destruct (String.eqb_spec (py_str medicine_id) (py_str other)); [congruence|].
      now rewrite app_nil_r.
Qed.

(** X9.  Adding a medicine to a cart that has no line for it and then
    removing that line gives back the cart: the rows of [CartItem] are the
    rows there were, the session's cart is the cart there was. *)
Theorem add_then_remove_gives_back_cart db request m :
  db_ok db -> In m (medicines db) -> med_is_active m = true ->
  cart_quantities db (req_session request) (req_user request) (med_id m) = [] ->
  let added := add_to_cart db request (med_id m) in
  let item_id :=
    match req_user request with
    | Some _ => seq_cart_item db
    | None => med_id m
    end in
  let removed :=
    remove_from_cart (out_db added) (with_session request (out_session added))
                     item_id in
  cart_items (out_db removed) = cart_items db
  /\ session_cart (out_session removed) = session_cart (req_session request)
  /\ out_response removed = Redirect "cart_detail" None.
Proof.
  intros Hok Hm Ha Habsent added item_id removed.
  subst added item_id removed.
  destruct (req_user request) as [user|] eqn:Hu.
  - destruct (Cart_get_or_create_ok db user Hok)
      as (cart & db1 & Hgoc & Hok1 & Hc1 & Hmeds & Hitems & Hseq & Hin).
    assert (cart_quantities db (req_session request) (Some user) (med_id m)
            = cart_quantities db1 (req_session request) (Some user) (med_id m))
      as Hsame.
    { unfold cart_quantities. rewrite Hitems. f_equal.
      apply filter_ext_in. intros i Hi. now rewrite (Hin i Hi). }
    rewrite Hsame, (cart_quantities_user db1 _ user (med_id m) cart Hc1) in Habsent.
    apply map_eq_nil in Habsent.
    set (new := mkCartItem (seq_cart_item db1) (cart_id cart) (med_id m) 1).
    set (db2 := set_cart_items db1 (cart_items db1 ++ [new]) (seq_cart_item db1 + 1)).
    assert (add_to_cart db request (med_id m)
            = mkOutcome (Redirect "cart_detail" None) db2 (req_session request)
                        [(SUCCESS, med_name m +s+ " added to cart!")]) as ->.
    { unfold add_to_cart.
      rewrite (active_medicine_found db m Hok Hm Ha), Hu, Hgoc.
      unfold CartItem_get_or_create, tbl_get. now rewrite Habsent. }
    cbn [out_db out_session].
    unfold remove_from_cart. cbn [req_user with_session]. rewrite Hu.
    assert (CartItem_of_user_or_404 db2 user (seq_cart_item db) = Ok new) as ->.
    { unfold CartItem_of_user_or_404, tbl_get_or_404.
      rewrite (tbl_get_of_filter _ _ _ new); [reflexivity|].
      rewrite filter_andb. unfold db2. cbn [set_cart_items cart_items].
      rewrite <- Hseq.
      rewrite (filter_snoc_fresh CartItem ci_id (cart_items db1) new
                 (seq_cart_item db1) (ok_cart_item_seq Hok1) eq_refl).
      assert (in_cart_of db1 user new = true) as Hnew.
      { rewrite (in_cart_of_cart db1 user cart new Hc1). simpl. apply Z.eqb_refl. }
      unfold in_cart_of in Hnew. simpl in Hnew. simpl. now rewrite Hnew. }
    cbn [out_db out_session out_response set_cart_items cart_items req_session].
    split; [|split; reflexivity].
    unfold db2. cbn [set_cart_items cart_items]. unfold tbl_delete.
    rewrite filter_app. simpl. rewrite Z.eqb_refl. simpl.
    rewrite app_nil_r, <- Hitems.
    rewrite <- (filter_ext_in (fun _ => true)).
    + clear. induction (cart_items db1) as [|x l IH]; simpl; [reflexivity|].
      now rewrite IH.
    + intros i Hi. symmetry. apply negb_true_iff, Z.eqb_neq.
      pose proof (ok_cart_item_seq Hok1) as Hlt.
      rewrite Forall_forall in Hlt. specialize (Hlt i Hi). lia.
  - unfold cart_quantities in Habsent. apply map_eq_nil in Habsent.
    unfold add_to_cart.
    rewrite (active_medicine_found db m Hok Hm Ha), Hu.
    rewrite dict_mem_filter, Habsent.
    cbn [out_db out_session].
    unfold remove_from_cart. cbn [req_user with_session req_session]. rewrite Hu.
    cbn [session_cart].
    assert (dict_mem (py_str (med_id m))
              (dict_insert (py_str (med_id m))
                 (mkSessionLine 1 (med_name m) (str_decimal (med_price m))
                    (match med_image m with Some url => url | None => "" end))
                 (session_cart (req_session request))) = true) as ->.
    { unfold dict_mem, dict_insert. rewrite existsb_app. simpl.
      rewrite String.eqb_refl. apply orb_true_r. }
    cbn [out_db out_session out_response session_cart].
    split; [reflexivity|]. split; [|reflexivity].
    unfold dict_del, dict_insert. rewrite filter_app. simpl.
    rewrite String.eqb_refl. simpl. rewrite app_nil_r.
    rewrite <- (filter_ext_in (fun _ => true)).
    + clear. induction (session_cart (req_session request)) as [|x l IH];
        simpl; [reflexivity|]. now rewrite IH.
    + intros kv Hkv. symmetry. apply negb_true_iff.
      exact (filter_nil_inv _ _ _ kv Habsent Hkv).
Qed.

End FrameFacts.

Lemma other_lines_keep_their_quantity_witness :
  (db_ok Sample.shop
   /\ 2 <> 1)
  /\ (line_quantities
       (out_db
          (update_cart_item Sample.shop (Sample.set_quantity (Some Sample.alice) "5") 1))
       (out_session
          (update_cart_item Sample.shop (Sample.set_quantity (Some Sample.alice) "5") 1))
       (req_user (Sample.set_quantity (Some Sample.alice) "5")) 2 =
     line_quantities Sample.shop
       (req_session (Sample.set_quantity (Some Sample.alice) "5"))
       (req_user (Sample.set_quantity (Some Sample.alice) "5")) 2 /\
     line_quantities
       (out_db
          (remove_from_cart Sample.shop (Sample.set_quantity (Some Sample.alice) "5") 1))
       (out_session
          (remove_from_cart Sample.shop (Sample.set_quantity (Some Sample.alice) "5") 1))
       (req_user (Sample.set_quantity (Some Sample.alice) "5")) 2 =
     line_quantities Sample.shop
       (req_session (Sample.set_quantity (Some Sample.alice) "5"))
       (req_user (Sample.set_quantity (Some Sample.alice) "5")) 2).
Proof.
  split.
  - split; [apply db_check_sound; reflexivity|]. discriminate.
  - apply (@other_lines_keep_their_quantity decimal_builtins Sample.shop
      (Sample.set_quantity (Some Sample.alice) "5") 1 2).
    + apply db_check_sound; reflexivity.
    + discriminate.
Defined.

Lemma add_to_cart_keeps_other_medicines_witness :
  (db_ok Sample.shop
   /\ 2 <> 1)
  /\ (cart_quantities (out_db (add_to_cart Sample.shop SiteSample.alice_get 1))
       (out_session (add_to_cart Sample.shop SiteSample.alice_get 1))
       (req_user SiteSample.alice_get) 2 =
     cart_quantities Sample.shop (req_session SiteSample.alice_get)
       (req_user SiteSample.alice_get) 2).
Proof.
  split.
  - split; [apply db_check_sound; reflexivity|]. discriminate.
  - apply (@add_to_cart_keeps_other_medicines decimal_builtins Sample.shop
      SiteSample.alice_get 1 2).
    + apply db_check_sound; reflexivity.
    + discriminate.
Defined.

Lemma add_then_remove_gives_back_cart_witness :
  (db_ok Sample.catalogue
   /\ In Sample.medicine_a (medicines Sample.catalogue)
   /\ med_is_active Sample.medicine_a = true
   /\ cart_quantities Sample.catalogue (req_session SiteSample.alice_get) (req_user
       SiteSample.alice_get) (med_id Sample.medicine_a) = [])
  /\ (let added :=
       add_to_cart Sample.catalogue SiteSample.alice_get (med_id Sample.medicine_a) in
     let item_id :=
       match req_user SiteSample.alice_get with
       | Some _ => seq_cart_item Sample.catalogue
       | None => med_id Sample.medicine_a
       end in
     let removed :=
       remove_from_cart (out_db added)
         (with_session SiteSample.alice_get (out_session added)) item_id
       in
     cart_items (out_db removed) = cart_items Sample.catalogue /\
     session_cart (out_session removed) = session_cart (req_session SiteSample.alice_get) /\
     out_response removed = Redirect "cart_detail" None).
Proof.
  split.
  - split; [apply db_check_sound; reflexivity|]. split; [simpl; tauto|]. split;
    [reflexivity|]. reflexivity.
  - apply (@add_then_remove_gives_back_cart decimal_builtins Sample.catalogue
      SiteSample.alice_get Sample.medicine_a).
    + apply db_check_sound; reflexivity.
    + simpl; tauto.
    + reflexivity.
    + reflexivity.
Defined.

(** ** A guest's requests, one after the other *)

Section GuestRunFacts.
Context `{PyBuiltins}.

Lemma checkout_keys_ok db request :
  session_keys_ok (req_session request) ->
  session_keys_ok (out_session (checkout db request)).
Proof.
  intros Hs. unfold checkout.
  destruct (resolve_cart db request false) as [[[|line lines] total]|e];
    try assumption.
  destruct (req_method request); [assumption|].
  destruct (req_user request) as [user|].
  - destruct (Order_create _ _ _ _ _ _) as [[order db1]|e]; [|assumption].
    destruct (Cart_get db1 user) as [cart|e]; [|assumption].
    now destruct (order_items_from_cart db1 order _) as [db2 [e|]].
  - destruct (Order_create _ _ _ _ _ _) as [[order db1]|e]; [|assumption].
    destruct (order_items_from_session db1 order _) as [db2 [e|]];
      [assumption|constructor].
Qed.

Lemma guest_step_keeps now st a :
  db_ok (fst st) -> session_keys_ok (snd st) ->
  db_ok (fst (guest_step now st a)) /\ session_keys_ok (snd (guest_step now st a)).
Proof.
  intros Hok Hs. unfold guest_step. destruct a; cbn [fst snd]; split.
  - now apply add_to_cart_db_ok.
  - now apply add_to_cart_keys_ok.
  - now apply update_cart_item_db_ok.
  - now apply update_cart_item_keys_ok.
  - now apply remove_from_cart_db_ok.
  - now apply remove_from_cart_keys_ok.
  - now apply checkout_db_ok.
  - now apply checkout_keys_ok.
Qed.

Lemma guest_run_keeps now actions : forall st,
  db_ok (fst st) -> session_keys_ok (snd st) ->
  db_ok (fst (guest_run now st actions))
  /\ session_keys_ok (snd (guest_run now st actions)).
Proof.
  unfold guest_run. induction actions as [|a actions IH]; intros st Hok Hs; simpl.
  - now split.
  - destruct (guest_step_keeps now st a Hok Hs) as [Hok' Hs']. now apply IH.
Qed.

Lemma guest_amounts_sum db cart :
  sum_Z (guest_amounts db cart) = sum_Z (map (guest_amount db) cart).
Proof.
  unfold guest_amounts, guest_amount.
  induction cart as [|kv cart IH]; simpl; [reflexivity|].
  destruct (key_medicine db (fst kv)) as [m|]; simpl; rewrite IH; [|reflexivity].
  now rewrite (Z.mul_comm (med_price m)).
Qed.

(** X10.  The cart page of a guest never fails.  Whatever a guest with a
    new session does, adding, updating, removing and checking out in any
    order and with any form data, a checkout that ends in the server error
    among them, the keys of the session's cart stay readable and
    [cart_detail] renders the page, with the lines whose medicine is in the
    database and their total at the prices of the database: the sum of
    price × quantity as [Decimal] computes it, which is Σ quantity × price
    when the amounts stay within the 28 digits of the context. *)
Theorem guest_cart_page_always_renders db now actions :
  db_ok db ->
  let st := guest_run now (db, None) actions in
  db_ok (fst st)
  /\ session_keys_ok (snd st)
  /\ out_response (cart_detail (fst st) (guest_request GET [] (snd st) now))
     = Render "medicines/cart_detail.html"
         (CartContext (shown_guest_lines (fst st) (session_cart (snd st)))
                      (Decimal_total (guest_amounts (fst st) (session_cart (snd st))))
                      true)
  /\ (within_precision (guest_amounts (fst st) (session_cart (snd st))) ->
      Decimal_total (guest_amounts (fst st) (session_cart (snd st)))
      = sum_Z (map (guest_amount (fst st)) (session_cart (snd st)))).
Proof.
  intros Hok st.
  destruct (guest_run_keeps now actions (db, None) Hok (Forall_nil _)) as [Hok' Hs'].
  fold st in Hok', Hs'. split; [assumption|]. split; [assumption|]. split.
  - unfold cart_detail, resolve_cart, guest_request. cbn [req_user req_session].
    rewrite session_lines_shown; [reflexivity|apply Hok'|exact Hs'].
  - intros Hw. rewrite <- guest_amounts_sum. now apply Decimal_total_exact.
Qed.

End GuestRunFacts.

Lemma guest_cart_page_always_renders_witness :
  (db_ok Sample.catalogue)
  /\ (let st :=
       guest_run 1000 (Sample.catalogue, None)
         [DoAdd 1; DoAdd 2; DoUpdate 1 [("quantity", "3")]; 
          DoRemove 2; DoCheckout Sample.contact; DoAdd 2]
       in
     db_ok (fst st) /\
     session_keys_ok (snd st) /\
     out_response (cart_detail (fst st) (guest_request GET [] (snd st) 1000)) =
     Render "medicines/cart_detail.html"
       (CartContext (shown_guest_lines (fst st) (session_cart (snd st)))
          (Decimal_total (guest_amounts (fst st) (session_cart (snd st)))) true) /\
     (within_precision (guest_amounts (fst st) (session_cart (snd st))) ->
      Decimal_total (guest_amounts (fst st) (session_cart (snd st))) =
      sum_Z (map (guest_amount (fst st)) (session_cart (snd st))))).
Proof.
  split.
  - apply db_check_sound; reflexivity.
  - apply (@guest_cart_page_always_renders decimal_builtins Sample.catalogue 1000 [DoAdd
      1; DoAdd 2; DoUpdate 1 [("quantity", "3")]; DoRemove 2; DoCheckout Sample.contact;
      DoAdd 2]).
    + apply db_check_sound; reflexivity.
Defined.

(** ** A phone number with white space in front *)

Lemma lstrip_head (l : list ascii) c r : lstrip l = c :: r -> is_space c = false.
Proof.
  induction l as [|x l IH]; simpl; [discriminate|].
  destruct (is_space x) eqn:Hx; [exact IH|]. now intros [= <- _].
Qed.

Lemma lstrip_suffix (l : list ascii) : exists sp, l = sp ++ lstrip l.
Proof.
  induction l as [|x l [sp IH]]; simpl; [now exists []|].
  destruct (is_space x).
  - exists (x :: sp). simpl. now f_equal.
  - now exists [].
Qed.

Lemma ascii_strip_head (s : string) c rest :
  ascii_strip s = String c rest -> is_space c = false.
Proof.
  unfold ascii_strip.
  set (l := lstrip (list_ascii_of_string s)).
  destruct (lstrip_suffix (rev l)) as [sp Hsp].
  destruct (rev (lstrip (rev l))) as [|c' r'] eqn:Hr; simpl; [discriminate|].
  intros [= <- _].
  assert (l = c' :: r' ++ rev sp) as Hl.
  { rewrite <- (rev_involutive l), Hsp, rev_app_distr, Hr. reflexivity. }
  exact (lstrip_head _ _ _ Hl).
Qed.

(** X11.  [checkout] stores the phone number as it was typed, [track_order]
    looks up the number with the white space around it removed.  So an
    order placed with a phone number that begins with white space is shown
    by no tracking request: it is in no list of orders and it is never the
    order of the page.  The order is written whatever the quantities of the
    lines are; the redirect to its success page is the answer when the
    [OrderItem] column holds them. *)
Theorem order_with_padded_phone_is_never_tracked
    db request lines total address c rest tracker :
  is_space c = true ->
  req_method request = POST ->
  @resolve_cart decimal_builtins db request false = Ok (lines, total) ->
  lines <> [] ->
  dict_get "shipping_address" (req_POST request) = Some address ->
  dict_get "phone_number" (req_POST request) = Some (String c rest) ->
  exists order,
    (Forall (fun line => storable (line_quantity line)) lines ->
     out_response (@checkout decimal_builtins db request)
     = Redirect "order_success" (Some (order_id order)))
    /\ order_phone_number order = String c rest
    /\ In order (orders (out_db (@checkout decimal_builtins db request)))
    /\ forall found shown error search_type,
         out_response (@track_order decimal_builtins
                         (out_db (@checkout decimal_builtins db request)) tracker)
         = Render "medicines/track_order.html"
             (TrackContext found shown error search_type) ->
         shown <> Some order
         /\ (forall l, found = Some l -> ~ In order l).
Proof.
  intros Hc Hpost Hres Hne Haddr Hphone.
  destruct (@checkout_outcome decimal_builtins db request lines total address
              (String c rest) Hpost Hres Hne Haddr Hphone) as [Ho Hr].
  eexists. split; [exact Hr|]. split; [reflexivity|].
  split; [rewrite Ho; apply in_or_app; right; now left|].
  set (order := mkOrder _ _ _ _ _ _ _ _) in *.
  set (db' := out_db (checkout db request)) in *.
  assert (forall s, String.eqb (order_phone_number order) (ascii_strip s) = false)
    as Hnever.
  { intros s. apply String.eqb_neq. intros E. simpl in E.
    symmetry in E. apply ascii_strip_head in E. congruence. }
  intros found shown error search_type.
  unfold track_order. cbn [py_strip py_int decimal_builtins].
  destruct (req_method tracker); [intros [= <- <- _ _]; split; [|intros l]; discriminate|].
  set (phone := ascii_strip (dict_get_or "phone_number" "" (req_POST tracker))).
  set (id := ascii_strip (dict_get_or "order_id" "" (req_POST tracker))).
  destruct (truthy phone && negb (truthy id)).
  { intros [= <- <- _ _]. split; [discriminate|].
    intros l [= <-] Hin.
    apply (Permutation_in _ (order_by_created_desc_perm _)) in Hin.
    apply filter_In in Hin as [_ Hin]. unfold phone in Hin.
    now rewrite Hnever in Hin. }
  destruct (truthy id && truthy phone).
  { destruct (decimal_int id) as [n|];
      [|intros [= <- <- _ _]; split; [|intros l]; discriminate].
    destruct (tbl_get _ (orders db')) as [o|[]] eqn:Hg; simpl;
      try discriminate;
      try (intros [= <- <- _ _]; split; [|intros l]; discriminate).
    intros [= <- <- _ _]. split; [|intros l; discriminate].
    intros [= ->]. apply tbl_get_In in Hg as [_ Hg].
    apply andb_prop in Hg as [_ Hg]. unfold phone in Hg.
    now rewrite Hnever in Hg. }
  destruct (truthy id && negb (truthy phone));
    intros [= <- <- _ _]; split; try discriminate; intros l; discriminate.
Qed.

Lemma order_with_padded_phone_is_never_tracked_witness :
  (is_space " "%char = true
   /\ req_method SiteSample.padded_checkout = POST
   /\ resolve_cart Sample.catalogue SiteSample.padded_checkout false = Ok
       (SiteSample.guest_lines, 23000)
   /\ SiteSample.guest_lines <> []
   /\ dict_get "shipping_address" (req_POST SiteSample.padded_checkout) = Some
       "12 High Street"
   /\ dict_get "phone_number" (req_POST SiteSample.padded_checkout) = Some " 5550100")
  /\ (exists order : Order,
       (Forall (fun line : CartLine => storable (line_quantity line))
          SiteSample.guest_lines ->
        out_response (checkout Sample.catalogue SiteSample.padded_checkout) =
        Redirect "order_success" (Some (order_id order))) /\
       order_phone_number order = " 5550100" /\
       In order
         (orders (out_db (checkout Sample.catalogue SiteSample.padded_checkout))) /\
       (forall (found : option (list Order)) (shown : option Order)
          (error search_type : option string),
        out_response
          (track_order
             (out_db (checkout Sample.catalogue SiteSample.padded_checkout))
             (Sample.track "1" "5550100")) =
        Render "medicines/track_order.html"
          (TrackContext found shown error search_type) ->
        shown <> Some order /\
        (forall l : list Order, found = Some l -> ~ In order l))).
Proof.
  split.
  - split; [reflexivity|]. split; [reflexivity|]. split; [reflexivity|]. split;
    [discriminate|]. split; [reflexivity|]. reflexivity.
  - apply (order_with_padded_phone_is_never_tracked Sample.catalogue
      SiteSample.padded_checkout SiteSample.guest_lines 23000 "12 High Street" " "%char
      "5550100" (Sample.track "1" "5550100")).
    + reflexivity.
    + reflexivity.
    + reflexivity.
    + discriminate.
    + reflexivity.
    + reflexivity.
Defined.

(** With a quantity the [OrderItem] column does not hold, the order is
    written with the phone number as it was typed, and the request ends in
    the server error instead of the redirect. *)
Example padded_order_without_redirect :
  out_response (checkout Sample.catalogue Edge.oversized_padded_checkout) = ServerError
  /\ map order_phone_number
         (orders (out_db (checkout Sample.catalogue Edge.oversized_padded_checkout)))
     = [" 5550100"]
  /\ order_items (out_db (checkout Sample.catalogue Edge.oversized_padded_checkout)) = [].
Proof. repeat split. Qed.

(** ** Deleting orders and medicines *)

Lemma map_replace_key (A : Type) (key : A -> Z) (f : A -> A) (l : list A) :
  (forall x, key (f x) = key x) -> map key (map f l) = map key l.
Proof. intros Hf. rewrite map_map. apply map_ext. exact Hf. Qed.

Lemma Forall_map_keep (A : Type) (P : A -> Prop) (f : A -> A) (l : list A) :
  (forall x, P x -> P (f x)) -> Forall P l -> Forall P (map f l).
Proof.
  intros Hf Hl. apply Forall_forall. intros y Hy.
  apply in_map_iff in Hy as (x & <- & Hx).
  rewrite Forall_forall in Hl. auto.
Qed.


Lemma db_ok_delete_medicines (p : Medicine -> bool) s :
  db_ok (site_db s) -> db_ok (site_db (delete_medicines p s)).
Proof.
  intros Hok. pose proof (ok_cart_item_medicine Hok) as Hfk.
  destruct Hok. unfold delete_medicines, tbl_delete_where.
  constructor; simpl; try assumption;
    auto using NoDup_map_filter, Forall_filter_keep.
  apply Forall_forall. intros i Hi. apply filter_In in Hi as [Hi Hkeep].
  rewrite Forall_forall in Hfk. specialize (Hfk i Hi).
  apply in_map_iff in Hfk as (m & E & Hm).
  apply in_map_iff. exists m. split; [assumption|].
  apply filter_In. split; [assumption|].
  destruct (p m) eqn:Pm; [|reflexivity].
  exfalso. apply negb_true_iff in Hkeep.
  assert (id_in (map med_id (filter p (medicines (site_db s)))) (ci_medicine i) = true)
    as Hin; [|congruence].
  unfold id_in. apply existsb_exists. exists (med_id m). split.
  - apply in_map. apply filter_In. auto.
  - rewrite E. apply Z.eqb_refl.
Qed.

Lemma db_ok_update_is_active (p : Medicine -> bool) b db :
  db_ok db -> db_ok (update_is_active p b db).
Proof.
  intros Hok. destruct Hok. unfold update_is_active.
  assert (forall l, map med_id
                      (map (fun m => if p m
                                     then mkMedicine (med_id m) (med_name m) (med_price m)
                                            (med_stock_quantity m) (med_image m) b
                                     else m) l)
                    = map med_id l) as Hids.
  { intros l. apply map_replace_key. intros m. now destruct (p m). }
  constructor; simpl; try assumption; now rewrite Hids.
Qed.

Lemma db_ok_update_stock_quantity (p : Medicine -> bool) n db db' :
  db_ok db -> update_stock_quantity p n db = Ok db' -> db_ok db'.
Proof.
  intros Hok. unfold update_stock_quantity.
  destruct ((n <? 0) && existsb p (medicines db)); [discriminate|].
  intros [= <-]. destruct Hok.
  assert (forall l, map med_id
                      (map (fun m => if p m
                                     then mkMedicine (med_id m) (med_name m) (med_price m)
                                            n (med_image m) (med_is_active m)
                                     else m) l)
                    = map med_id l) as Hids.
  { intros l. apply map_replace_key. intros m. now destruct (p m). }
  constructor; simpl; try assumption; now rewrite Hids.
Qed.

Lemma id_in_one (k x : Z) : id_in [k] x = (x =? k).
Proof. unfold id_in. simpl. apply orb_false_r. Qed.

Lemma gone_one (A : Type) (key : A -> Z) (t : list A) (r : A) :
  NoDup (map key t) -> In r t ->
  map key (filter (fun x => key x =? key r) t) = [key r].
Proof. intros Hn Hr. now rewrite (filter_key_unique A key t r Hn Hr). Qed.

Section DeleteFacts.
Context `{PyBuiltins}.


(** X13.  A staff member's POST to [admin_medicine_delete] for a medicine
    of the catalogue removes the medicine and every row that names it: the
    lines of the carts, the items of the orders already placed, the images
    and the product feedback.  The orders themselves stay as they are, their
    [total_amount] too, and the database stays sound. *)
Theorem admin_medicine_delete_cascades s request user m :
  db_ok (site_db s) ->
  req_user request = Some user ->
  user_is_active user = true -> user_is_staff user = true ->
  req_method request = POST ->
  In m (medicines (site_db s)) ->
  let s' := state (admin_medicine_delete (med_id m) s request) in
  (forall x, In x (medicines (site_db s'))
             <-> In x (medicines (site_db s)) /\ med_id x <> med_id m)
  /\ (forall i, In i (cart_items (site_db s'))
                <-> In i (cart_items (site_db s)) /\ ci_medicine i <> med_id m)
  /\ (forall i, In i (order_items (site_db s'))
                <-> In i (order_items (site_db s)) /\ oi_medicine i <> med_id m)
  /\ (forall i, In i (images s') <-> In i (images s) /\ img_medicine i <> med_id m)
  /\ (forall f, In f (product_feedbacks s')
                <-> In f (product_feedbacks s) /\ pf_medicine f <> med_id m)
  /\ orders (site_db s') = orders (site_db s)
  /\ carts (site_db s') = carts (site_db s)
  /\ customer_feedbacks s' = customer_feedbacks s
  /\ db_ok (site_db s').
Proof.
  intros Hok Hu Hact Hstaff Hpost Hin s'. subst s'.
  unfold admin_medicine_delete, staff_only, is_post.
  rewrite Hu, Hact, Hstaff, Hpost. cbn [andb].
  unfold tbl_get_or_404.
  rewrite (tbl_get_of_filter _ _ _ m)
    by (apply filter_key_unique; [apply Hok|assumption]).
  cbn [state].
  split; [|split; [|split; [|split; [|split]]]];
    try (intros x; unfold delete_medicines, tbl_delete_where;
         cbn [site_db medicines cart_items order_items images product_feedbacks];
         try rewrite (gone_one Medicine med_id (medicines (site_db s)) m
                        (ok_medicine_pk Hok) Hin);
         rewrite filter_In; try rewrite id_in_one;
         rewrite negb_true_iff, Z.eqb_neq; reflexivity).
  split; [reflexivity|]. split; [reflexivity|]. split; [reflexivity|].
  now apply db_ok_delete_medicines.
Qed.

(** X14.  Once a medicine is deleted, a guest whose session cart holds
    that medicine alone has an empty cart: [checkout] answers with the
    empty-cart message and places no order, though the session still has
    the item. *)
Theorem checkout_after_medicine_delete s admin user m guest line :
  db_ok (site_db s) ->
  req_user admin = Some user ->
  user_is_active user = true -> user_is_staff user = true ->
  req_method admin = POST ->
  In m (medicines (site_db s)) ->
  req_user guest = None ->
  session_cart (req_session guest) = [(py_str (med_id m), line)] ->
  let db' := site_db (state (admin_medicine_delete (med_id m) s admin)) in
  checkout db' guest
  = mkOutcome (Redirect "cart_detail" None) db' (req_session guest)
              [(ERROR, "Your cart is empty!")].
Proof.
  intros Hok Hu Hact Hstaff Hpost Hin Hguest Hcart db'. subst db'.
  unfold admin_medicine_delete, staff_only, is_post.
  rewrite Hu, Hact, Hstaff, Hpost. cbn [andb].
  unfold tbl_get_or_404.
  rewrite (tbl_get_of_filter _ _ _ m)
    by (apply filter_key_unique; [apply Hok|assumption]).
  cbn [state].
  unfold checkout, resolve_cart. rewrite Hguest, Hcart.
  cbn [session_lines]. rewrite py_int_str.
  rewrite tbl_get_none; [reflexivity|].
  unfold delete_medicines, tbl_delete_where. cbn [site_db medicines].
  apply filter_none. intros x Hx. apply filter_In in Hx as [_ Hx].
  apply negb_true_iff in Hx. exact Hx.
Qed.

End DeleteFacts.


Lemma admin_medicine_delete_cascades_witness :
  (db_ok (site_db SiteSample.site)
   /\ req_user (SiteSample.staff_form []) = Some Sample.staff
   /\ user_is_active Sample.staff = true
   /\ user_is_staff Sample.staff = true
   /\ req_method (SiteSample.staff_form []) = POST
   /\ In Sample.medicine_a (medicines (site_db SiteSample.site)))
  /\ (let s' :=
       state
         (admin_medicine_delete (med_id Sample.medicine_a) SiteSample.site
            (SiteSample.staff_form []))
       in
     (forall x : Medicine,
      In x (medicines (site_db s')) <->
      In x (medicines (site_db SiteSample.site)) /\ med_id x <> med_id Sample.medicine_a) /\
     (forall i : CartItem,
      In i (cart_items (site_db s')) <->
      In i (cart_items (site_db SiteSample.site)) /\
      ci_medicine i <> med_id Sample.medicine_a) /\
     (forall i : OrderItem,
      In i (order_items (site_db s')) <->
      In i (order_items (site_db SiteSample.site)) /\
      oi_medicine i <> med_id Sample.medicine_a) /\
     (forall i : MedicineImage,
      In i (images s') <->
      In i (images SiteSample.site) /\ img_medicine i <> med_id Sample.medicine_a) /\
     (forall f : ProductFeedback,
      In f (product_feedbacks s') <->
      In f (product_feedbacks SiteSample.site) /\
      pf_medicine f <> med_id Sample.medicine_a) /\
     orders (site_db s') = orders (site_db SiteSample.site) /\
     carts (site_db s') = carts (site_db SiteSample.site) /\
     customer_feedbacks s' = customer_feedbacks SiteSample.site /\ db_ok (site_db s')).
Proof.
  split.
  - split; [apply db_check_sound; reflexivity|]. split; [reflexivity|]. split;
    [reflexivity|]. split; [reflexivity|]. split; [reflexivity|]. simpl; tauto.
  - apply (admin_medicine_delete_cascades SiteSample.site (SiteSample.staff_form [])
      Sample.staff Sample.medicine_a).
    + apply db_check_sound; reflexivity.
    + reflexivity.
    + reflexivity.
    + reflexivity.
    + reflexivity.
    + simpl; tauto.
Defined.

Lemma checkout_after_medicine_delete_witness :
  (db_ok (site_db SiteSample.site)
   /\ req_user (SiteSample.staff_form []) = Some Sample.staff
   /\ user_is_active Sample.staff = true
   /\ user_is_staff Sample.staff = true
   /\ req_method (SiteSample.staff_form []) = POST
   /\ In Sample.medicine_a (medicines (site_db SiteSample.site))
   /\ req_user SiteSample.guest_of_a = None
   /\ session_cart (req_session SiteSample.guest_of_a) = [(py_str (med_id
       Sample.medicine_a), SiteSample.line_a)])
  /\ (let db' :=
       site_db
         (state
            (admin_medicine_delete (med_id Sample.medicine_a) SiteSample.site
               (SiteSample.staff_form [])))
       in
     checkout db' SiteSample.guest_of_a =
     {|
       out_response := Redirect "cart_detail" None;
       out_db := db';
       out_session := req_session SiteSample.guest_of_a;
       out_messages := [(ERROR, "Your cart is empty!")]
     |}).
Proof.
  split.
  - split; [apply db_check_sound; reflexivity|]. split; [reflexivity|]. split;
    [reflexivity|]. split; [reflexivity|]. split; [reflexivity|]. split; [simpl;
    tauto|]. split; [reflexivity|]. reflexivity.
  - apply (@checkout_after_medicine_delete decimal_builtins SiteSample.site
      (SiteSample.staff_form []) Sample.staff Sample.medicine_a SiteSample.guest_of_a
      SiteSample.line_a).
    + apply db_check_sound; reflexivity.
    + reflexivity.
    + reflexivity.
    + reflexivity.
    + reflexivity.
    + simpl; tauto.
    + reflexivity.
    + reflexivity.
Defined.

(** ** Bulk actions on medicines *)

Lemma stock_ok_update_is_active p b db :
  stock_ok db -> stock_ok (update_is_active p b db).
Proof.
  unfold stock_ok, update_is_active. cbn [medicines]. intros Hs.
  apply Forall_map_keep; [|assumption]. intros m Hm. now destruct (p m).
Qed.

Lemma stock_ok_update_stock_quantity p n db db' :
  stock_ok db -> update_stock_quantity p n db = Ok db' -> stock_ok db'.
Proof.
  unfold stock_ok, update_stock_quantity. intros Hs.
  destruct (n <? 0) eqn:Hn; cbn [andb].
  - destruct (existsb p (medicines db)) eqn:Hex; [discriminate|].
    intros [= <-]. cbn [medicines].
    apply Forall_forall. intros y Hy. apply in_map_iff in Hy as (m & <- & Hm).
    assert (p m = false) as ->.
    { destruct (p m) eqn:Pm; [|reflexivity].
      assert (existsb p (medicines db) = true); [|congruence].
      apply existsb_exists. eauto. }
    rewrite Forall_forall in Hs. auto.
  - intros [= <-]. cbn [medicines]. apply Z.ltb_ge in Hn.
    apply Forall_map_keep; [|assumption]. intros m Hm. now destruct (p m).
Qed.

Lemma stock_ok_delete_medicines p s :
  stock_ok (site_db s) -> stock_ok (site_db (delete_medicines p s)).
Proof.
  unfold stock_ok, delete_medicines, tbl_delete_where. cbn [site_db medicines].
  apply Forall_filter_keep.
Qed.

Section BulkFacts.
Context `{PyBuiltins}.
Variable is_expired : Medicine -> bool.

(** Every bulk action keeps a property of the enlarged database that the
    three updates keep. *)
Lemma admin_bulk_actions_keeps (P : DB -> Prop) f s request :
  (forall p b db, P db -> P (update_is_active p b db)) ->
  (forall p n db db', P db -> update_stock_quantity p n db = Ok db' -> P db') ->
  (forall p s, P (site_db s) -> P (site_db (delete_medicines p s))) ->
  P (site_db s) ->
  P (site_db (state (admin_bulk_actions is_expired f s request))).
Proof.
  intros Hact Hstock Hdel Hs.
  unfold admin_bulk_actions, staff_only.
  destruct (req_user request) as [user|]; [|exact Hs].
  destruct (user_is_active user && user_is_staff user); [|exact Hs].
  destruct (is_post request); [|exact Hs].
  destruct (post_getlist "medicine_ids" (req_POST request)) as [|v vs]; [exact Hs|].
  destruct (prep_ids (v :: vs)) as [ids|e]; [|exact Hs].
  repeat match goal with
         | |- context [if action_is ?a ?n then _ else _] =>
             destruct (action_is a n)
         end; cbn [state site_db set_site_db]; auto.
  - destruct (dict_get "new_stock" (req_POST request)) as [new_stock|]; [|exact Hs].
    destruct (truthy new_stock); [|exact Hs].
    destruct (py_int new_stock) as [n|]; [|exact Hs].
    destruct (update_stock_quantity _ n (site_db s)) as [db'|e] eqn:E; [|exact Hs].
    cbn [state site_db set_site_db]. eauto.
  - destruct (update_stock_quantity _ 5 (site_db s)) as [db'|e] eqn:E; [|exact Hs].
    cbn [state site_db set_site_db]. eauto.
Qed.

Lemma bulk_selection f s request user v vs ids :
  req_user request = Some user ->
  user_is_active user = true -> user_is_staff user = true ->
  req_method request = POST ->
  post_getlist "medicine_ids" (req_POST request) = v :: vs ->
  prep_ids (v :: vs) = Ok ids ->
  forall name,
    dict_get "action" (req_POST request) = Some name ->
    admin_bulk_actions is_expired f s request
    = (let selected := fun m => id_in ids (med_id m) in
       let len := py_str (Z.of_nat (List.length (v :: vs))) in
       let back fl s' := mkResult (Goto "admin_medicines" None) s' fl in
       if String.eqb name "activate" then
         back [(SUCCESS, len +s+ " medicines activated!")]
              (set_site_db s (update_is_active selected true (site_db s)))
       else if String.eqb name "deactivate" then
         back [(SUCCESS, len +s+ " medicines deactivated!")]
              (set_site_db s (update_is_active selected false (site_db s)))
       else admin_bulk_actions is_expired f s request).
Proof.
  intros Hu Hact Hstaff Hpost Hlist Hids name Hname.
  cbv zeta.
  destruct (String.eqb name "activate") eqn:E1;
    [|destruct (String.eqb name "deactivate") eqn:E2; [|reflexivity]];
    unfold admin_bulk_actions, staff_only, is_post;
    rewrite Hu, Hact, Hstaff, Hpost, Hlist, Hids, Hname; cbn [andb action_is];
    rewrite E1; [reflexivity|]. now rewrite E2.
Qed.

(** X15.  The second branch of [admin_bulk_actions], the one written for
    bulk actions on orders, is never run: whatever it does, the handler
    answers the same.  A POST that selects no medicine, as a POST of order
    ids does, is answered with 'No medicines selected!' and changes
    nothing. *)
Theorem admin_bulk_actions_never_reaches_orders f s request user :
  req_user request = Some user ->
  user_is_active user = true -> user_is_staff user = true ->
  req_method request = POST ->
  post_getlist "medicine_ids" (req_POST request) = [] ->
  admin_bulk_actions is_expired f s request
  = mkResult (Goto "admin_medicines" None) s [(ERROR, "No medicines selected!")]
  /\ forall g s0 r0,
       admin_bulk_actions is_expired f s0 r0 = admin_bulk_actions is_expired g s0 r0.
Proof.
  intros Hu Hact Hstaff Hpost Hlist. split.
  - unfold admin_bulk_actions, staff_only, is_post.
    now rewrite Hu, Hact, Hstaff, Hpost, Hlist.
  - intros g s0 r0. unfold admin_bulk_actions, staff_only.
    destruct (req_user r0) as [u|]; [|reflexivity].
    destruct (user_is_active u && user_is_staff u); [|reflexivity].
    now destruct (is_post r0).
Qed.

(** X16.  After the bulk action [deactivate], [add_to_cart] answers not
    found for every selected medicine, for a user and for a guest, and
    leaves database and session as they are; the medicines that were not
    selected keep their rows. *)
Theorem deactivated_medicine_cannot_be_added f s admin user v vs ids shopper medicine_id :
  req_user admin = Some user ->
  user_is_active user = true -> user_is_staff user = true ->
  req_method admin = POST ->
  dict_get "action" (req_POST admin) = Some "deactivate" ->
  post_getlist "medicine_ids" (req_POST admin) = v :: vs ->
  prep_ids (v :: vs) = Ok ids ->
  In medicine_id ids ->
  let db' := site_db (state (admin_bulk_actions is_expired f s admin)) in
  add_to_cart db' shopper medicine_id
  = mkOutcome NotFound db' (req_session shopper) []
  /\ forall m, In m (medicines (site_db s)) -> id_in ids (med_id m) = false ->
               In m (medicines db').
Proof.
  intros Hu Hact Hstaff Hpost Haction Hlist Hids Hin db'. subst db'.
  rewrite (bulk_selection f s admin user v vs ids Hu Hact Hstaff Hpost Hlist Hids
             "deactivate" Haction).
  cbv zeta. cbn [String.eqb Ascii.eqb Bool.eqb state site_db set_site_db]. split.
  - unfold add_to_cart, tbl_get_or_404.
    rewrite tbl_get_none; [reflexivity|].
    apply filter_none. intros x Hx.
    unfold update_is_active in Hx. cbn [medicines] in Hx.
    apply in_map_iff in Hx as (m & <- & Hm).
    destruct (id_in ids (med_id m)) eqn:Hsel.
    + cbn [med_id med_is_active]. apply andb_false_r.
    + destruct (Z.eqb_spec (med_id m) medicine_id) as [E|]; [|reflexivity].
      exfalso. rewrite E in Hsel.
      assert (id_in ids medicine_id = true); [|congruence].
      apply existsb_exists. exists medicine_id. split; [assumption|apply Z.eqb_refl].
  - intros m Hm Hsel. unfold update_is_active. cbn [medicines].
    apply in_map_iff. exists m. now rewrite Hsel.
Qed.

(** X17.  No bulk action leaves a medicine with a negative stock or
    breaks the database: when the database is sound and every
    [stock_quantity] is at least 0 before the request, both hold afterwards,
    whatever action, selection and [new_stock] were posted. *)
Theorem admin_bulk_actions_keeps_stock_non_negative f s request :
  db_ok (site_db s) ->
  stock_ok (site_db s) ->
  db_ok (site_db (state (admin_bulk_actions is_expired f s request)))
  /\ stock_ok (site_db (state (admin_bulk_actions is_expired f s request))).
Proof.
  intros Hok Hs. split.
  - apply (admin_bulk_actions_keeps db_ok);
      eauto using db_ok_update_is_active, db_ok_update_stock_quantity,
                  db_ok_delete_medicines.
  - apply (admin_bulk_actions_keeps stock_ok);
      eauto using stock_ok_update_is_active, stock_ok_update_stock_quantity,
                  stock_ok_delete_medicines.
Qed.

(** X18.  The bulk action [delete_inactive] does not look at the
    selection: it deletes every inactive medicine of the catalogue and
    keeps every active one, selected or not. *)
Theorem delete_inactive_ignores_selection f s request user v vs ids :
  req_user request = Some user ->
  user_is_active user = true -> user_is_staff user = true ->
  req_method request = POST ->
  dict_get "action" (req_POST request) = Some "delete_inactive" ->
  post_getlist "medicine_ids" (req_POST request) = v :: vs ->
  prep_ids (v :: vs) = Ok ids ->
  forall m,
    In m (medicines (site_db (state (admin_bulk_actions is_expired f s request))))
    <-> In m (medicines (site_db s)) /\ med_is_active m = true.
Proof.
  intros Hu Hact Hstaff Hpost Haction Hlist Hids m.
  unfold admin_bulk_actions, staff_only, is_post.
  rewrite Hu, Hact, Hstaff, Hpost, Hlist, Hids, Haction.
  cbn [andb action_is String.eqb Ascii.eqb Bool.eqb state].
  unfold delete_medicines, tbl_delete_where. cbn [site_db medicines].
  rewrite filter_In, negb_involutive. reflexivity.
Qed.

End BulkFacts.

Lemma admin_bulk_actions_never_reaches_orders_witness :
  (req_user (SiteSample.staff_form [("action", "bulk_status_update"); ("order_ids",
      "5"); ("status", "SHIPPED")]) = Some Sample.staff
   /\ user_is_active Sample.staff = true
   /\ user_is_staff Sample.staff = true
   /\ req_method (SiteSample.staff_form [("action", "bulk_status_update"); ("order_ids",
       "5"); ("status", "SHIPPED")]) = POST
   /\ post_getlist "medicine_ids" (req_POST (SiteSample.staff_form [("action",
       "bulk_status_update"); ("order_ids", "5"); ("status", "SHIPPED")])) = [])
  /\ (admin_bulk_actions SiteSample.no_expiry SiteSample.to_orders SiteSample.site
       (SiteSample.staff_form
          [("action", "bulk_status_update"); ("order_ids", "5"); ("status", "SHIPPED")]) =
     {|
       reply := Goto "admin_medicines" None;
       state := SiteSample.site;
       flashes := [(ERROR, "No medicines selected!")]
     |} /\
     (forall (g : Site -> Request -> Result unit Site) (s0 : Site) (r0 : Request),
      admin_bulk_actions SiteSample.no_expiry SiteSample.to_orders s0 r0 =
      admin_bulk_actions SiteSample.no_expiry g s0 r0)).
Proof.
  split.
  - split; [reflexivity|]. split; [reflexivity|]. split; [reflexivity|]. split;
    [reflexivity|]. reflexivity.
  - apply (@admin_bulk_actions_never_reaches_orders decimal_builtins
      SiteSample.no_expiry SiteSample.to_orders SiteSample.site (SiteSample.staff_form
      [("action", "bulk_status_update"); ("order_ids", "5"); ("status", "SHIPPED")])
      Sample.staff).
    + reflexivity.
    + reflexivity.
    + reflexivity.
    + reflexivity.
    + reflexivity.
Defined.

Lemma deactivated_medicine_cannot_be_added_witness :
  (req_user (SiteSample.staff_form [("action", "deactivate"); ("medicine_ids", "1");
      ("medicine_ids", "2")]) = Some Sample.staff
   /\ user_is_active Sample.staff = true
   /\ user_is_staff Sample.staff = true
   /\ req_method (SiteSample.staff_form [("action", "deactivate"); ("medicine_ids",
       "1"); ("medicine_ids", "2")]) = POST
   /\ dict_get "action" (req_POST (SiteSample.staff_form [("action", "deactivate");
       ("medicine_ids", "1"); ("medicine_ids", "2")])) = Some "deactivate"
   /\ post_getlist "medicine_ids" (req_POST (SiteSample.staff_form [("action",
       "deactivate"); ("medicine_ids", "1"); ("medicine_ids", "2")])) = ["1"; "2"]
   /\ prep_ids ["1"; "2"] = Ok [1; 2]
   /\ In 1 [1; 2])
  /\ (let db' :=
       site_db
         (state
            (admin_bulk_actions SiteSample.no_expiry SiteSample.to_orders SiteSample.site
               (SiteSample.staff_form
                  [("action", "deactivate"); ("medicine_ids", "1"); ("medicine_ids", "2")])))
       in
     add_to_cart db' SiteSample.alice_get 1 =
     {|
       out_response := NotFound;
       out_db := db';
       out_session := req_session SiteSample.alice_get;
       out_messages := []
     |} /\
     (forall m : Medicine,
      In m (medicines (site_db SiteSample.site)) ->
      id_in [1; 2] (med_id m) = false -> In m (medicines db'))).
Proof.
  split.
  - split; [reflexivity|]. split; [reflexivity|]. split; [reflexivity|]. split;
    [reflexivity|]. split; [reflexivity|]. split; [reflexivity|]. split;
    [reflexivity|]. simpl; tauto.
  - apply (@deactivated_medicine_cannot_be_added decimal_builtins SiteSample.no_expiry
      SiteSample.to_orders SiteSample.site (SiteSample.staff_form [("action",
      "deactivate"); ("medicine_ids", "1"); ("medicine_ids", "2")]) Sample.staff "1"
      ["2"] [1; 2] SiteSample.alice_get 1).
    + reflexivity.
    + reflexivity.
    + reflexivity.
    + reflexivity.
    + reflexivity.
    + reflexivity.
    + reflexivity.
    + simpl; tauto.
Defined.

Lemma admin_bulk_actions_keeps_stock_non_negative_witness :
  (db_ok (site_db SiteSample.site)
   /\ stock_ok (site_db SiteSample.site))
  /\ (db_ok
       (site_db
          (state
             (admin_bulk_actions SiteSample.no_expiry SiteSample.to_orders
                SiteSample.site
                (SiteSample.staff_form
                   [("action", "update_stock"); ("medicine_ids", "1");
                    ("new_stock", "-4")])))) /\
     stock_ok
       (site_db
          (state
             (admin_bulk_actions SiteSample.no_expiry SiteSample.to_orders
                SiteSample.site
                (SiteSample.staff_form
                   [("action", "update_stock"); ("medicine_ids", "1");
                    ("new_stock", "-4")]))))).
Proof.
  split.
  - split; [apply db_check_sound; reflexivity|]. apply Forall_forall; intros x Hx; simpl
    in Hx; intuition (subst; simpl; lia).
  - apply (@admin_bulk_actions_keeps_stock_non_negative decimal_builtins
      SiteSample.no_expiry SiteSample.to_orders SiteSample.site (SiteSample.staff_form
      [("action", "update_stock"); ("medicine_ids", "1"); ("new_stock", "-4")])).
    + apply db_check_sound; reflexivity.
    + apply Forall_forall; intros x Hx; simpl in Hx; intuition (subst; simpl; lia).
Defined.

Lemma delete_inactive_ignores_selection_witness :
  (req_user (SiteSample.staff_form [("action", "delete_inactive"); ("medicine_ids",
      "1")]) = Some Sample.staff
   /\ user_is_active Sample.staff = true
   /\ user_is_staff Sample.staff = true
   /\ req_method (SiteSample.staff_form [("action", "delete_inactive"); ("medicine_ids",
       "1")]) = POST
   /\ dict_get "action" (req_POST (SiteSample.staff_form [("action", "delete_inactive");
       ("medicine_ids", "1")])) = Some "delete_inactive"
   /\ post_getlist "medicine_ids" (req_POST (SiteSample.staff_form [("action",
       "delete_inactive"); ("medicine_ids", "1")])) = ["1"]
   /\ prep_ids ["1"] = Ok [1])
  /\ (forall m : Medicine,
     In m
       (medicines
          (site_db
             (state
                (admin_bulk_actions SiteSample.no_expiry SiteSample.to_orders
                   SiteSample.site
                   (SiteSample.staff_form
                      [("action", "delete_inactive"); ("medicine_ids", "1")]))))) <->
     In m (medicines (site_db SiteSample.site)) /\ med_is_active m = true).
Proof.
  split.
  - split; [reflexivity|]. split; [reflexivity|]. split; [reflexivity|]. split;
    [reflexivity|]. split; [reflexivity|]. split; [reflexivity|]. reflexivity.
  - apply (@delete_inactive_ignores_selection decimal_builtins SiteSample.no_expiry
      SiteSample.to_orders SiteSample.site (SiteSample.staff_form [("action",
      "delete_inactive"); ("medicine_ids", "1")]) Sample.staff "1" [] [1]).
    + reflexivity.
    + reflexivity.
    + reflexivity.
    + reflexivity.
    + reflexivity.
    + reflexivity.
    + reflexivity.
Defined.

(** ** Social settings *)

Module SocialSettingsFacts.
Import SiteSettings SocialSettings.

Lemma row_of_key_1 t :
  NoDup (map row_pk (rows t)) ->
  (exists r, In r (rows t) /\ row_pk r = 1
             /\ get_settings t = Ok (mkInstance (Some 1) (row_fields r), t))
  \/ (~ In 1 (map row_pk (rows t))
      /\ get_settings t
         = Ok (mkInstance (Some 1) blank,
               mkTable (rows t ++ [mkRow 1 blank]) (Z.max (seq t) (1 + 1)))).
Proof.
  intros Hn. destruct (in_dec Z.eq_dec 1 (map row_pk (rows t))) as [Hin|Hnot].
  - left. apply in_map_iff in Hin as (r & E & Hr). exists r.
    split; [assumption|]. split; [assumption|].
    rewrite (SiteSettingsFacts.get_settings_present t r); [now rewrite E|].
    apply tbl_get_of_filter. rewrite <- E. now apply filter_key_unique.
  - right. split; [assumption|].
    unfold get_settings. rewrite tbl_get_none by now apply filter_key_absent.
    unfold save, not_pk, Model_save. cbn [pk fields andb Z.eqb].
    assert (existsb (fun x => row_pk x =? 1) (rows t) = false) as ->; [|reflexivity].
    destruct (existsb _ (rows t)) eqn:Hex; [|reflexivity].
    apply existsb_exists in Hex as (x & Hx & E). apply Z.eqb_eq in E.
    exfalso. apply Hnot. rewrite <- E. now apply in_map.
Qed.

Lemma save_key_1 t r f :
  NoDup (map row_pk (rows t)) -> In r (rows t) -> row_pk r = 1 ->
  save (mkInstance (Some 1) f) t
  = Ok (mkInstance (Some 1) f, mkTable (tbl_save row_pk (mkRow 1 f) (rows t)) (seq t)).
Proof.
  intros Hn Hr E. unfold save, not_pk, Model_save. cbn [pk fields andb Z.eqb].
  assert (existsb (fun x => row_pk x =? 1) (rows t) = true) as ->; [|reflexivity].
  apply existsb_exists. exists r. split; [assumption|]. now apply Z.eqb_eq.
Qed.

Lemma settings_after_save rs sq r f :
  NoDup (map row_pk rs) -> In r rs -> row_pk r = 1 ->
  site_settings (mkTable (tbl_save row_pk (mkRow 1 f) rs) sq)
  = (Some (mkInstance (Some 1) f), mkTable (tbl_save row_pk (mkRow 1 f) rs) sq).
Proof.
  intros Hn Hr E. unfold site_settings.
  rewrite (SiteSettingsFacts.get_settings_present _ (mkRow 1 f)); [reflexivity|].
  apply tbl_get_of_filter. cbn [rows]. rewrite <- E.
  apply filter_key_saved; [assumption|assumption|now rewrite E].
Qed.

Section Facts.
Context `{PyBuiltins}.

(** X19.  What a staff member posts to [admin_social_settings] is what
    [site_settings] hands to every page afterwards: each field with the
    white space around it removed, [None] for a field left blank.  The row
    of key 1 is the one written, the other rows stay as they are, and no
    field is checked on the way, the WhatsApp number neither. *)
Theorem admin_social_settings_round_trip t request user :
  NoDup (map row_pk (rows t)) ->
  req_user request = Some user ->
  user_is_active user = true -> user_is_staff user = true ->
  req_method request = POST ->
  let res := admin_social_settings t request in
  reply res = Goto "admin_social_settings" None
  /\ site_settings (state res)
     = (Some (mkInstance (Some 1) (posted_fields request)), state res)
  /\ forall r, row_pk r <> 1 -> (In r (rows (state res)) <-> In r (rows t)).
Proof.
  intros Hn Hu Hact Hstaff Hpost res. subst res.
  unfold admin_social_settings, staff_only, is_post.
  rewrite Hu, Hact, Hstaff, Hpost. cbn [andb].
  destruct (row_of_key_1 t Hn) as [(r & Hr & E & ->)|[Hnot ->]]; cbn [pk].
  - rewrite (save_key_1 t r _ Hn Hr E). cbn [reply state rows].
    split; [reflexivity|]. split.
    + now apply (settings_after_save (rows t) (seq t) r).
    + intros x Hx. apply (tbl_save_other Row row_pk (rows t) r); auto.
      now rewrite E.
  - set (t1 := mkTable (rows t ++ [mkRow 1 blank]) (Z.max (seq t) (1 + 1))).
    assert (NoDup (map row_pk (rows t1))) as Hn1.
    { subst t1. cbn [rows]. rewrite map_app. now apply NoDup_snoc. }
    assert (In (mkRow 1 blank) (rows t1)) as Hr1.
    { subst t1. cbn [rows]. apply in_or_app. right. now left. }
    rewrite (save_key_1 t1 (mkRow 1 blank) _ Hn1 Hr1 eq_refl). cbn [reply state rows].
    split; [reflexivity|]. split.
    + now apply (settings_after_save (rows t1) (seq t1) (mkRow 1 blank)).
    + intros x Hx.
      rewrite (tbl_save_other Row row_pk (rows t1) (mkRow 1 blank)
                 (mkRow 1 (posted_fields request)) x Hn1 Hr1 eq_refl Hx).
      subst t1. cbn [rows]. rewrite in_app_iff. split; [|now left].
      intros [Hin|[<-|[]]]; [assumption|]. now contradiction Hx.
Qed.

End Facts.
End SocialSettingsFacts.

Lemma admin_social_settings_round_trip_witness :
  (NoDup (map SiteSettings.row_pk (SiteSettings.rows SiteSettings.empty))
   /\ req_user (SiteSample.staff_form [("facebook_url",
       " https://facebook.com/medshop "); ("whatsapp_number", "call 98765");
       ("website_url", "  ")]) = Some Sample.staff
   /\ user_is_active Sample.staff = true
   /\ user_is_staff Sample.staff = true
   /\ req_method (SiteSample.staff_form [("facebook_url",
       " https://facebook.com/medshop "); ("whatsapp_number", "call 98765");
       ("website_url", "  ")]) = POST)
  /\ (let res :=
       SocialSettings.admin_social_settings SiteSettings.empty
         (SiteSample.staff_form
            [("facebook_url", " https://facebook.com/medshop ");
             ("whatsapp_number", "call 98765"); ("website_url", "  ")])
       in
     reply res = Goto "admin_social_settings" None /\
     SocialSettings.site_settings (state res) =
     (Some
        {|
          SiteSettings.pk := Some 1;
          SiteSettings.fields :=
            SocialSettings.posted_fields
              (SiteSample.staff_form
                 [("facebook_url", " https://facebook.com/medshop ");
                  ("whatsapp_number", "call 98765"); ("website_url", "  ")])
        |},
      state res) /\
     (forall r : SiteSettings.Row,
      SiteSettings.row_pk r <> 1 ->
      In r (SiteSettings.rows (state res)) <->
      In r (SiteSettings.rows SiteSettings.empty))).
Proof.
  split.
  - split; [apply distinct_NoDup; reflexivity|]. split; [reflexivity|]. split;
    [reflexivity|]. split; [reflexivity|]. reflexivity.
  - apply (@SocialSettingsFacts.admin_social_settings_round_trip decimal_builtins
      SiteSettings.empty (SiteSample.staff_form [("facebook_url",
      " https://facebook.com/medshop "); ("whatsapp_number", "call 98765");
      ("website_url", "  ")]) Sample.staff).
    + apply distinct_NoDup; reflexivity.
    + reflexivity.
    + reflexivity.
    + reflexivity.
    + reflexivity.
Defined.

(** ** Images of a medicine *)

Lemma one_primary_snoc t r :
  one_primary t ->
  (img_is_primary r = true ->
   forall x, In x t -> img_medicine x = img_medicine r -> img_is_primary x = false) ->
  one_primary (t ++ [r]).
Proof.
  intros Ht Hr x y Hx Hy E Px Py.
  apply in_app_iff in Hx as [Hx|[<-|[]]]; apply in_app_iff in Hy as [Hy|[<-|[]]].
  - now apply Ht.
  - rewrite (Hr Py x Hx E) in Px. discriminate.
  - rewrite (Hr Px y Hy (eq_sym E)) in Py. discriminate.
  - reflexivity.
Qed.

Lemma one_primary_replace t r k :
  one_primary t ->
  (img_is_primary r = true ->
   forall x, In x t -> img_medicine x = img_medicine r -> img_is_primary x = false) ->
  one_primary (map (fun x => if img_id x =? k then r else x) t).
Proof.
  intros Ht Hr x y Hx Hy E Px Py.
  apply in_map_iff in Hx as (x0 & Ex & Hx). apply in_map_iff in Hy as (y0 & Ey & Hy).
  destruct (img_id x0 =? k), (img_id y0 =? k); subst.
  - reflexivity.
  - rewrite (Hr Px y Hy (eq_sym E)) in Py. discriminate.
  - rewrite (Hr Py x Hx E) in Px. discriminate.
  - now apply Ht.
Qed.

(** X20.  [MedicineImage.save] keeps a medicine from having two primary
    images: in a table where no medicine has two, with distinct keys below
    the sequence, the table after a save has the saved image, again no
    medicine with two primary images, distinct keys below the sequence, and
    the images of the other medicines as they were. *)
Theorem MedicineImage_save_keeps_one_primary
    pk medicine image alt_text is_primary uploaded_at now t seq :
  NoDup (map img_id t) ->
  Forall (fun x => img_id x < seq) t ->
  one_primary t ->
  let res := MedicineImage_save pk medicine image alt_text is_primary
                                uploaded_at now t seq in
  let r := fst (fst res) in
  let t' := snd (fst res) in
  In r t'
  /\ img_medicine r = medicine /\ img_is_primary r = is_primary
  /\ one_primary t'
  /\ NoDup (map img_id t')
  /\ Forall (fun x => img_id x < snd res) t'
  /\ forall x, img_medicine x <> medicine -> img_id x <> img_id r ->
               (In x t' <-> In x t).
Proof.
  intros Hn Hlt Hone res r t'. subst r t' res. unfold MedicineImage_save.
  set (demote := fun x : MedicineImage =>
                   if (img_medicine x =? medicine) && img_is_primary x
                   then mkMedicineImage (img_id x) (img_medicine x) (img_image x)
                          (img_alt_text x) false (img_uploaded_at x)
                   else x).
  set (t1 := if is_primary then map demote t else t).
  assert (forall x, img_id (demote x) = img_id x) as Hid.
  { intros x. unfold demote. now destruct (_ && _). }
  assert (forall x, img_medicine (demote x) = img_medicine x) as Hmed.
  { intros x. unfold demote. now destruct (_ && _). }
  assert (map img_id t1 = map img_id t) as Hids.
  { subst t1. destruct is_primary; [|reflexivity]. now apply map_replace_key. }
  assert (Forall (fun x => img_id x < seq) t1) as Hlt1.
  { subst t1. destruct is_primary; [|assumption].
    apply Forall_map_keep; [|assumption]. intros x Hx. now rewrite Hid. }
  assert (one_primary t1) as Hone1.
  { subst t1. destruct is_primary; [|assumption].
    intros x y Hx Hy E Px Py.
    apply in_map_iff in Hx as (x0 & <- & Hx). apply in_map_iff in Hy as (y0 & <- & Hy).
    rewrite !Hmed in E. unfold demote in *.
    destruct (img_medicine x0 =? medicine), (img_is_primary x0) eqn:Px0;
      cbn [andb] in *; try discriminate;
      destruct (img_medicine y0 =? medicine), (img_is_primary y0) eqn:Py0;
      cbn [andb] in *; try discriminate; auto. }
  assert (is_primary = true ->
          forall x, In x t1 -> img_medicine x = medicine -> img_is_primary x = false)
    as Hdemoted.
  { intros ->. subst t1. intros x Hx E.
    apply in_map_iff in Hx as (x0 & <- & Hx). rewrite Hmed in E. unfold demote.
    rewrite E, Z.eqb_refl. cbn [andb].
    destruct (img_is_primary x0) eqn:Px0; [reflexivity|exact Px0]. }
  assert (forall x, img_medicine x <> medicine -> (In x t1 <-> In x t)) as Hother.
  { intros x Hx. subst t1. destruct is_primary; [|reflexivity].
    rewrite in_map_iff. split.
    - intros (x0 & E & Hin). unfold demote in E.
      destruct (Z.eqb_spec (img_medicine x0) medicine) as [Em|Em]; cbn [andb] in E.
      + destruct (img_is_primary x0); subst; [|assumption].
        now contradiction Hx.
      + now subst.
    - intros Hin. exists x. split; [|assumption]. unfold demote.
      destruct (Z.eqb_spec (img_medicine x) medicine); [contradiction|reflexivity]. }
  clearbody t1. clear demote Hid Hmed.
  assert (forall r, img_medicine r = medicine -> img_is_primary r = is_primary ->
                    img_is_primary r = true ->
                    forall x, In x t1 -> img_medicine x = img_medicine r ->
                              img_is_primary x = false) as Hr.
  { intros r Em Ep P x Hx E. apply Hdemoted; congruence. }
  destruct pk as [k|].
  - destruct (existsb (fun x => img_id x =? k) t1) eqn:Hex; cbn [fst snd].
    + unfold tbl_save. cbn [img_id]. rewrite Hex.
      apply existsb_exists in Hex as (x0 & Hx0 & Ek). apply Z.eqb_eq in Ek.
      split.
      { apply in_map_iff. exists x0. split; [|assumption].
        now rewrite Ek, Z.eqb_refl. }
      split; [reflexivity|]. split; [reflexivity|]. split.
      { apply one_primary_replace; [assumption|]. now apply Hr. }
      split.
      { rewrite map_key_replace by reflexivity. now rewrite Hids. }
      split.
      { apply Forall_forall. intros y Hy. apply in_map_iff in Hy as (y0 & <- & Hy).
        rewrite Forall_forall in Hlt1.
        destruct (img_id y0 =? k); cbn [img_id]; [rewrite <- Ek|]; auto. }
      intros x Hm Hk. rewrite <- (Hother x Hm). rewrite in_map_iff. split.
      * intros (y0 & E & Hy). destruct (img_id y0 =? k); subst; [|assumption].
        now contradiction Hk.
      * intros Hin. exists x. split; [|assumption].
        destruct (Z.eqb_spec (img_id x) k); [|reflexivity]. now contradiction Hk.
    + assert (~ In k (map img_id t1)) as Hfresh.
      { intros Hin. apply in_map_iff in Hin as (x0 & E & Hx0).
        assert (existsb (fun x => img_id x =? k) t1 = true); [|congruence].
        apply existsb_exists. exists x0. split; [assumption|]. now apply Z.eqb_eq. }
      split; [apply in_or_app; right; now left|].
      split; [reflexivity|]. split; [reflexivity|]. split.
      { apply one_primary_snoc; [assumption|]. now apply Hr. }
      split.
      { rewrite map_app. cbn [map img_id]. apply NoDup_snoc; [|assumption].
        now rewrite Hids. }
      split.
      { apply Forall_app. split.
        - eapply Forall_impl; [|exact Hlt1]. cbn beta. intros; lia.
        - constructor; [cbn [img_id]; lia|constructor]. }
      intros x Hm Hk. rewrite <- (Hother x Hm), in_app_iff. split; [|now left].
      intros [Hin|[<-|[]]]; [assumption|]. now contradiction Hk.
  - cbn [fst snd].
    split; [apply in_or_app; right; now left|].
    split; [reflexivity|]. split; [reflexivity|]. split.
    { apply one_primary_snoc; [assumption|]. now apply Hr. }
    split.
    { rewrite map_app. cbn [map img_id]. apply NoDup_snoc; [now rewrite Hids|].
      now apply fresh_key. }
    split; [now apply Forall_lt_snoc|].
    intros x Hm Hk. rewrite <- (Hother x Hm), in_app_iff. split; [|now left].
    intros [Hin|[<-|[]]]; [assumption|]. now contradiction Hk.
Qed.

Lemma MedicineImage_save_keeps_one_primary_witness :
  (NoDup (map img_id (images SiteSample.site))
   /\ Forall (fun x : MedicineImage => img_id x < seq_image SiteSample.site) (images
       SiteSample.site)
   /\ one_primary (images SiteSample.site))
  /\ (let res :=
       MedicineImage_save None 1 "a-new.jpg" "" true 0 1000 (images SiteSample.site)
         (seq_image SiteSample.site)
       in
     let r := fst (fst res) in
     let t' := snd (fst res) in
     In r t' /\
     img_medicine r = 1 /\
     img_is_primary r = true /\
     one_primary t' /\
     NoDup (map img_id t') /\
     Forall (fun x : MedicineImage => img_id x < snd res) t' /\
     (forall x : MedicineImage,
      img_medicine x <> 1 ->
      img_id x <> img_id r -> In x t' <-> In x (images SiteSample.site))).
Proof.
  split.
  - split; [apply distinct_NoDup; reflexivity|]. split; [apply Forall_forall; intros x
    Hx; simpl in Hx; intuition (subst; simpl; lia)|]. intros x y Hx Hy; simpl in Hx,
    Hy; intuition (subst; first [reflexivity|discriminate]).
  - apply (MedicineImage_save_keeps_one_primary None 1 "a-new.jpg" "" true 0 1000
      (images SiteSample.site) (seq_image SiteSample.site)).
    + apply distinct_NoDup; reflexivity.
    + apply Forall_forall; intros x Hx; simpl in Hx; intuition (subst; simpl; lia).
    + intros x y Hx Hy; simpl in Hx, Hy; intuition (subst; first [reflexivity|discriminate]).
Defined.

(** ** Prices *)

(** X21.  For a price that is not negative the discount is a whole
    percentage from 0 to 100: it is the saving as a share of the MRP, cut to
    the percent below, 0 when the price is not under the MRP, and 100 only
    for a price of 0.  The saving is never negative. *)
Theorem discount_percentage_bounds mrp price :
  0 <= price ->
  let d := discount_percentage mrp price in
  0 <= d <= 100
  /\ 0 <= savings mrp price
  /\ (price < mrp -> d * mrp <= 100 * savings mrp price < (d + 1) * mrp)
  /\ (mrp <= price -> d = 0 /\ savings mrp price = 0)
  /\ (d = 100 <-> price = 0 /\ 0 < mrp).
Proof.
  intros Hp d. subst d. unfold discount_percentage, savings.
  destruct (Z.eqb_spec mrp 0) as [->|Hm]; cbn [negb andb].
  - repeat split; try lia.
  - destruct (Z.gtb_spec mrp price) as [Hgt|Hle]; [|repeat split; lia].
    rewrite Z.quot_div_nonneg by lia.
    pose proof (Z.mul_div_le (100 * (mrp - price)) mrp ltac:(lia)) as Hlo.
    pose proof (Z.mul_succ_div_gt (100 * (mrp - price)) mrp ltac:(lia)) as Hhi.
    assert (0 <= 100 * (mrp - price) / mrp) by (apply Z.div_pos; lia).
    assert (100 * (mrp - price) / mrp <= 100).
    { apply Z.div_le_upper_bound; lia. }
    split; [lia|]. split; [lia|]. split; [lia|]. split; [lia|]. split.
    + intros E. rewrite E in Hlo. lia.
    + intros [-> _]. replace (100 * (mrp - 0)) with (100 * mrp) by lia.
      apply Z.div_mul. lia.
Qed.

Lemma discount_percentage_bounds_witness :
  (0 <= 9000)
  /\ (let d := discount_percentage 10000 9000 in
     0 <= d <= 100 /\
     0 <= savings 10000 9000 /\
     (9000 < 10000 -> d * 10000 <= 100 * savings 10000 9000 < (d + 1) * 10000) /\
     (10000 <= 9000 -> d = 0 /\ savings 10000 9000 = 0) /\
     (d = 100 <-> 9000 = 0 /\ 0 < 10000)).
Proof.
  split.
  - lia.
  - apply (discount_percentage_bounds 10000 9000).
    + lia.
Defined.

(** ** The WhatsApp number *)

Lemma filter_filter (A : Type) (p : A -> bool) (l : list A) :
  filter p (filter p l) = filter p l.
Proof.
  induction l as [|x l IH]; simpl; [reflexivity|].
  destruct (p x) eqn:Px; simpl; [rewrite Px; now f_equal|assumption].
Qed.

Lemma forallb_filter_same (A : Type) (p : A -> bool) (l : list A) :
  forallb p (filter p l) = true.
Proof.
  apply forallb_forall. intros x Hx. now apply filter_In in Hx.
Qed.

Lemma filter_all (A : Type) (p : A -> bool) (l : list A) :
  forallb p l = true -> filter p l = l.
Proof.
  induction l as [|x l IH]; simpl; [reflexivity|].
  intros Hl. apply andb_true_iff in Hl as [-> Hl]. f_equal. auto.
Qed.

Lemma keep_keep p s : keep p (keep p s) = keep p s.
Proof.
  unfold keep. now rewrite list_ascii_of_string_of_list_ascii, filter_filter.
Qed.

Lemma keep_all p s :
  forallb p (list_ascii_of_string s) = true -> keep p s = s.
Proof.
  intros Hs. unfold keep. rewrite filter_all by assumption.
  apply string_of_list_ascii_of_string.
Qed.

Lemma is_plus_char c : is_plus c = true -> c = "+"%char.
Proof.
  unfold is_plus. intros E. apply Nat.eqb_eq in E.
  rewrite <- (ascii_nat_embedding c), E. reflexivity.
Qed.

Lemma truthy_length s : (0 < String.length s)%nat -> truthy s = true.
Proof. destruct s; simpl; [lia|reflexivity]. Qed.

Lemma truthy_of_list (l : list ascii) :
  truthy (string_of_list_ascii l) = match l with [] => false | _ => true end.
Proof. now destruct l. Qed.

Lemma filter_existsb (A : Type) (p : A -> bool) (l : list A) :
  match filter p l with [] => false | _ => true end = existsb p l.
Proof.
  induction l as [|x l IH]; simpl; [reflexivity|].
  now destruct (p x).
Qed.

Lemma truthy_keep p s :
  truthy (keep p s) = existsb p (list_ascii_of_string s).
Proof. unfold keep. now rewrite truthy_of_list, filter_existsb. Qed.

(** X22.  The template filter [whatsapp_number] always gives a number
    that can stand in a link: it is not empty, it has digits only, and the
    filter gives it back unchanged.  The number is made of the digits of
    the value, in their order, when the value has a digit, and is the
    default number 919710036499 when nothing is left: for [None], for the
    empty string and for a value without a digit. *)
Theorem whatsapp_number_filter_digits value :
  (forall v, value = Some v -> is_ascii v = true) ->
  let number := whatsapp_number_filter value in
  truthy number = true
  /\ forallb is_digit (list_ascii_of_string number) = true
  /\ whatsapp_number_filter (Some number) = number
  /\ (forall v, value = Some v ->
                existsb is_digit (list_ascii_of_string v) = true ->
                list_ascii_of_string number
                = filter is_digit (list_ascii_of_string v))
  /\ ((forall v, value = Some v ->
                 existsb is_digit (list_ascii_of_string v) = false) ->
      number = "919710036499").
Proof.
  intros _ number. subst number. unfold whatsapp_number_filter.
  destruct value as [v|].
  2: { repeat split; try reflexivity. intros v; discriminate. }
  destruct (truthy v) eqn:Hv.
  2: { destruct v; [|discriminate Hv].
       repeat split; try reflexivity. intros v [= <-]; discriminate. }
  destruct (truthy (keep is_digit v)) eqn:Hk.
  - split; [assumption|]. split.
    { unfold keep. rewrite list_ascii_of_string_of_list_ascii.
      apply forallb_filter_same. }
    split; [now rewrite Hk, keep_keep, Hk|].
    split.
    + intros v' [= <-] _. unfold keep.
      apply list_ascii_of_string_of_list_ascii.
    + intros Hno. specialize (Hno v eq_refl).
      rewrite truthy_keep in Hk. congruence.
  - repeat split; try reflexivity.
    intros v' [= <-] Hd. rewrite truthy_keep in Hk. congruence.
Qed.

Lemma whatsapp_number_filter_digits_witness :
  ((forall v : string, Some "+91 97100-36499" = Some v -> is_ascii v = true))
  /\ (let number := whatsapp_number_filter (Some "+91 97100-36499") in
     truthy number = true /\
     forallb is_digit (list_ascii_of_string number) = true /\
     whatsapp_number_filter (Some number) = number /\
     (forall v : string,
      Some "+91 97100-36499" = Some v ->
      existsb is_digit (list_ascii_of_string v) = true ->
      list_ascii_of_string number = filter is_digit (list_ascii_of_string v)) /\
     ((forall v : string,
       Some "+91 97100-36499" = Some v ->
       existsb is_digit (list_ascii_of_string v) = false) ->
      number = "919710036499")).
Proof.
  split.
  - intros v [= <-]; reflexivity.
  - apply (whatsapp_number_filter_digits (Some "+91 97100-36499")).
    + intros v [= <-]; reflexivity.
Defined.

(** X23.  When [clean_whatsapp_number] accepts a number that was
    entered, the value it returns is a plus sign and 10 to 15 digits; the
    method accepts that value again as it is, and the template filter turns
    it into its digits. *)
Theorem clean_whatsapp_number_accepted n c :
  is_ascii n = true -> truthy n = true ->
  clean_whatsapp_number (Some n) = Valid (Some c) ->
  exists digits,
    c = String "+"%char digits
    /\ forallb is_digit (list_ascii_of_string digits) = true
    /\ (10 <= String.length digits <= 15)%nat
    /\ clean_whatsapp_number (Some c) = Valid (Some c)
    /\ whatsapp_number_filter (Some c) = digits.
Proof.
  intros _ Hn. unfold clean_whatsapp_number. rewrite Hn.
  destruct (plus_and_digits (keep _ n)) eqn:Hp; [|discriminate].
  intros [= <-]. revert Hp. generalize (keep (fun c => is_digit c || is_plus c) n).
  intros c Hp. destruct c as [|a digits]; [discriminate|].
  cbn [plus_and_digits] in Hp.
  apply andb_true_iff in Hp as [Hp Hmax]. apply andb_true_iff in Hp as [Hp Hmin].
  apply andb_true_iff in Hp as [Hplus Hdigits].
  apply Nat.leb_le in Hmin, Hmax. apply is_plus_char in Hplus. subst a.
  exists digits. split; [reflexivity|]. split; [assumption|]. split; [lia|].
  assert (truthy digits = true) as Htd by (apply truthy_length; lia).
  split.
  - cbn [truthy]. rewrite keep_all.
    + cbn [plus_and_digits]. rewrite Hdigits.
      apply Nat.leb_le in Hmin, Hmax. now rewrite Hmin, Hmax.
    + cbn [list_ascii_of_string forallb]. apply andb_true_iff. split; [reflexivity|].
      apply forallb_forall. intros x Hx.
      rewrite forallb_forall in Hdigits. now rewrite (Hdigits x Hx).
  - unfold whatsapp_number_filter. cbn [truthy].
    assert (keep is_digit (String "+"%char digits) = digits) as ->.
    { unfold keep. cbn [list_ascii_of_string filter].
      change (is_digit "+"%char) with false. cbv iota.
      rewrite filter_all by assumption. apply string_of_list_ascii_of_string. }
    now rewrite Htd.
Qed.

Lemma clean_whatsapp_number_accepted_witness :
  (is_ascii "+91 98765 43210" = true
   /\ truthy "+91 98765 43210" = true
   /\ clean_whatsapp_number (Some "+91 98765 43210") = Valid (Some "+919876543210"))
  /\ (exists digits : string,
       "+919876543210" = String "+" digits /\
       forallb is_digit (list_ascii_of_string digits) = true /\
       (10 <= length digits <= 15)%nat /\
       clean_whatsapp_number (Some "+919876543210") = Valid (Some "+919876543210") /\
       whatsapp_number_filter (Some "+919876543210") = digits).
Proof.
  split.
  - split; [reflexivity|]. split; [reflexivity|]. reflexivity.
  - apply (clean_whatsapp_number_accepted "+91 98765 43210" "+919876543210").
    + reflexivity.
    + reflexivity.
    + reflexivity.
Defined.

(** ** The price conversion command *)

Lemma converted_id m : med_id (converted m) = med_id m.
Proof. unfold converted. now destruct (med_price m <? 10000). Qed.

Lemma convert_prices_spec queried :
  forall table n,
    NoDup (map med_id table) -> NoDup (map med_id queried) ->
    (forall m, In m queried -> In m table) ->
    convert_prices queried table n
    = (map (fun x => if id_in (map med_id queried) (med_id x) then converted x else x)
           table,
       (n + List.length (filter (fun m => (med_price m <? 10000)%Z) queried))%nat).
Proof.
  induction queried as [|medicine rest IH]; intros table n Hn Hq Hin.
  - cbn [convert_prices map id_in existsb filter List.length].
    rewrite Nat.add_0_r. f_equal. symmetry. apply map_id.
  - cbn [map] in Hq. inversion Hq as [|? ? Hfresh Hq']; subst.
    assert (In medicine table) as Hm by (apply Hin; now left).
    assert (forall x, In x table ->
              (if id_in (map med_id (medicine :: rest)) (med_id x)
               then converted x else x)
              = (fun y => if id_in (map med_id rest) (med_id y) then converted y else y)
                  (if med_id x =? med_id medicine then converted medicine else x))
      as Hstep.
    { intros x Hx. cbn [map id_in existsb].
      fold (id_in (map med_id rest) (med_id x)).
      destruct (Z.eqb_spec (med_id x) (med_id medicine)) as [E|E]; cbn [orb].
      - rewrite (key_determines_row Medicine med_id table x medicine Hn Hx Hm E).
        rewrite converted_id.
        assert (id_in (map med_id rest) (med_id medicine) = false) as ->; [|reflexivity].
        destruct (id_in _ _) eqn:Hi; [|reflexivity].
        apply existsb_exists in Hi as (k & Hk & Ek). apply Z.eqb_eq in Ek.
        subst k. contradiction.
      - reflexivity. }
    cbn [convert_prices filter].
    destruct (med_price medicine <? 10000) eqn:Hp.
    + match goal with
      | |- context [tbl_save med_id ?r table] => set (medicine' := r) in *
      end.
      assert (converted medicine = medicine') as Hconv.
      { unfold converted. now rewrite Hp. }
      rewrite Hconv in Hstep.
      rewrite IH.
      * rewrite (tbl_save_present Medicine med_id table medicine medicine'
                   Hn Hm eq_refl).
        rewrite map_map. cbn [List.length]. f_equal; [|lia].
        symmetry. apply map_ext_in. intros x Hx. rewrite (Hstep x Hx).
        reflexivity.
      * rewrite (tbl_save_keys Medicine med_id table medicine medicine'
                   Hn Hm eq_refl).
        assumption.
      * assumption.
      * intros m Hr.
        apply (tbl_save_other Medicine med_id table medicine medicine' m
                 Hn Hm eq_refl).
        -- intros E. apply Hfresh. rewrite <- E. now apply in_map.
        -- apply Hin. now right.
    + assert (converted medicine = medicine) as Hconv.
      { unfold converted. now rewrite Hp. }
      rewrite Hconv in Hstep.
      rewrite IH; try assumption.
      * f_equal. symmetry. apply map_ext_in. intros x Hx. rewrite (Hstep x Hx).
        destruct (Z.eqb_spec (med_id x) (med_id medicine)) as [E|E]; [|reflexivity].
        now rewrite (key_determines_row Medicine med_id table x medicine Hn Hx Hm E).
      * intros m Hr. apply Hin. now right.
Qed.

Lemma update_prices_to_rupees_medicines db :
  NoDup (map med_id (medicines db)) ->
  medicines (fst (update_prices_to_rupees db)) = map converted (medicines db)
  /\ snd (update_prices_to_rupees db)
     = List.length (filter (fun m => med_price m <? 10000) (medicines db)).
Proof.
  intros Hn. unfold update_prices_to_rupees. cbn [fst snd medicines].
  rewrite convert_prices_spec by auto. cbn [fst snd]. split; [|reflexivity].
  apply map_ext_in. intros x Hx.
  assert (id_in (map med_id (medicines db)) (med_id x) = true) as ->; [|reflexivity].
  apply existsb_exists. exists (med_id x). split; [now apply in_map|apply Z.eqb_refl].
Qed.

Lemma db_ok_update_prices_to_rupees db :
  db_ok db -> db_ok (fst (update_prices_to_rupees db)).
Proof.
  intros Hok.
  destruct (update_prices_to_rupees_medicines db (ok_medicine_pk Hok)) as [Hm _].
  assert (map med_id (medicines (fst (update_prices_to_rupees db)))
          = map med_id (medicines db)) as Hids.
  { rewrite Hm. apply map_replace_key. exact converted_id. }
  destruct Hok. constructor; try assumption; now rewrite Hids.
Qed.

(** X24.  The command [update_prices_to_rupees] multiplies by 83 every
    price under 100.00 and counts these medicines; it keeps the database
    sound.  It does so again on each run: a second run leaves the prices of
    the first exactly when no medicine had a price from 0.01 to 1.20. *)
Theorem update_prices_to_rupees_runs db :
  db_ok db ->
  Forall (fun m => 0 <= med_price m) (medicines db) ->
  let once := update_prices_to_rupees db in
  let twice := update_prices_to_rupees (fst once) in
  medicines (fst once) = map converted (medicines db)
  /\ snd once = List.length (filter (fun m => med_price m <? 10000) (medicines db))
  /\ db_ok (fst once)
  /\ medicines (fst twice) = map converted (map converted (medicines db))
  /\ (medicines (fst twice) = medicines (fst once)
      <-> forall m, In m (medicines db) ->
                    med_price m = 0 \/ 10000 <= med_price m * conversion_rate).
Proof.
  intros Hok Hpos once twice. subst once twice.
  pose proof (db_ok_update_prices_to_rupees db Hok) as Hok1.
  destruct (update_prices_to_rupees_medicines db (ok_medicine_pk Hok)) as [Hm Hc].
  destruct (update_prices_to_rupees_medicines _ (ok_medicine_pk Hok1)) as [Hm2 _].
  split; [assumption|]. split; [assumption|]. split; [assumption|].
  rewrite Hm2, Hm. split; [reflexivity|].
  rewrite map_map, map_ext_in_iff.
  rewrite Forall_forall in Hpos. unfold conversion_rate.
  split; intros Hall m Hin; specialize (Hall m Hin); specialize (Hpos m Hin);
    cbn beta in Hpos.
  - apply (f_equal med_price) in Hall. unfold converted, conversion_rate in Hall.
    destruct (Z.ltb_spec (med_price m) 10000) as [Hlt|Hge]; [|lia].
    cbn [med_price] in Hall.
    destruct (Z.ltb_spec (med_price m * 83) 10000) as [Hlt2|Hge2]; [|lia].
    cbn [med_price] in Hall. lia.
  - unfold converted, conversion_rate.
    destruct (Z.ltb_spec (med_price m) 10000) as [Hlt|Hge].
    + cbn [med_price].
      destruct (Z.ltb_spec (med_price m * 83) 10000) as [Hlt2|Hge2]; [|reflexivity].
      cbn [med_id med_name med_price med_stock_quantity med_image med_is_active].
      f_equal. lia.
    + destruct (Z.ltb_spec (med_price m) 10000); [lia|reflexivity].
Qed.

Lemma update_prices_to_rupees_runs_witness :
  (db_ok SiteSample.dollars
   /\ Forall (fun m : Medicine => 0 <= med_price m) (medicines SiteSample.dollars))
  /\ (let once := update_prices_to_rupees SiteSample.dollars in
     let twice := update_prices_to_rupees (fst once) in
     medicines (fst once) = map converted (medicines SiteSample.dollars) /\
     snd once =
     Datatypes.length
       (filter (fun m : Medicine => med_price m <? 10000) (medicines SiteSample.dollars)) /\
     db_ok (fst once) /\
     medicines (fst twice) = map converted (map converted (medicines SiteSample.dollars)) /\
     (medicines (fst twice) = medicines (fst once) <->
      (forall m : Medicine,
       In m (medicines SiteSample.dollars) ->
       med_price m = 0 \/ 10000 <= med_price m * conversion_rate))).
Proof.
  split.
  - split; [apply db_check_sound; reflexivity|]. apply Forall_forall; intros x Hx; simpl
    in Hx; intuition (subst; simpl; lia).
  - apply (update_prices_to_rupees_runs SiteSample.dollars).
    + apply db_check_sound; reflexivity.
    + apply Forall_forall; intros x Hx; simpl in Hx; intuition (subst; simpl; lia).
Defined.

(** ** Feedback *)

Lemma insert_feedback_perm f l : Permutation (insert_feedback f l) (f :: l).
Proof.
  induction l as [|x l IH]; simpl; [reflexivity|].
  destruct (if Bool.eqb _ _ then _ else _); [reflexivity|].
  rewrite IH. apply perm_swap.
Qed.

Lemma sort_feedback_perm l : Permutation (fold_right insert_feedback [] l) l.
Proof.
  induction l as [|x l IH]; simpl; [reflexivity|].
  rewrite insert_feedback_perm. now constructor.
Qed.

Lemma shown_before_trans x y z :
  shown_before x y -> shown_before y z -> shown_before x z.
Proof.
  unfold shown_before. intros [Hxy Txy] [Hyz Tyz].
  destruct (cf_is_featured x), (cf_is_featured y), (cf_is_featured z);
    split; intros; try discriminate; auto; try lia;
    try (now (specialize (Hxy eq_refl)));
    try (now (specialize (Hyz eq_refl)));
    specialize (Txy eq_refl); specialize (Tyz eq_refl); lia.
Qed.

Lemma insert_feedback_sorted f l :
  StronglySorted shown_before l -> StronglySorted shown_before (insert_feedback f l).
Proof.
  induction l as [|x l IH]; simpl; intros Hs.
  - repeat constructor.
  - inversion Hs as [|? ? Hl Hx]; subst.
    destruct (if Bool.eqb _ _ then _ else _) eqn:Hc.
    + assert (shown_before f x) as Hfx.
      { unfold shown_before.
        destruct (cf_is_featured x), (cf_is_featured f); cbn [Bool.eqb] in Hc;
          try discriminate; split; intros; try discriminate; auto;
          apply Z.leb_le in Hc; lia. }
      constructor; [assumption|]. constructor; [assumption|].
      eapply Forall_impl; [|exact Hx]. intros y Hy.
      now apply (shown_before_trans f x y).
    + assert (shown_before x f) as Hxf.
      { unfold shown_before.
        destruct (cf_is_featured x), (cf_is_featured f); cbn [Bool.eqb] in Hc;
          try discriminate; split; intros; try discriminate; auto;
          apply Z.leb_gt in Hc; lia. }
      constructor; [now apply IH|].
      eapply Permutation_Forall; [symmetry; apply insert_feedback_perm|].
      now constructor.
Qed.

Lemma sort_feedback_sorted l : StronglySorted shown_before (fold_right insert_feedback [] l).
Proof.
  induction l as [|x l IH]; simpl; [constructor|]. now apply insert_feedback_sorted.
Qed.

Lemma In_firstn (A : Type) (n : nat) (l : list A) (x : A) :
  In x (firstn n l) -> In x l.
Proof.
  revert l. induction n as [|n IH]; intros [|y l]; simpl; try tauto.
  intros [->|Hx]; auto.
Qed.

Lemma StronglySorted_firstn (A : Type) (R : A -> A -> Prop) (n : nat) (l : list A) :
  StronglySorted R l -> StronglySorted R (firstn n l).
Proof.
  revert l. induction n as [|n IH]; intros [|y l] Hs; simpl; try constructor.
  - apply IH. now inversion Hs.
  - inversion Hs as [|? ? _ Hy]; subst. apply Forall_forall. intros x Hx.
    apply In_firstn in Hx. rewrite Forall_forall in Hy. auto.
Qed.

Lemma approved_feedbacks_In s f :
  In f (approved_feedbacks s) -> In f (customer_feedbacks s) /\ cf_is_approved f = true.
Proof.
  unfold approved_feedbacks, tbl_filter. intros Hf. apply In_firstn in Hf.
  apply (Permutation_in _ (sort_feedback_perm _)) in Hf. now apply filter_In in Hf.
Qed.

(** X25.  The home page shows at most six feedbacks, each one an approved
    row of the table, the featured ones first and the newer before the
    older among the featured and among the others; when six or fewer are
    approved it shows them all. *)
Theorem approved_feedbacks_shown s :
  (List.length (approved_feedbacks s) <= 6)%nat
  /\ (forall f, In f (approved_feedbacks s) ->
                In f (customer_feedbacks s) /\ cf_is_approved f = true)
  /\ StronglySorted shown_before (approved_feedbacks s)
  /\ ((List.length (filter cf_is_approved (customer_feedbacks s)) <= 6)%nat ->
      Permutation (approved_feedbacks s) (filter cf_is_approved (customer_feedbacks s))).
Proof.
  split; [apply firstn_le_length|]. split; [apply approved_feedbacks_In|]. split.
  - apply StronglySorted_firstn, sort_feedback_sorted.
  - intros Hlen. unfold approved_feedbacks, tbl_filter.
    rewrite firstn_all2; [apply sort_feedback_perm|].
    now rewrite (Permutation_length (sort_feedback_perm _)).
Qed.

Section FeedbackFacts.
Context `{PyBuiltins}.

(** X26.  Feedback that a visitor submits is not shown before a staff
    member approves it: [submit_feedback] leaves the feedbacks of the home
    page and every row of the table as they are, and the row it adds, when
    it adds one, is neither approved nor featured and has a name. *)
Theorem submitted_feedback_waits_for_approval s request referer :
  let s' := state (submit_feedback s request referer) in
  approved_feedbacks s' = approved_feedbacks s
  /\ (forall f, In f (customer_feedbacks s) -> In f (customer_feedbacks s'))
  /\ (forall f, In f (customer_feedbacks s') -> ~ In f (customer_feedbacks s) ->
                cf_is_approved f = false /\ cf_is_featured f = false
                /\ truthy (cf_name f) = true)
  /\ site_db s' = site_db s.
Proof.
  intros s'. subst s'. unfold submit_feedback.
  destruct (is_post request); [|now repeat split].
  destruct (dict_get "rating" (req_POST request)) as [r|]; [|now repeat split].
  destruct (truthy (posted_stripped "name" request)) eqn:Hname; cbn [andb];
    [|now repeat split].
  destruct (truthy r); [|now repeat split].
  destruct (py_int r) as [n|]; [|now repeat split].
  cbn [state]. split.
  - unfold approved_feedbacks, tbl_filter, set_customer_feedbacks.
    cbn [customer_feedbacks]. rewrite filter_app. cbn [filter cf_is_approved].
    now rewrite app_nil_r.
  - unfold set_customer_feedbacks. cbn [customer_feedbacks site_db].
    split; [intros f Hf; apply in_or_app; now left|]. split; [|reflexivity].
    intros f Hf Hnew. apply in_app_iff in Hf as [Hf|[<-|[]]]; [contradiction|].
    cbn [cf_is_approved cf_is_featured cf_name]. auto.
Qed.

(** X27.  Only approved feedback is featured, and [submit_feedback] and
    [admin_feedback_action] keep it so: no action of the feedback page
    leaves a featured feedback that is not approved. *)
Theorem feedback_handlers_keep_featured_approved
    s request referer feedback_type feedback_id :
  featured_is_approved s ->
  featured_is_approved (state (submit_feedback s request referer))
  /\ featured_is_approved
       (state (admin_feedback_action feedback_type feedback_id s request)).
Proof.
  unfold featured_is_approved. intros Hs. split.
  - unfold submit_feedback.
    destruct (is_post request); [|assumption].
    destruct (dict_get "rating" (req_POST request)) as [r|]; [|assumption].
    destruct (truthy _ && truthy r); [|assumption].
    destruct (py_int r) as [n|]; [|assumption].
    cbn [state set_customer_feedbacks customer_feedbacks].
    apply Forall_app. split; [assumption|]. constructor; [discriminate|constructor].
  - unfold admin_feedback_action, staff_only.
    destruct (req_user request) as [user|]; [|assumption].
    destruct (user_is_active user && user_is_staff user); [|assumption].
    destruct (String.eqb feedback_type "product").
    + destruct (tbl_get_or_404 _ (product_feedbacks s)) as [feedback|e];
        [|assumption].
      repeat match goal with
             | |- context [if action_is ?a ?n then _ else _] =>
                 destruct (action_is a n)
             end; assumption.
    + destruct (tbl_get_or_404 _ (customer_feedbacks s)) as [feedback|e] eqn:Hget;
        [|assumption].
      apply tbl_get_or_404_Ok, tbl_get_In in Hget as [Hin _].
      assert (cf_is_featured feedback = true -> cf_is_approved feedback = true)
        as Hfb.
      { rewrite Forall_forall in Hs. now apply Hs. }
      assert (forall f', (cf_is_featured f' = true -> cf_is_approved f' = true) ->
                Forall (fun f => cf_is_featured f = true -> cf_is_approved f = true)
                       (tbl_save cf_id f' (customer_feedbacks s))) as Hsave.
      { intros f' Hf'. unfold tbl_save.
        destruct (existsb _ _).
        - apply Forall_forall. intros y Hy. apply in_map_iff in Hy as (x & <- & Hx).
          rewrite Forall_forall in Hs. destruct (cf_id x =? cf_id f'); auto.
        - apply Forall_app. split; [assumption|]. now constructor. }
      repeat match goal with
             | |- context [if action_is ?a ?n then _ else _] =>
                 destruct (action_is a n)
             end;
        cbn [state set_customer_feedbacks customer_feedbacks];
        try assumption;
        try (apply Hsave; cbn [set_cf_flags cf_is_featured cf_is_approved];
             auto; discriminate).
      unfold tbl_delete. now apply Forall_filter_keep.
Qed.

(** X28.  Once a staff member has unapproved a customer feedback, the
    home page does not show it. *)
Theorem unapproved_feedback_leaves_home_page s request user feedback_type feedback_id :
  NoDup (map cf_id (customer_feedbacks s)) ->
  req_user request = Some user ->
  user_is_active user = true -> user_is_staff user = true ->
  String.eqb feedback_type "product" = false ->
  dict_get "action" (req_POST request) = Some "unapprove" ->
  forall f,
    In f (approved_feedbacks
            (state (admin_feedback_action feedback_type feedback_id s request))) ->
    cf_id f <> feedback_id.
Proof.
  intros Hn Hu Hact Hstaff Htype Haction f Hf.
  apply approved_feedbacks_In in Hf as [Hin Happ]. revert Hin.
  unfold admin_feedback_action, staff_only.
  rewrite Hu, Hact, Hstaff, Htype, Haction. cbn [andb].
  destruct (in_dec Z.eq_dec feedback_id (map cf_id (customer_feedbacks s)))
    as [Hex|Hnot].
  - apply in_map_iff in Hex as (feedback & E & Hfb). subst feedback_id.
    unfold tbl_get_or_404.
    rewrite (tbl_get_of_filter _ _ _ feedback) by now apply filter_key_unique.
    cbn [action_is String.eqb Ascii.eqb Bool.eqb state set_customer_feedbacks
         customer_feedbacks].
    rewrite (tbl_save_present CustomerFeedback cf_id (customer_feedbacks s) feedback
               (set_cf_flags feedback false false) Hn Hfb eq_refl).
    intros Hin. apply in_map_iff in Hin as (x & Ex & Hx).
    destruct (Z.eqb_spec (cf_id x) (cf_id feedback)) as [E|E].
    + subst f. cbn [set_cf_flags cf_is_approved] in Happ. discriminate.
    + now subst x.
  - unfold tbl_get_or_404.
    rewrite tbl_get_none by now apply filter_key_absent.
    cbn [failed state]. intros Hin E. apply Hnot. rewrite <- E. now apply in_map.
Qed.

End FeedbackFacts.

Lemma feedback_handlers_keep_featured_approved_witness :
  (featured_is_approved SiteSample.site)
  /\ (featured_is_approved
       (state
          (submit_feedback SiteSample.site
             (SiteSample.staff_form [("action", "unapprove")]) None)) /\
     featured_is_approved
       (state
          (admin_feedback_action "customer" 1 SiteSample.site
             (SiteSample.staff_form [("action", "unapprove")])))).
Proof.
  split.
  - repeat (constructor; [simpl; intros; first [reflexivity|discriminate]|]);
    constructor.
  - apply (@feedback_handlers_keep_featured_approved decimal_builtins SiteSample.site
      (SiteSample.staff_form [("action", "unapprove")]) None "customer" 1).
    + repeat (constructor; [simpl; intros; first [reflexivity|discriminate]|]); constructor.
Defined.

Lemma unapproved_feedback_leaves_home_page_witness :
  (NoDup (map cf_id (customer_feedbacks SiteSample.site))
   /\ req_user (SiteSample.staff_form [("action", "unapprove")]) = Some Sample.staff
   /\ user_is_active Sample.staff = true
   /\ user_is_staff Sample.staff = true
   /\ ("customer" =? "product")%string = false
   /\ dict_get "action" (req_POST (SiteSample.staff_form [("action", "unapprove")])) =
       Some "unapprove")
  /\ (forall f : CustomerFeedback,
     In f
       (approved_feedbacks
          (state
             (admin_feedback_action "customer" 1 SiteSample.site
                (SiteSample.staff_form [("action", "unapprove")])))) ->
     cf_id f <> 1).
Proof.
  split.
  - split; [apply distinct_NoDup; reflexivity|]. split; [reflexivity|]. split;
    [reflexivity|]. split; [reflexivity|]. split; [reflexivity|]. reflexivity.
  - apply (unapproved_feedback_leaves_home_page SiteSample.site (SiteSample.staff_form
      [("action", "unapprove")]) Sample.staff "customer" 1).
    + apply distinct_NoDup; reflexivity.
    + reflexivity.
    + reflexivity.
    + reflexivity.
    + reflexivity.
    + reflexivity.
Defined.
